(** * glucometerutils: readings, unit conversion and the dump command

    A shallow embedding of [glucometerutils/common.py] and of the command
    line driver [glucometer.py], with the properties of their
    specification that concern unit conversion, CSV/TSV serialisation and
    the [dump] sub-command.

    [glucometer.py] reads two constants from [common.py] that the module
    does not define, the first while [main] builds its argument parser.
    [main] is embedded as it is written, so that it stops there; the
    statements behind that point are embedded as well, each group of lines
    as a function of the values it works on, and the properties of the
    command line are stated about these functions.

    Layout: the Python values the code manipulates (floats, strings,
    datetimes, exceptions) come first, then [common.py], then
    [glucometer.py]; the lemmas and theorems follow the definitions. *)

From Stdlib Require Import ZArith QArith Qround Qabs Qpower Lqa Lia.
From Stdlib Require Import List String Ascii Bool DecimalString.
From Stdlib Require Import Permutation Sorted.
From Stdlib Require PrimFloat FloatOps SpecFloat.
Import ListNotations.

Local Open Scope string_scope.

(* ================================================================== *)
(** * Python floats *)
(* ================================================================== *)

(** Python's [float] is IEEE-754 binary64.  A finite float is a sign and a
    dyadic magnitude [m * 2^e]; signed zeros are [Ffin s 0 _].  Every
    arithmetic operation is the exact rational result rounded to the
    nearest representable value, ties to even, which is how IEEE-754
    defines [*] and [/] and how CPython defines [round(x, n)] (the exact
    decimal rounding of [x], converted back with a correctly rounded
    [strtod]). *)
Module PyFloat.

Inductive pyfloat : Type :=
| Fnan : pyfloat
| Finf (neg : bool) : pyfloat
| Ffin (neg : bool) (m : N) (e : Z) : pyfloat.

Definition pow2 (k : Z) : Q := (2 ^ k)%Q.

Definition magnitude (m : N) (e : Z) : Q :=
  (inject_Z (Z.of_N m) * pow2 e)%Q.

Definition is_finite (x : pyfloat) : bool :=
  match x with Ffin _ _ _ => true | _ => false end.

(** The rational a finite float denotes ([0] for the others). *)
Definition F2Q (x : pyfloat) : Q :=
  match x with
  | Ffin true m e => (- magnitude m e)%Q
  | Ffin false m e => magnitude m e
  | _ => 0%Q
  end.

(** Nearest integer, ties to the even one. *)
Definition round_half_even (y : Q) : Z :=
  let f := Qfloor y in
  match ((y - inject_Z f) ?= (1 # 2))%Q with
  | Lt => f
  | Gt => (f + 1)%Z
  | Eq => if Z.even f then f else (f + 1)%Z
  end.

(** [floor (log2 x)] for a positive rational. *)
Definition ilog2 (x : Q) : Z :=
  let k := (Z.log2 (Qnum x) - Z.log2 (Zpos (Qden x)))%Z in
  if Qle_bool (pow2 k) x then k else (k - 1)%Z.

(** binary64: 53 bits of precision, least exponent -1074, overflow at
    [2^1024]. *)
Definition prec : Z := 53.
Definition emin : Z := -1074.
Definition emax : Z := 1024.

(** The exponent of the unit in the last place of a positive [x]. *)
Definition ulp_exp (x : Q) : Z := Z.max (ilog2 x - (prec - 1)) emin.

(** Round the non-negative rational [x] to binary64, with the sign [neg]. *)
Definition round_binary64 (neg : bool) (x : Q) : pyfloat :=
  match Qnum x with
  | Zpos _ =>
      let e := ulp_exp x in
      let m := round_half_even (x / pow2 e) in
      if Qle_bool (pow2 emax) (inject_Z m * pow2 e)
      then Finf neg
      else Ffin neg (Z.to_N m) e
  | _ => Ffin neg 0 0
  end.

Definition of_Z (z : Z) : pyfloat :=
  round_binary64 (z <? 0)%Z (inject_Z (Z.abs z)).

(** [x * y] on floats. *)
Definition fmul (x y : pyfloat) : pyfloat :=
  match x, y with
  | Fnan, _ | _, Fnan => Fnan
  | Finf s, Finf s' => Finf (xorb s s')
  | Finf s, Ffin s' m _ | Ffin s m _, Finf s' =>
      if (m =? 0)%N then Fnan else Finf (xorb s s')
  | Ffin s m e, Ffin s' m' e' =>
      round_binary64 (xorb s s') (magnitude m e * magnitude m' e')
  end.

(** [x / y] on floats.  Python raises [ZeroDivisionError] for a zero
    divisor; the code divides by the literal [18.0] only, so that case is
    given its IEEE-754 value here. *)
Definition fdiv (x y : pyfloat) : pyfloat :=
  match x, y with
  | Fnan, _ | _, Fnan => Fnan
  | Finf _, Finf _ => Fnan
  | Finf s, Ffin s' _ _ => Finf (xorb s s')
  | Ffin s _ _, Finf s' => Ffin (xorb s s') 0 0
  | Ffin s m e, Ffin s' m' e' =>
      if (m' =? 0)%N
      then (if (m =? 0)%N then Fnan else Finf (xorb s s'))
      else round_binary64 (xorb s s') (magnitude m e / magnitude m' e')
  end.

(** [round(x, ndigits)] for a float [x] and [ndigits >= 0]: nan and the
    infinities round to themselves, a finite [x] goes to the float nearest
    to its exact value rounded half-even at [ndigits] decimals. *)
Definition py_round (x : pyfloat) (ndigits : N) : pyfloat :=
  match x with
  | Ffin s m e =>
      let p := inject_Z (10 ^ Z.of_N ndigits) in
      round_binary64 s (inject_Z (round_half_even (magnitude m e * p)) / p)
  | _ => x
  end.

(** The literal [18.0]. *)
Definition f18 : pyfloat := Ffin false 18 0.

(** ** Printing *)

Definition dec (n : N) : string := NilZero.string_of_uint (N.to_uint n).

Fixpoint zeros (n : nat) : string :=
  match n with O => "" | S k => String "0" (zeros k) end.

Fixpoint strip_trailing_zeros_rev (s : list ascii) : list ascii :=
  match s with
  | "0"%char :: t => strip_trailing_zeros_rev t
  | _ => s
  end.

Definition strip_trailing_zeros (s : string) : string :=
  string_of_list_ascii
    (rev (strip_trailing_zeros_rev (rev (list_ascii_of_string s)))).

Definition pow10 (k : Z) : Q := (inject_Z 10 ^ k)%Q.

(** [floor (log10 x)] for a positive rational, from the binary logarithm. *)
Definition ilog10 (x : Q) : Z :=
  let g := ((ilog2 x * 30103) / 100000)%Z in
  if Qle_bool (pow10 (g + 1)) x then (g + 1)%Z
  else if Qle_bool (pow10 g) x then g
  else (g - 1)%Z.

(** [k * 10^t] reads back as [target]: it is nearer to it than to any other
    float (ties to even). *)
Definition reads_back (k t : Z) (target : pyfloat) : bool :=
  Qeq_bool (F2Q (round_binary64 false (inject_Z k * pow10 t))) (F2Q target).

(** The exponent [t] that gives [x] exactly [p] digits before the point,
    and [x] scaled by it. *)
Definition scale_exp (x : Q) (p : Z) : Z := (ilog10 x + 1 - p)%Z.
Definition scaled (x : Q) (p : Z) : Q := (x / pow10 (scale_exp x p))%Q.

(** The [p]-digit decimal [repr] takes for [x], if there is one: of the two
    [p]-digit decimals around [x] one that reads back as the float; when
    both do, the nearer to [x], and the even one when they are equally
    near. *)
Definition decimal_digits (x : Q) (p : Z) (target : pyfloat)
  : option (Z * Z) :=
  let t := scale_exp x p in
  let below := Qfloor (scaled x p) in
  let above := (below + 1)%Z in
  match reads_back below t target, reads_back above t target with
  | true, true => Some (round_half_even (scaled x p), t)
  | true, false => Some (below, t)
  | false, true => Some (above, t)
  | false, false => None
  end.

(** Shortest decimal that reads back as the same float (what [repr] and
    [str] print): the least number of digits [p <= 17] that has one.
    Seventeen digits always do, with the decimal nearest to [x]. *)
Fixpoint shortest_digits (fuel : nat) (p : Z) (x : Q) (target : pyfloat)
  : Z * Z :=
  match decimal_digits x p target, fuel with
  | Some kt, _ => kt
  | None, S fuel' => shortest_digits fuel' (p + 1) x target
  | None, O => (round_half_even (scaled x p), scale_exp x p)
  end.

(** [repr] of a positive finite magnitude. *)
Definition repr_magnitude (x : Q) : string :=
  let '(k, t) := shortest_digits 16 1 x (round_binary64 false x) in
  let all := dec (Z.to_N k) in
  let ds := strip_trailing_zeros all in
  let n := Z.of_nat (String.length ds) in
  let decpt := (Z.of_nat (String.length all) + t)%Z in
  if ((decpt <=? -4) || (16 <? decpt))%Z then
    let ex := (decpt - 1)%Z in
    let mant :=
      match ds with
      | String d EmptyString => String d EmptyString
      | String d rest => String d ("." ++ rest)
      | EmptyString => ""
      end in
    let exs := dec (Z.to_N (Z.abs ex)) in
    mant ++ "e" ++ (if (ex <? 0)%Z then "-" else "+")
         ++ (if (Z.abs ex <? 10)%Z then "0" else "") ++ exs
  else if (decpt <=? 0)%Z then
    "0." ++ zeros (Z.to_nat (- decpt)) ++ ds
  else if (decpt <? n)%Z then
    substring 0 (Z.to_nat decpt) ds ++ "."
      ++ substring (Z.to_nat decpt) (Z.to_nat (n - decpt)) ds
  else
    ds ++ zeros (Z.to_nat (decpt - n)) ++ ".0".

(** [str(x)] (equal to [repr(x)]) for a float. *)
Definition float_str (x : pyfloat) : string :=
  match x with
  | Fnan => "nan"
  | Finf s => if s then "-inf" else "inf"
  | Ffin s m e =>
      (if s then "-" else "")
        ++ (if (m =? 0)%N then "0.0" else repr_magnitude (magnitude m e))
  end.

(** ["%.2f" % x]: the exact value rounded half-even to two decimals. *)
Definition format_2f (x : pyfloat) : string :=
  match x with
  | Fnan => "nan"
  | Finf s => if s then "-inf" else "inf"
  | Ffin s m e =>
      let k := Z.to_N (round_half_even (magnitude m e * inject_Z 100)) in
      let frac := (k mod 100)%N in
      (if s then "-" else "") ++ dec (k / 100)%N ++ "."
        ++ (if (frac <? 10)%N then "0" else "") ++ dec frac
  end.

(** binary64 values seen through the kernel's primitive floats, to compare
    this model with the hardware arithmetic on samples. *)
Definition of_prim (x : PrimFloat.float) : pyfloat :=
  match FloatOps.Prim2SF x with
  | SpecFloat.S754_zero s => Ffin s 0 0
  | SpecFloat.S754_infinity s => Finf s
  | SpecFloat.S754_nan => Fnan
  | SpecFloat.S754_finite s m e => Ffin s (Npos m) e
  end.

(** [x < y] on floats: false as soon as one side is a nan, and the two
    zeros are equal. *)
Definition float_lt (x y : pyfloat) : bool :=
  match x, y with
  | Fnan, _ | _, Fnan => false
  | Finf s, Finf s' => s && negb s'
  | Finf s, Ffin _ _ _ => s
  | Ffin _ _ _, Finf s' => negb s'
  | Ffin _ _ _, Ffin _ _ _ =>
      match (F2Q x ?= F2Q y)%Q with Lt => true | _ => false end
  end.

(** Equality of floats as values (all nans alike, zeros by sign). *)
Definition same_float (x y : pyfloat) : bool :=
  match x, y with
  | Fnan, Fnan => true
  | Finf s, Finf s' => Bool.eqb s s'
  | Ffin s m e, Ffin s' m' e' =>
      Bool.eqb s s' && Qeq_bool (magnitude m e) (magnitude m' e')
  | _, _ => false
  end.

End PyFloat.

(* ================================================================== *)
(** * Exceptions, strings and datetimes *)
(* ================================================================== *)

Module Py.

(** The exceptions the two files can meet.  [GlucometerError] stands for
    [glucometerutils.exceptions.Error] and its subclasses, with [str(err)]. *)
Inductive exn : Type :=
| ImportError (msg : string)
| NotImplementedError
| ValueError
| TypeError
| AttributeError
| OSError
| GlucometerError (msg : string).

(** The result of evaluating an expression: a value or a raised exception. *)
Inductive outcome (A : Type) : Type :=
| Ok (a : A)
| Raise (e : exn).
Arguments Ok {A} a.
Arguments Raise {A} e.

Definition obind {A B : Type} (o : outcome A) (k : A -> outcome B)
  : outcome B :=
  match o with
  | Ok a => k a
  | Raise e => Raise e
  end.

Definition tab : string := String (ascii_of_nat 9) "".
Definition cr : string := String (ascii_of_nat 13) "".
Definition lf : string := String (ascii_of_nat 10) "".
Definition crlf : string := cr ++ lf.
Definition dquote : string := String (ascii_of_nat 34) "".

(** [s * n] for a string. *)
Fixpoint repeat_string (s : string) (n : nat) : string :=
  match n with O => "" | S k => s ++ repeat_string s k end.

(** [s.startswith(p)]. *)
Definition startswith (s p : string) : bool := String.prefix p s.

(** A string is a sequence of characters with code points below 256, one
    [ascii] each.  The upper-case letters among them are [A]-[Z] and
    U+00C0-U+00DE without the multiplication sign U+00D7. *)
Definition lower_char (c : ascii) : ascii :=
  let n := nat_of_ascii c in
  if ((Nat.leb 65 n && Nat.leb n 90)
      || (Nat.leb 192 n && Nat.leb n 222 && negb (Nat.eqb n 215)))%bool
  then ascii_of_nat (n + 32) else c.

(** [s.lower()]. *)
Fixpoint lower (s : string) : string :=
  match s with
  | EmptyString => ""
  | String c t => String (lower_char c) (lower t)
  end.

(** [c.isspace()], the characters [strip()] removes: the space, U+0009 to
    U+000D, the separators U+001C to U+001F, U+0085 and U+00A0. *)
Definition is_space (c : ascii) : bool :=
  let n := nat_of_ascii c in
  (Nat.eqb n 32 || (Nat.leb 9 n && Nat.leb n 13)
   || (Nat.leb 28 n && Nat.leb n 31) || Nat.eqb n 133 || Nat.eqb n 160)%bool.

Fixpoint lstrip (s : string) : string :=
  match s with
  | String c t => if is_space c then lstrip t else s
  | EmptyString => ""
  end.

Fixpoint rstrip_rev (l : list ascii) : list ascii :=
  match l with
  | c :: t => if is_space c then rstrip_rev t else l
  | [] => []
  end.

(** [s.strip()]. *)
Definition strip (s : string) : string :=
  string_of_list_ascii
    (rev (rstrip_rev (rev (list_ascii_of_string (lstrip s))))).

(** [s.split(sep)] for a one-character separator. *)
Fixpoint split_char (sep : ascii) (s : string) : list string :=
  match s with
  | EmptyString => [""]
  | String c t =>
      if Ascii.eqb c sep then "" :: split_char sep t
      else match split_char sep t with
           | h :: r => String c h :: r
           | [] => [String c ""]
           end
  end.

(** [s.split("\r\n")]. *)
Fixpoint split_crlf (s : string) : list string :=
  match s with
  | EmptyString => [""]
  | String c t =>
      match t with
      | String d u =>
          if (Ascii.eqb c (ascii_of_nat 13) && Ascii.eqb d (ascii_of_nat 10))%bool
          then "" :: match split_crlf t with
                     | h :: r => match h with
                                 | String _ h' => h' :: r
                                 | EmptyString => "" :: r
                                 end
                     | [] => []
                     end
          else match split_crlf t with
               | h :: r => String c h :: r
               | [] => [String c ""]
               end
      | EmptyString => [String c ""]
      end
  end.

(** A naive [datetime.datetime]. *)
Record datetime : Type := mk_datetime {
  year : N; month : N; day : N;
  hour : N; minute : N; second : N; microsecond : N }.

Definition datetime_fields (d : datetime) : list N :=
  [year d; month d; day d; hour d; minute d; second d; microsecond d].

Fixpoint lex_compare (a b : list N) : comparison :=
  match a, b with
  | x :: a', y :: b' =>
      match (x ?= y)%N with
      | Eq => lex_compare a' b'
      | c => c
      end
  | [], [] => Eq
  | [], _ => Lt
  | _, [] => Gt
  end.

Definition datetime_compare (a b : datetime) : comparison :=
  lex_compare (datetime_fields a) (datetime_fields b).

(** [a > b], [a < b] and [a <= b] on datetimes. *)
Definition datetime_gt (a b : datetime) : bool :=
  match datetime_compare a b with Gt => true | _ => false end.
Definition datetime_lt (a b : datetime) : bool :=
  match datetime_compare a b with Lt => true | _ => false end.
Definition datetime_le (a b : datetime) : bool :=
  match datetime_compare a b with Gt => false | _ => true end.

(** A number zero-padded on the left to [w] digits. *)
Definition pad (w : nat) (n : N) : string :=
  let s := PyFloat.dec n in
  PyFloat.zeros (w - String.length s) ++ s.

(** [%Y] of [strftime], which formats through the C library: the year in
    decimal, without padding (a year below 1000 has fewer than four
    digits). *)
Definition format_year (y : N) : string := PyFloat.dec y.

(** ['{:%Y/%m/%d %H:%M}'.format(d)]. *)
Definition format_ymd_hm (d : datetime) : string :=
  format_year (year d) ++ "/" ++ pad 2 (month d) ++ "/" ++ pad 2 (day d)
    ++ " " ++ pad 2 (hour d) ++ ":" ++ pad 2 (minute d).

(** ['{:%Y%m%d%H%M%S}'.format(d)]. *)
Definition format_compact (d : datetime) : string :=
  format_year (year d) ++ pad 2 (month d) ++ pad 2 (day d)
    ++ pad 2 (hour d) ++ pad 2 (minute d) ++ pad 2 (second d).

(** [str(d)]: ISO format with a space, microseconds only when non-zero. *)
Definition datetime_str (d : datetime) : string :=
  pad 4 (year d) ++ "-" ++ pad 2 (month d) ++ "-" ++ pad 2 (day d)
    ++ " " ++ pad 2 (hour d) ++ ":" ++ pad 2 (minute d) ++ ":"
    ++ pad 2 (second d)
    ++ (if (microsecond d =? 0)%N then "" else "." ++ pad 6 (microsecond d)).

End Py.

(* ================================================================== *)
(** * glucometerutils/common.py *)
(* ================================================================== *)

Module Common.
Import PyFloat Py.

(** [class Unit(enum.Enum)]. *)
Inductive Unit : Type := MG_DL | MMOL_L.

Definition Unit_value (u : Unit) : string :=
  match u with MG_DL => "mg/dL" | MMOL_L => "mmol/L" end.

Definition Unit_eqb (a b : Unit) : bool :=
  match a, b with
  | MG_DL, MG_DL | MMOL_L, MMOL_L => true
  | _, _ => false
  end.

(** [class Meal(enum.Enum)]. *)
Inductive Meal : Type := NONE | BEFORE | AFTER.

Definition Meal_value (m : Meal) : string :=
  match m with
  | NONE => ""
  | BEFORE => "Before Meal"
  | AFTER => "After Meal"
  end.

(** [class MeasurementMethod(enum.Enum)]. *)
Inductive MeasurementMethod : Type := BLOOD_SAMPLE | CGM.

Definition MeasurementMethod_value (m : MeasurementMethod) : string :=
  match m with BLOOD_SAMPLE => "blood sample" | CGM => "CGM" end.

(** The Python objects that reach a unit argument or the [measure_method]
    field: the code constrains neither, and treats them both as enum
    members ([.value], [Unit(...)]) and as plain strings ([== 'CGM']). *)
Inductive pyval : Type :=
| PyNone
| PyStr (s : string)
| PyUnit (u : Unit)
| PyMethod (m : MeasurementMethod).

(** [Unit(x)]: a member is returned as it is, a string is looked up among
    the members' values, anything else is a [ValueError]. *)
Definition Unit_call (x : pyval) : outcome Unit :=
  match x with
  | PyUnit u => Ok u
  | PyStr s =>
      if String.eqb s (Unit_value MG_DL) then Ok MG_DL
      else if String.eqb s (Unit_value MMOL_L) then Ok MMOL_L
      else Raise ValueError
  | _ => Raise ValueError
  end.

(** [x == s] for a string literal [s]: a member of a plain [enum.Enum] is
    equal to members only, never to a string. *)
Definition eq_str (x : pyval) (s : string) : bool :=
  match x with
  | PyStr t => String.eqb t s
  | _ => false
  end.

(** [x.value]. *)
Definition value_attr (x : pyval) : outcome string :=
  match x with
  | PyUnit u => Ok (Unit_value u)
  | PyMethod m => Ok (MeasurementMethod_value m)
  | _ => Raise AttributeError
  end.

(** [x is None]. *)
Definition is_none (x : pyval) : bool :=
  match x with PyNone => true | _ => false end.

(** common.py, lines 31-51. *)
Definition convert_glucose_unit (value : pyfloat) (from_unit to_unit : pyval)
  : outcome pyfloat :=
  obind (Unit_call from_unit) (fun from_unit =>
  obind (Unit_call to_unit) (fun to_unit =>
  if Unit_eqb from_unit to_unit then Ok value
  else if Unit_eqb from_unit MG_DL then Ok (py_round (fdiv value f18) 2)
  else Ok (py_round (fmul value f18) 0))).

(** [class GlucoseReading(_ReadingBase)], lines 56-139. *)
Module GlucoseReading.

Record t : Type := make {
  timestamp : datetime;
  value : pyfloat;
  meal : Meal;
  comment : string;
  measure_method : pyval }.

(** The constructor's defaults: [meal=Meal.NONE], [comment=''],
    [measure_method=MeasurementMethod.BLOOD_SAMPLE]. *)
Definition new (timestamp : datetime) (value : pyfloat) : t :=
  make timestamp value NONE "" (PyMethod BLOOD_SAMPLE).

Definition get_value_as (self : t) (to_unit : pyval) : outcome pyfloat :=
  convert_glucose_unit (value self) (PyUnit MG_DL) to_unit.

Definition as_csv (self : t) (unit : pyval) : outcome string :=
  obind (get_value_as self unit) (fun v =>
  obind (value_attr (measure_method self)) (fun method =>
  Ok (dquote ++ datetime_str (timestamp self) ++ dquote ++ ","
      ++ dquote ++ format_2f v ++ dquote ++ ","
      ++ dquote ++ Meal_value (meal self) ++ dquote ++ ","
      ++ dquote ++ method ++ dquote ++ ","
      ++ dquote ++ comment self ++ dquote))).

Definition _get_libre_type (self : t) : string :=
  if eq_str (measure_method self) "CGM" then
    if startswith (comment self) "(Sensor)" then "0"
    else if startswith (comment self) "(Scan)" then "1"
    else "-1"
  else if eq_str (measure_method self) "blood sample" then
    if startswith (comment self) "(Blood)" then "2"
    else "-1"
  else "-1".

Definition _get_libre_historic_glucose (self : t) (unit : pyval)
  : outcome string :=
  if String.eqb (_get_libre_type self) "0"
  then obind (get_value_as self unit) (fun v => Ok (float_str (py_round v 1)))
  else Ok "".

Definition _get_libre_scan_glucose (self : t) (unit : pyval)
  : outcome string :=
  if String.eqb (_get_libre_type self) "1"
  then obind (get_value_as self unit) (fun v => Ok (float_str (py_round v 1)))
  else Ok "".

Definition _get_libre_strip_glucose (self : t) (unit : pyval)
  : outcome string :=
  if String.eqb (_get_libre_type self) "2"
  then obind (get_value_as self unit) (fun v => Ok (float_str (py_round v 1)))
  else Ok "".

(** The format string
    ["%s\t%s\t%s\t%s\t\t\t\t\t\t\t\t%s\t\t\t\t\t\t\t"]. *)
Definition as_tsv (self : t) (unit : pyval) : outcome string :=
  let time := format_ymd_hm (timestamp self) in
  let type := _get_libre_type self in
  obind (_get_libre_historic_glucose self unit) (fun historic =>
  obind (_get_libre_scan_glucose self unit) (fun scan =>
  obind (_get_libre_strip_glucose self unit) (fun strip =>
  Ok (time ++ tab ++ type ++ tab ++ historic ++ tab ++ scan
      ++ repeat_string tab 8 ++ strip ++ repeat_string tab 7)))).

End GlucoseReading.

(** [class KetoneReading(_ReadingBase)], lines 141-178. *)
Module KetoneReading.

Record t : Type := make {
  timestamp : datetime;
  value : pyfloat;
  comment : string }.

(** The constructor stores [MeasurementMethod.BLOOD_SAMPLE] in every
    instance. *)
Definition measure_method (self : t) : pyval := PyMethod BLOOD_SAMPLE.

(** [def get_value_as(self, *args)]. *)
Definition get_value_as (self : t) (args : list pyval) : pyfloat :=
  value self.

Definition as_csv (self : t) (unit : pyval) : outcome string :=
  let v := get_value_as self [unit] in
  obind (value_attr (measure_method self)) (fun method =>
  Ok (dquote ++ datetime_str (timestamp self) ++ dquote ++ ","
      ++ dquote ++ format_2f v ++ dquote ++ ","
      ++ dquote ++ method ++ dquote ++ ","
      ++ dquote ++ comment self ++ dquote)).

(** The format string ["%s\t%s\t\t\t\t\t\t\t\t\t\t\t%s\t\t\t\t\t\t"]. *)
Definition as_tsv (self : t) (unit : pyval) : outcome string :=
  Ok (format_ymd_hm (timestamp self) ++ tab ++ "3"
      ++ repeat_string tab 11 ++ float_str (get_value_as self [unit])
      ++ repeat_string tab 6).

End KetoneReading.

(** [class MeterInfo(_MeterInfoBase)], lines 183-211. *)
Module MeterInfo.

Record t : Type := make {
  model : string;
  serial_number : string;
  version_info : list string;
  native_unit : Unit }.

(** [__str__]. *)
Definition str (self : t) : string :=
  let version_information_string :=
    match version_info self with
    | [] => "N/A"
    | l => strip (String.concat (lf ++ "    ") l)
    end in
  model self ++ lf
    ++ "Serial Number: " ++ serial_number self ++ lf
    ++ "Version Information:" ++ lf
    ++ "    " ++ version_information_string ++ lf
    ++ "Native Unit: " ++ Unit_value (native_unit self) ++ lf.

End MeterInfo.

(** What [get_readings()] yields: glucose and ketone readings. *)
Inductive Reading : Type :=
| Glucose (g : GlucoseReading.t)
| Ketone (k : KetoneReading.t).

Definition Reading_timestamp (r : Reading) : datetime :=
  match r with
  | Glucose g => GlucoseReading.timestamp g
  | Ketone k => KetoneReading.timestamp k
  end.

Definition Reading_value (r : Reading) : pyfloat :=
  match r with
  | Glucose g => GlucoseReading.value g
  | Ketone k => KetoneReading.value k
  end.

Definition Reading_comment (r : Reading) : string :=
  match r with
  | Glucose g => GlucoseReading.comment g
  | Ketone k => KetoneReading.comment k
  end.

Definition Reading_measure_method (r : Reading) : pyval :=
  match r with
  | Glucose g => GlucoseReading.measure_method g
  | Ketone k => KetoneReading.measure_method k
  end.

(** [isinstance(reading, common.KetoneReading)]. *)
Definition is_ketone (r : Reading) : bool :=
  match r with Ketone _ => true | Glucose _ => false end.

(** [reading.as_csv(unit)] and [reading.as_tsv(unit)], by dynamic dispatch. *)
Definition Reading_as_csv (r : Reading) (unit : pyval) : outcome string :=
  match r with
  | Glucose g => GlucoseReading.as_csv g unit
  | Ketone k => KetoneReading.as_csv k unit
  end.

Definition Reading_as_tsv (r : Reading) (unit : pyval) : outcome string :=
  match r with
  | Glucose g => GlucoseReading.as_tsv g unit
  | Ketone k => KetoneReading.as_tsv k unit
  end.

(** The plain data [common.py] binds at module level: its docstring and
    the four strings of its header.  Everything else it binds is a class,
    a function or an imported module, embedded above as definitions of
    their own; the units exist as the members of [Unit] only, and the
    module binds no constant for a unit or for the list of units. *)
Definition module_data : list (string * pyval) :=
  [ ("__doc__", PyStr "Common routines for data in glucometers.");
    ("__author__",
     PyStr ("Diego Elio Petten" ++ String (ascii_of_nat 242) ""));
    ("__email__", PyStr "flameeyes@flameeyes.eu");
    ("__copyright__",
     PyStr ("Copyright " ++ String (ascii_of_nat 169) " 2013, Diego Elio Petten"
              ++ String (ascii_of_nat 242) ""));
    ("__license__", PyStr "MIT") ].

(** [common.<name>], read as a value by another module: the datum bound to
    the name, [AttributeError] when the module binds no such datum. *)
Definition module_attr (name : string) : outcome pyval :=
  match find (fun entry => String.eqb (fst entry) name) module_data with
  | Some entry => Ok (snd entry)
  | None => Raise AttributeError
  end.

End Common.

(* ================================================================== *)
(** * glucometer.py *)
(* ================================================================== *)

Module Glucometer.
Import PyFloat Py Common.

(** ** The parsed command line *)

(** [args.action]: the sub-command. *)
Inductive Action : Type := ActHelp | ActInfo | ActZero | ActDump | ActDatetime.

(** [common._ReadingBase._fields], the choices of [--sort-by]. *)
Inductive Field : Type :=
| field_timestamp | field_value | field_comment | field_measure_method.

(** The namespace [parser.parse_args()] is written to return.  [action] is
    [None] when no sub-command is given; [unit] is [None] or one of the
    choices of [--unit]; [set] is [None], ['now'] or the given text. *)
Record Args : Type := mk_args {
  driver : string;
  device : option string;
  vlog : option Z;
  action : option Action;
  unit : pyval;
  sort_by : option Field;
  with_ketone : bool;
  to_file : bool;
  output_folder : string;
  set : option string }.

(** [str(args.action)]. *)
Definition Action_str (a : option Action) : string :=
  match a with
  | None => "None"
  | Some ActHelp => "help"
  | Some ActInfo => "info"
  | Some ActZero => "zero"
  | Some ActDump => "dump"
  | Some ActDatetime => "datetime"
  end.

(** ** The driver and the rest of the world *)

(** A device of a driver module: what each method returns or raises. *)
Record Device : Type := mk_device {
  connect : outcome Datatypes.unit;
  get_meter_info : outcome MeterInfo.t;
  get_datetime : outcome string;
  set_datetime : option datetime -> outcome string;
  get_readings : outcome (list Reading);
  zero_log : outcome Datatypes.unit;
  disconnect : outcome Datatypes.unit }.

(** A driver module: its docstring and its [Device] class. *)
Record Driver : Type := mk_driver {
  doc : string;
  Device_new : option string -> outcome Device }.

(** What the process finds around it: the importable drivers, the line the
    user types, the [dateutil] parser, the clock ([now n] is what the
    [n]-th call of [datetime.datetime.now()] returns) and the file system. *)
Record World : Type := mk_world {
  import_module : string -> outcome Driver;
  input : string;
  dateutil : outcome (string -> outcome datetime);
  now : nat -> datetime;
  open_w : string -> outcome Datatypes.unit }.

(** ** Effects *)

Record Effects : Type := mk_effects {
  stdout : list string;        (* one entry per [print] *)
  errors : list string;        (* one entry per [logging.error] *)
  file_name : option string;   (* the file opened for writing *)
  file_data : string;          (* what was written to it *)
  file_mode : option N;        (* set by [os.chmod] *)
  now_calls : nat;             (* calls of [datetime.datetime.now()] *)
  device_calls : list string   (* device methods called, in order *) }.

Definition no_effects : Effects := mk_effects [] [] None "" None 0 [].

Definition M (A : Type) : Type := Effects -> Effects * outcome A.

Definition ret {A : Type} (a : A) : M A := fun s => (s, Ok a).

Definition bind {A B : Type} (m : M A) (k : A -> M B) : M B :=
  fun s =>
    match m s with
    | (s', Ok a) => k a s'
    | (s', Raise e) => (s', Raise e)
    end.

Definition lift {A : Type} (o : outcome A) : M A := fun s => (s, o).

Notation "x <- m ;; k" := (bind m (fun x => k))
  (at level 61, m at next level, right associativity).
Notation "m ;;; k" := (bind m (fun _ => k))
  (at level 61, right associativity).

Definition print (line : string) : M Datatypes.unit :=
  fun s => (mk_effects (stdout s ++ [line]) (errors s) (file_name s)
              (file_data s) (file_mode s) (now_calls s) (device_calls s),
            Ok tt).

Definition logging_error (msg : string) : M Datatypes.unit :=
  fun s => (mk_effects (stdout s) (errors s ++ [msg]) (file_name s)
              (file_data s) (file_mode s) (now_calls s) (device_calls s),
            Ok tt).

Definition open_file (w : World) (name : string) : M Datatypes.unit :=
  fun s =>
    match open_w w name with
    | Ok _ => (mk_effects (stdout s) (errors s) (Some name) ""
                 (file_mode s) (now_calls s) (device_calls s), Ok tt)
    | Raise e => (s, Raise e)
    end.

Definition write (data : string) : M Datatypes.unit :=
  fun s => (mk_effects (stdout s) (errors s) (file_name s)
              (file_data s ++ data) (file_mode s) (now_calls s)
              (device_calls s),
            Ok tt).

Definition chmod (mode : N) : M Datatypes.unit :=
  fun s => (mk_effects (stdout s) (errors s) (file_name s)
              (file_data s) (Some mode) (now_calls s) (device_calls s),
            Ok tt).

(** [datetime.datetime.now()]. *)
Definition datetime_now (w : World) : M datetime :=
  fun s => (mk_effects (stdout s) (errors s) (file_name s)
              (file_data s) (file_mode s) (S (now_calls s)) (device_calls s),
            Ok (now w (now_calls s))).

(** A call of a device method. *)
Definition call {A : Type} (name : string) (result : outcome A) : M A :=
  fun s => (mk_effects (stdout s) (errors s) (file_name s)
              (file_data s) (file_mode s) (now_calls s)
              (device_calls s ++ [name]),
            result).

(** ** [sorted(readings, key=lambda reading: getattr(reading, field))] *)

Inductive sort_key : Type :=
| KeyTime (d : datetime)
| KeyFloat (f : pyfloat)
| KeyStr (s : string)
| KeyVal (v : pyval).

Definition getattr (r : Reading) (f : Field) : sort_key :=
  match f with
  | field_timestamp => KeyTime (Reading_timestamp r)
  | field_value => KeyFloat (Reading_value r)
  | field_comment => KeyStr (Reading_comment r)
  | field_measure_method => KeyVal (Reading_measure_method r)
  end.

(** [a < b] on keys; enum members are not ordered. *)
Definition key_lt (a b : sort_key) : outcome bool :=
  match a, b with
  | KeyTime x, KeyTime y => Ok (datetime_lt x y)
  | KeyFloat x, KeyFloat y => Ok (float_lt x y)
  | KeyStr x, KeyStr y => Ok (String.ltb x y)
  | KeyVal (PyStr x), KeyVal (PyStr y) => Ok (String.ltb x y)
  | _, _ => Raise TypeError
  end.

(** [sorted] copies the readings into a list, computes the keys and sorts
    with the list sort of CPython, which makes its decisions with [<] on
    the keys alone and stops at the first comparison that raises.  For
    fewer than 64 items that sort is [count_run] followed by [binarysort]:
    the natural run at the front of the list, reversed when it descends
    strictly, is extended item by item through binary insertion.  From 64
    items on CPython cuts the list into such runs and merges them; the
    definition below treats every list as one run, which yields the same
    list whenever [<] is a total order on the keys (the sort is stable),
    and may differ from CPython for 64 items or more with a nan among
    float keys. *)

(** The first comparison looks at the second item; a run that descends
    strictly is reversed, one that does not descend is kept. *)
Fixpoint run_ascending (f : Field) (prev : Reading) (l : list Reading)
  : outcome (list Reading * list Reading) :=
  match l with
  | [] => Ok ([], [])
  | y :: t =>
      obind (key_lt (getattr y f) (getattr prev f)) (fun less =>
      if less then Ok ([], l)
      else obind (run_ascending f y t) (fun '(run, rest) =>
           Ok (y :: run, rest)))
  end.

Fixpoint run_descending (f : Field) (prev : Reading) (l : list Reading)
  : outcome (list Reading * list Reading) :=
  match l with
  | [] => Ok ([], [])
  | y :: t =>
      obind (key_lt (getattr y f) (getattr prev f)) (fun less =>
      if less
      then obind (run_descending f y t) (fun '(run, rest) =>
           Ok (y :: run, rest))
      else Ok ([], l))
  end.

(** [count_run]: the natural run the list starts with, in ascending order,
    and the items after it. *)
Definition count_run (f : Field) (l : list Reading)
  : outcome (list Reading * list Reading) :=
  match l with
  | x :: y :: t =>
      obind (key_lt (getattr y f) (getattr x f)) (fun less =>
      if less
      then obind (run_descending f y t) (fun '(run, rest) =>
           Ok (rev (x :: y :: run), rest))
      else obind (run_ascending f y t) (fun '(run, rest) =>
           Ok (x :: y :: run, rest)))
  | _ => Ok (l, [])
  end.

(** The loop of [binarysort] that looks for the place of [pivot] between
    the positions [l] and [r] of the sorted items [acc]. *)
Fixpoint bisect (fuel : nat) (f : Field) (pivot : Reading)
  (acc : list Reading) (l r : nat) : outcome nat :=
  match fuel with
  | O => Ok l
  | S fuel' =>
      let p := (l + (r - l) / 2)%nat in
      match nth_error acc p with
      | None => Ok l
      | Some y =>
          obind (key_lt (getattr pivot f) (getattr y f)) (fun less =>
          let l' := if less then l else S p in
          let r' := if less then p else r in
          if (l' <? r')%nat then bisect fuel' f pivot acc l' r' else Ok l')
      end
  end.

Definition binary_insert (f : Field) (pivot : Reading) (acc : list Reading)
  : outcome (list Reading) :=
  obind (bisect (List.length acc) f pivot acc 0 (List.length acc)) (fun i =>
  Ok (firstn i acc ++ pivot :: skipn i acc)%list).

(** [sorted]: the list sort of CPython for fewer than 64 items, which is one
    natural run extended by binary insertion. *)
Definition sorted (f : Field) (l : list Reading) : outcome (list Reading) :=
  obind (count_run f l) (fun '(run, rest) =>
  fold_left (fun acc x => obind acc (binary_insert f x)) rest (Ok run)).

(** ** [main], lines 21-177 *)

(** Lines 26-74: the parser.  Its construction has no effect of its own,
    but the choices of [--unit] are read from [common.VALID_UNITS]
    (line 53), and an attribute the module does not bind raises. *)
Definition build_parser : outcome Datatypes.unit :=
  obind (module_attr "VALID_UNITS") (fun choices => Ok tt).

(** How the body of the [try] block ends: by falling through to
    [device.disconnect()] or by a [return]. *)
Inductive flow : Type :=
| Fallthrough
| Return (v : option Z).

(** Lines 108-110: [unit = common.UNIT_MMOLL #args.unit], then the
    meter's native unit in place of [None]. *)
Definition dump_unit (device_info : MeterInfo.t) : outcome pyval :=
  obind (module_attr "UNIT_MMOLL") (fun unit =>
  Ok (if is_none unit then PyUnit (MeterInfo.native_unit device_info)
      else unit)).

(** Lines 129-133: the five writes of the header. *)
Definition header_1 : string := "Some guy" ++ crlf ++ "# 000000001" ++ crlf.
Definition header_2 : string :=
  "ID" ++ tab ++ "Time" ++ tab ++ "Record Type" ++ tab
    ++ "Historic Glucose (mmol/L)" ++ tab ++ "Scan Glucose (mmol/L)" ++ tab
    ++ "Non-numeric Rapid-Acting Insulin" ++ tab.
Definition header_3 : string :=
  "Rapid-Acting Insulin (units)" ++ tab ++ "Non-numeric Food" ++ tab
    ++ "Carbohydrates (grams)" ++ tab
    ++ "Non-numeric Long-Acting Insulin" ++ tab.
Definition header_4 : string :=
  "Long-Acting Insulin (units)" ++ tab ++ "Notes" ++ tab
    ++ "Strip Glucose (mmol/L)" ++ tab ++ "Ketone (mmol/L)" ++ tab
    ++ "Meal Insulin (units)" ++ tab.
Definition header_5 : string :=
  "Correction Insulin (units)" ++ tab ++ "User Change Insulin (units)" ++ tab
    ++ "Previous Time" ++ tab ++ "Updated Time" ++ crlf.

(** Lines 135-140, over the generator of lines 124-125: the test against
    the clock runs when the loop asks for the next reading. *)
Fixpoint write_rows (w : World) (unit : pyval) (rowid : N)
  (readings : list Reading) : M Datatypes.unit :=
  match readings with
  | [] => ret tt
  | reading :: rest =>
      t <- datetime_now w ;;
      if datetime_gt (Reading_timestamp reading) t
      then write_rows w unit rowid rest
      else
        write (dec rowid ++ tab) ;;;
        row <- lift (Reading_as_tsv reading unit) ;;
        write row ;;;
        write crlf ;;;
        write_rows w unit (rowid + 1) rest
  end.

(** Lines 144-145. *)
Fixpoint print_rows (unit : pyval) (readings : list Reading) : M Datatypes.unit :=
  match readings with
  | [] => ret tt
  | reading :: rest =>
      line <- lift (Reading_as_csv reading unit) ;;
      print line ;;;
      print_rows unit rest
  end.

(** Lines 114-120: the readings the dump works on. *)
Definition select_readings (args : Args) (readings : list Reading)
  : outcome (list Reading) :=
  let readings :=
    if negb (with_ketone args)
    then filter (fun reading => negb (is_ketone reading)) readings
    else readings in
  match sort_by args with
  | Some f => sorted f readings
  | None => Ok readings
  end.

(** Lines 122-142. *)
Definition export_to_file (args : Args) (w : World) (unit : pyval)
  (readings : list Reading) : M Datatypes.unit :=
  t <- datetime_now w ;;
  let outputfilename :=
    output_folder args ++ "/" ++ format_compact t ++ ".csv" in
  open_file w outputfilename ;;;
  write header_1 ;;;
  write header_2 ;;;
  write header_3 ;;;
  write header_4 ;;;
  write header_5 ;;;
  write_rows w unit 1 readings ;;;
  chmod 511 (* 0o777 *).

(** Lines 107-145: the [dump] action. *)
Definition dump (args : Args) (w : World) (dev : Device)
  (device_info : MeterInfo.t) : M flow :=
  unit <- lift (dump_unit device_info) ;;
  readings <- call "get_readings" (get_readings dev) ;;
  readings <- lift (select_readings args readings) ;;
  (if to_file args
   then export_to_file args w unit readings
   else print_rows unit readings) ;;;
  ret Fallthrough.

(** Lines 100-106: the [info] action. *)
Definition info (dev : Device) (device_info : MeterInfo.t) : M flow :=
  fun s =>
    let '(s', r) := call "get_datetime" (get_datetime dev) s in
    let time_str :=
      match r with
      | Ok t => Ok t
      | Raise NotImplementedError => Ok "N/A"
      | Raise e => Raise e
      end in
    (time_str <- lift time_str ;;
     print (MeterInfo.str device_info ++ "Time: " ++ time_str) ;;;
     ret Fallthrough) s'.

(** Lines 146-162: the [datetime] action. *)
Definition datetime_action (args : Args) (w : World) (dev : Device) : M flow :=
  match set args with
  | Some "now" =>
      shown <- call "set_datetime" (set_datetime dev None) ;;
      print shown ;;; ret Fallthrough
  | Some "" | None =>
      shown <- call "get_datetime" (get_datetime dev) ;;
      print shown ;;; ret Fallthrough
  | Some text =>
      match obind (dateutil w) (fun parse => parse text) with
      | Raise (ImportError _) =>
          logging_error
            ("Unable to import module " ++ dquote ++ "dateutil" ++ dquote
               ++ ", please install it.") ;;;
          ret (Return (Some 1%Z))
      | Raise ValueError =>
          logging_error (text ++ ": not a valid date") ;;;
          ret (Return (Some 1%Z))
      | Raise e => lift (Raise e)
      | Ok new_date =>
          shown <- call "set_datetime" (set_datetime dev (Some new_date)) ;;
          print shown ;;; ret Fallthrough
      end
  end.

(** Lines 163-170: the [zero] action.  The prompt of [input] goes to the
    standard output. *)
Definition zero (w : World) (dev : Device) : M flow :=
  print "Delete the device data log? (y/N) " ;;;
  let confirm := input w in
  if existsb (String.eqb (lower confirm)) ["y"; "ye"; "yes"]
  then
    call "zero_log" (zero_log dev) ;;;
    print (lf ++ "Device data log zeroed.") ;;;
    ret Fallthrough
  else
    print (lf ++ "Device data log not zeroed.") ;;;
    ret (Return (Some 1%Z)).

(** Lines 99-175: the [try] block with its [except exceptions.Error]. *)
Definition actions (args : Args) (w : World) (dev : Device)
  (device_info : MeterInfo.t) : M flow :=
  fun s =>
    let body :=
      match action args with
      | Some ActInfo => info dev device_info
      | Some ActDump => dump args w dev device_info
      | Some ActDatetime => datetime_action args w dev
      | Some ActZero => zero w dev
      | _ => ret (Return (Some 1%Z))
      end in
    match body s with
    | (s', Raise (GlucometerError err)) =>
        (print ("Error while executing '" ++ Action_str (action args)
                  ++ "': " ++ err) ;;;
         ret (Return (Some 1%Z))) s'
    | other => other
    end.

(** Lines 78-177: what [main] does with the parsed command line, its
    effects and what it returns ([None] when it falls off the end) or
    raises. *)
Definition run (args : Args) (w : World) : M (option Z) :=
  match import_module w ("glucometerutils.drivers." ++ driver args) with
  | Raise (ImportError e) =>
      logging_error
        ("Error importing driver " ++ dquote ++ driver args ++ dquote
           ++ ", please check your --driver parameter:" ++ lf ++ e) ;;;
      ret (Some 1%Z)
  | Raise e => lift (Raise e)
  | Ok drv =>
      match action args with
      | Some ActHelp => print (doc drv) ;;; ret (Some 0%Z)
      | _ =>
          dev <- lift (Device_new drv (device args)) ;;
          call "connect" (connect dev) ;;;
          device_info <- call "get_meter_info" (get_meter_info dev) ;;
          r <- actions args w dev device_info ;;
          match r with
          | Return v => ret v
          | Fallthrough =>
              call "disconnect" (disconnect dev) ;;; ret None
          end
      end
  end.

(** [main()].  The interpreter is taken to be Python 3.2 or later, so the
    version test of lines 22-24 passes; the parser is built, and
    [parser.parse_args()] (line 76) would give [args]. *)
Definition main (args : Args) (w : World) : M (option Z) :=
  lift build_parser ;;;
  run args w.

(** Lines 179-180: [if __name__ == "__main__": main()].  The value [main]
    returns is dropped; the interpreter exits with status 0 when the script
    runs to its end and with status 1 when an exception is not caught. *)
Definition script (args : Args) (w : World) : Effects * Z :=
  match main args w no_effects with
  | (s, Ok _) => (s, 0%Z)
  | (s, Raise _) => (s, 1%Z)
  end.

Definition exit_status (args : Args) (w : World) : Z := snd (script args w).

End Glucometer.

(* ================================================================== *)
(** * Notions the statements use *)
(* ================================================================== *)

Module Notions.
Import PyFloat Py Common Glucometer.

Definition tab_char : ascii := ascii_of_nat 9.

(** The columns of a TSV row and the lines of a file written with CRLF. *)
Definition columns (row : string) : list string := split_char tab_char row.
Definition lines (data : string) : list string := split_crlf data.

(** [lacks c s]: the character [c] does not occur in [s]. *)
Fixpoint lacks (c : ascii) (s : string) : bool :=
  match s with
  | EmptyString => true
  | String d t => negb (Ascii.eqb d c) && lacks c t
  end.

(** The control characters, among them tab, carriage return and line
    feed. *)
Definition control (c : ascii) : bool := Nat.ltb (nat_of_ascii c) 32.

Definition cr_char : ascii := ascii_of_nat 13.

(** Converting to the other unit and back. *)
Definition round_trip (v : pyfloat) (A B : pyval) : outcome pyfloat :=
  obind (convert_glucose_unit v A B) (fun a => convert_glucose_unit a B A).

(** The decimal rounding the two conversions introduce, in the unit the
    value starts from: half a mg/dL plus 18 times half a hundredth of a
    mmol/L, and the same divided by 18. *)
Definition round_trip_tolerance (A : Unit) : Q :=
  match A with MG_DL => 59 # 100 | MMOL_L => 59 # 1800 end.

(** The columns of a glucose row: the time, the type code, the value in
    the column of its type (historic, scan, strip) and blanks elsewhere. *)
Definition glucose_text (g : GlucoseReading.t) (u : Unit) : string :=
  match GlucoseReading.get_value_as g (PyUnit u) with
  | Ok v => float_str (py_round v 1)
  | Raise _ => ""
  end.

Definition glucose_columns (g : GlucoseReading.t) (u : Unit) : list string :=
  let type := GlucoseReading._get_libre_type g in
  let shown code := if String.eqb type code then glucose_text g u else "" in
  [format_ymd_hm (GlucoseReading.timestamp g); type; shown "0"; shown "1"]
    ++ repeat "" 7 ++ [shown "2"] ++ repeat "" 7.

(** The columns of a ketone row. *)
Definition ketone_columns (k : KetoneReading.t) : list string :=
  [format_ymd_hm (KetoneReading.timestamp k); "3"]
    ++ repeat "" 10 ++ [float_str (KetoneReading.value k)] ++ repeat "" 6.

(** The column headers of the export file, as the header line lists them. *)
Definition header_columns : list string :=
  [ "ID"; "Time"; "Record Type"; "Historic Glucose (mmol/L)";
    "Scan Glucose (mmol/L)"; "Non-numeric Rapid-Acting Insulin";
    "Rapid-Acting Insulin (units)"; "Non-numeric Food";
    "Carbohydrates (grams)"; "Non-numeric Long-Acting Insulin";
    "Long-Acting Insulin (units)"; "Notes"; "Strip Glucose (mmol/L)";
    "Ketone (mmol/L)"; "Meal Insulin (units)"; "Correction Insulin (units)";
    "User Change Insulin (units)"; "Previous Time"; "Updated Time" ].

Definition header : string :=
  header_1 ++ header_2 ++ header_3 ++ header_4 ++ header_5.

(** The readings with their positions in the list the export loop walks. *)
Definition indexed (readings : list Reading) : list (nat * Reading) :=
  combine (seq 0 (List.length readings)) readings.

(** The reading at position [i] is tested against the clock at the call
    number [first + i] of [now()]; it is kept when its timestamp is not
    after that time. *)
Definition kept (w : World) (first : nat) (ir : nat * Reading) : bool :=
  datetime_le (Reading_timestamp (snd ir)) (now w (first + fst ir)).

Definition exported (w : World) (first : nat) (readings : list Reading)
  : list Reading :=
  map snd (filter (kept w first) (indexed readings)).

(** The text of a reading in the export file, with the unit [u]. *)
Definition tsv_text (u : Unit) (r : Reading) : string :=
  match Reading_as_tsv r (PyUnit u) with
  | Ok s => s
  | Raise _ => ""
  end.

(** The rows of the export file for the readings [rs], numbered from
    [rowid]. *)
Fixpoint rows (u : Unit) (rowid : N) (rs : list Reading) : list string :=
  match rs with
  | [] => []
  | r :: rest => (dec rowid ++ tab ++ tsv_text u r) :: rows u (rowid + 1) rest
  end.

Fixpoint rows_text (lines : list string) : string :=
  match lines with
  | [] => ""
  | l :: rest => l ++ crlf ++ rows_text rest
  end.

(** The statements that write the export file (lines 122-142), run from
    the initial state with the unit [u] on the readings [readings], when
    the file can be opened: the file they leave. *)
Definition opens (args : Args) (w : World) : Prop :=
  open_w w (output_folder args ++ "/" ++ format_compact (now w 0) ++ ".csv")
  = Ok tt.

Definition export_file (args : Args) (w : World) (u : Unit)
  (readings : list Reading) : string :=
  file_data (fst (export_to_file args w (PyUnit u) readings no_effects)).

(** The readings the specification has exported: those not after the one
    time [t] the clock shows when the export is called. *)
Definition not_after (t : datetime) (readings : list Reading)
  : list Reading :=
  filter (fun r => datetime_le (Reading_timestamp r) t) readings.

(** The header the specification describes: two lines, the second with 18
    tab-separated column headers. *)
Definition two_line_header_of_18 (data : string) : Prop :=
  exists uploader column_headers rest,
    lines data = uploader :: column_headers :: rest /\
    List.length (columns column_headers) = 18%nat.

(** ** Sample data *)

Definition noon : datetime := mk_datetime 2024 1 1 12 0 0 0.
Definition later : datetime := mk_datetime 2024 1 1 12 5 0 0.
Definition far_future : datetime := mk_datetime 2999 1 1 0 0 0 0.
Definition one_second_in : datetime := mk_datetime 2025 6 1 0 0 1 0.

Definition f100 : pyfloat := Ffin false 100 0.

(** [GlucoseReading(noon, 100, comment='(Sensor) foo',
    measure_method=MeasurementMethod.CGM)]. *)
Definition sensor_reading : GlucoseReading.t :=
  GlucoseReading.make noon f100 NONE "(Sensor) foo" (PyMethod CGM).

(** The same reading with the string ['CGM'] as its measure method. *)
Definition sensor_reading_str : GlucoseReading.t :=
  GlucoseReading.make later f100 NONE "(Sensor) foo" (PyStr "CGM").

Definition future_reading : GlucoseReading.t :=
  GlucoseReading.make far_future f100 NONE "" (PyMethod BLOOD_SAMPLE).

(** A reading stamped one second after the first reading of the clock of
    [sample_world] below. *)
Definition recent_reading : GlucoseReading.t :=
  GlucoseReading.make one_second_in f100 NONE "" (PyMethod BLOOD_SAMPLE).

Definition ketone_reading : KetoneReading.t :=
  KetoneReading.make noon (Ffin false 3 (-1)) "(Ketone) bar".

Definition sample_info : MeterInfo.t :=
  MeterInfo.make "Sample" "N/A" [] MG_DL.

Definition sample_device : Device :=
  mk_device (Ok tt) (Ok sample_info) (Raise NotImplementedError)
    (fun _ => Ok "2024-01-01 12:00:00")
    (Ok [Glucose future_reading; Ketone ketone_reading;
         Glucose sensor_reading_str; Glucose sensor_reading])
    (Ok tt) (Ok tt).

Definition sample_driver : Driver :=
  mk_driver "A sample driver." (fun _ => Ok sample_device).

(** A world where the driver [sample] exists and no other, the user types
    [n], and the clock reads 2025-06-01 00:00:00 plus the number of calls
    in seconds. *)
Definition sample_world : World :=
  mk_world
    (fun name =>
       if String.eqb name "glucometerutils.drivers.sample"
       then Ok sample_driver
       else Raise (ImportError ("No module named '" ++ name ++ "'")))
    "n"
    (Raise (ImportError "No module named 'dateutil'"))
    (fun n => mk_datetime 2025 6 1 0 0 (N.of_nat n) 0)
    (fun _ => Ok tt).

(** [--driver sample dump --with-ketone --to-file]. *)
Definition dump_to_file_args : Args :=
  mk_args "sample" None None (Some ActDump) PyNone (Some field_timestamp)
    true true "." None.

(** [--driver sample info] and [--driver sample dump]. *)
Definition info_args : Args :=
  mk_args "sample" None None (Some ActInfo) PyNone
    (Some field_timestamp) false false "." None.

Definition dump_args : Args :=
  mk_args "sample" None None (Some ActDump) PyNone
    (Some field_timestamp) false false "." None.

End Notions.

(* ================================================================== *)
(** * Notions for the behaviour of the commands *)
(* ================================================================== *)

Module Behaviour.
Import PyFloat Py Common Glucometer Notions.

(** [x] is a unit or the string value of one: [Unit(x)] succeeds. *)
Definition names_unit (x : pyval) : bool :=
  match Unit_call x with Ok _ => true | Raise _ => false end.

(** [x] is a member of [Unit], or one of the strings ['mg/dL'] and
    ['mmol/L']. *)
Definition unit_or_its_value (x : pyval) : bool :=
  match x with
  | PyUnit _ => true
  | PyStr s => (String.eqb s "mg/dL" || String.eqb s "mmol/L")%bool
  | PyNone | PyMethod _ => false
  end.

Definition is_str (x : pyval) : bool :=
  match x with PyStr _ => true | _ => false end.

(** The answer to the prompt of [zero] is one of [y], [ye], [yes], in any
    case. *)
Definition confirmed (w : World) : bool :=
  existsb (String.eqb (lower (input w))) ["y"; "ye"; "yes"].

(** The device methods an action calls when nothing fails; the [dump]
    action stops before its first call. *)
Definition action_calls (args : Args) (w : World) : list string :=
  match action args with
  | Some ActInfo => ["get_datetime"]
  | Some ActDatetime =>
      match set args with
      | Some "now" => ["set_datetime"]
      | Some "" | None => ["get_datetime"]
      | Some text =>
          match obind (dateutil w) (fun parse => parse text) with
          | Ok _ => ["set_datetime"]
          | Raise _ => []
          end
      end
  | Some ActZero => if confirmed w then ["zero_log"] else []
  | _ => []
  end.

(** The device methods the lines 78-177 call when nothing stops them, in
    order. *)
Definition expected_calls (args : Args) (w : World) : list string :=
  (["connect"; "get_meter_info"] ++ action_calls args w ++ ["disconnect"])%list.

(** [l] is an initial segment of [full]. *)
Definition prefix_of (l full : list string) : Prop :=
  exists rest, full = (l ++ rest)%list.

(** The lines of a text, as [s.split('\n')] gives them. *)
Definition lf_char : ascii := ascii_of_nat 10.
Definition text_lines (s : string) : list string := split_char lf_char s.

(** The version information as [__str__] joins it. *)
Definition joined_versions (i : MeterInfo.t) : string :=
  String.concat (lf ++ "    ") (MeterInfo.version_info i).

(** The CSV line of a reading for the unit argument [unit]. *)
Definition csv_text (unit : pyval) (r : Reading) : string :=
  match Reading_as_csv r unit with
  | Ok s => s
  | Raise _ => ""
  end.

(** With [args] and [w] the lines 78-97 get to the [try] block: the
    driver is imported, the action is not [help], the device is built,
    connected and has given its information. *)
Definition reaches (args : Args) (w : World) (dev : Device)
  (device_info : MeterInfo.t) : Prop :=
  action args <> Some ActHelp /\
  exists drv,
    import_module w ("glucometerutils.drivers." ++ driver args) = Ok drv /\
    Device_new drv (device args) = Ok dev /\
    connect dev = Ok tt /\
    get_meter_info dev = Ok device_info.

(** Readings in the order of their timestamps. *)
Definition timestamp_le (a b : Reading) : Prop :=
  datetime_le (Reading_timestamp a) (Reading_timestamp b) = true.

(** ** More sample data *)

(** [5.5] mmol/L. *)
Definition f5_5 : pyfloat := Ffin false 11 (-1).

(** A device whose [connect] fails with a driver error. *)
Definition unplugged_device : Device :=
  mk_device (Raise (GlucometerError "no device")) (Ok sample_info)
    (Ok "") (fun _ => Ok "") (Ok []) (Ok tt) (Ok tt).

(** A device whose [get_datetime] and [get_readings] fail with a driver
    error. *)
Definition unreadable_device : Device :=
  mk_device (Ok tt) (Ok sample_info) (Raise (GlucometerError "bad checksum"))
    (fun _ => Ok "") (Raise (GlucometerError "bad checksum")) (Ok tt) (Ok tt).

(** A device whose readings all have enum members as measure methods. *)
Definition tidy_device : Device :=
  mk_device (Ok tt) (Ok sample_info) (Raise NotImplementedError)
    (fun _ => Ok "")
    (Ok [Glucose future_reading; Glucose sensor_reading]) (Ok tt) (Ok tt).

(** The drivers [sample], [tidy], [unplugged] and [unreadable]; the user
    types [n]; [dateutil] is installed and rejects every text. *)
Definition second_world : World :=
  mk_world
    (fun name =>
       if String.eqb name "glucometerutils.drivers.sample"
       then Ok sample_driver
       else if String.eqb name "glucometerutils.drivers.tidy"
       then Ok (mk_driver "" (fun _ => Ok tidy_device))
       else if String.eqb name "glucometerutils.drivers.unplugged"
       then Ok (mk_driver "" (fun _ => Ok unplugged_device))
       else if String.eqb name "glucometerutils.drivers.unreadable"
       then Ok (mk_driver "" (fun _ => Ok unreadable_device))
       else Raise (ImportError ("No module named '" ++ name ++ "'")))
    "n"
    (Ok (fun _ => Raise ValueError))
    (fun n => mk_datetime 2025 6 1 0 0 (N.of_nat n) 0)
    (fun _ => Ok tt).

Definition args_of (driver : string) (a : Action) (set : option string)
  : Args :=
  mk_args driver None None (Some a) PyNone (Some field_timestamp)
    false false "." set.

End Behaviour.

(* ================================================================== *)
(** * Facts about the float model *)
(* ================================================================== *)

Import PyFloat Py Common Glucometer Notions.

Lemma pow2_pos k : (0 < pow2 k)%Q.
Proof. unfold pow2. apply Qpower_0_lt. reflexivity. Qed.

Lemma pow2_add a b : (pow2 (a + b) == pow2 a * pow2 b)%Q.
Proof. unfold pow2. apply Qpower_plus. discriminate. Qed.

Lemma round_half_even_spec y :
  (Qabs (inject_Z (round_half_even y) - y) <= 1 # 2)%Q.
Proof.
  unfold round_half_even.
  pose proof (Qfloor_le y) as Hlo.
  pose proof (Qlt_floor y) as Hhi.
  rewrite inject_Z_plus in Hhi. change (inject_Z 1) with 1%Q in Hhi.
  apply Qabs_Qle_condition.
  destruct (Qcompare_spec (y - inject_Z (Qfloor y)) (1 # 2)) as [He | Hl | Hg].
  - destruct (Z.even (Qfloor y));
      [| rewrite inject_Z_plus; change (inject_Z 1) with 1%Q]; split; lra.
  - split; lra.
  - rewrite inject_Z_plus. change (inject_Z 1) with 1%Q. split; lra.
Qed.

Lemma round_half_even_nonneg y : (0 <= y)%Q -> (0 <= round_half_even y)%Z.
Proof.
  intros Hy. unfold round_half_even.
  assert (0 <= Qfloor y)%Z as Hf.
  { change 0%Z with (Qfloor 0). apply Qfloor_resp_le. exact Hy. }
  destruct (_ ?= _)%Q; [destruct (Z.even _) | |]; lia.
Qed.

Lemma pow2_Z n : (0 <= n)%Z -> (pow2 n == inject_Z (2 ^ n))%Q.
Proof. intros H. unfold pow2. rewrite Zpower_Qpower by exact H. reflexivity. Qed.

Lemma ilog2_le x : (0 < x)%Q -> (pow2 (ilog2 x) <= x)%Q.
Proof.
  intros Hx. unfold ilog2.
  destruct (Qle_bool _ x) eqn:E.
  - apply Qle_bool_iff. exact E.
  - destruct x as [n d]. cbn [Qnum Qden] in *.
    assert (0 < n)%Z as Hn by (unfold Qlt in Hx; cbn in Hx; lia).
    set (a := Z.log2 n). set (b := Z.log2 (Z.pos d)).
    assert (0 <= a)%Z by apply Z.log2_nonneg.
    assert (0 <= b)%Z by apply Z.log2_nonneg.
    assert (2 ^ a <= n)%Z as Ha by (apply Z.log2_spec; exact Hn).
    assert (Z.pos d < 2 ^ (b + 1))%Z as Hb.
    { replace (b + 1)%Z with (Z.succ b) by lia. apply Z.log2_spec. lia. }
    replace (a - b - 1)%Z with (a + - (b + 1))%Z by lia.
    rewrite pow2_add. unfold pow2 at 2. rewrite Qpower_opp.
    fold (pow2 (b + 1)). rewrite !pow2_Z by lia.
    assert (0 < 2 ^ (b + 1))%Z as Hp by (apply Z.pow_pos_nonneg; lia).
    apply Qle_shift_div_r.
    + change 0%Q with (inject_Z 0). rewrite <- Zlt_Qlt. exact Hp.
    + unfold Qle, Qmult, inject_Z. cbn [Qnum Qden].
      rewrite Pos.mul_1_r, Z.mul_1_r.
      apply Z.le_trans with (n * Z.pos d)%Z.
      * apply Z.mul_le_mono_nonneg_r; lia.
      * apply Z.mul_le_mono_nonneg_l; lia.
Qed.

Lemma pow2_m53 : (pow2 (-53) == 1 # 9007199254740992)%Q.
Proof. reflexivity. Qed.

Lemma pow2_m1075_small : (pow2 (-1075) <= 1 # 9223372036854775808)%Q.
Proof. unfold pow2, Qle. vm_compute. discriminate. Qed.

Lemma pow2_max a b : (pow2 (Z.max a b) <= pow2 a + pow2 b)%Q.
Proof.
  pose proof (pow2_pos a). pose proof (pow2_pos b).
  apply Z.max_case_strong; intros _; lra.
Qed.

Lemma magnitude_nonneg m e : (0 <= magnitude m e)%Q.
Proof.
  unfold magnitude. apply Qmult_le_0_compat.
  - change 0%Q with (inject_Z 0). rewrite <- Zle_Qle. lia.
  - apply Qlt_le_weak, pow2_pos.
Qed.

Lemma ulp_bound x :
  (0 < x)%Q -> (pow2 (ulp_exp x) <= 2 * (x * pow2 (-53) + pow2 (-1075)))%Q.
Proof.
  intros Hx. unfold ulp_exp, prec, emin.
  eapply Qle_trans; [apply pow2_max|].
  replace (ilog2 x - (53 - 1))%Z with (ilog2 x + -52)%Z by lia.
  rewrite pow2_add.
  pose proof (ilog2_le x Hx) as Hl.
  assert (pow2 (-52) == 2 * pow2 (-53))%Q as E1 by reflexivity.
  assert (pow2 (-1074) == 2 * pow2 (-1075))%Q as E2 by reflexivity.
  rewrite E1, E2. rewrite pow2_m53.
  pose proof (pow2_pos (ilog2 x)).
  lra.
Qed.

Lemma round_binary64_error s x :
  (0 <= x)%Q -> (x <= pow2 1020)%Q ->
  exists m e, round_binary64 s x = Ffin s m e /\
    (Qabs (magnitude m e - x) <= x * pow2 (-53) + pow2 (-1075))%Q.
Proof.
  intros H0 Hmax. unfold round_binary64.
  destruct (Qnum x) as [| p | p] eqn:En.
  - exists 0%N, 0%Z. split; [reflexivity|].
    assert (x == 0)%Q as Ex by (unfold Qeq; rewrite En; reflexivity).
    rewrite Ex. pose proof (pow2_pos (-1075)). rewrite pow2_m53.
    apply Qabs_Qle_condition. unfold magnitude.
    change (inject_Z (Z.of_N 0)) with 0%Q.
    split; lra.
  - assert (0 < x)%Q as Hx by (unfold Qlt; cbn; rewrite En; lia).
    set (e := ulp_exp x). set (y := (x / pow2 e)%Q).
    set (m := round_half_even y).
    pose proof (pow2_pos e) as HP.
    assert (x == y * pow2 e)%Q as Ey.
    { unfold y. field. intro Hc. rewrite Hc in HP. apply (Qlt_irrefl _ HP). }
    assert (0 <= y)%Q as Hy0.
    { unfold y. apply Qle_shift_div_l; [exact HP | lra]. }
    pose proof (round_half_even_nonneg y Hy0) as Hm0.
    pose proof (round_half_even_spec y) as Hr. fold m in Hr, Hm0.
    apply Qabs_Qle_condition in Hr. destruct Hr as [Hr1 Hr2].
    pose proof (ulp_bound x Hx) as Hu. fold e in Hu.
    assert (- (1 # 2) * pow2 e <= (inject_Z m - y) * pow2 e)%Q as G1
      by (apply Qmult_le_compat_r; lra).
    assert ((inject_Z m - y) * pow2 e <= (1 # 2) * pow2 e)%Q as G2
      by (apply Qmult_le_compat_r; lra).
    assert (Qabs (inject_Z m * pow2 e - x) <= x * pow2 (-53) + pow2 (-1075))%Q
      as Hb.
    { apply Qabs_Qle_condition. split; lra. }
    assert (Qle_bool (pow2 emax) (inject_Z m * pow2 e) = false) as Hov.
    { destruct (Qle_bool _ _) eqn:E; [| reflexivity].
      apply Qle_bool_iff in E. exfalso.
      apply Qabs_Qle_condition in Hb. destruct Hb as [_ Hb].
      pose proof pow2_m1075_small as Heta.
      rewrite pow2_m53 in Hb.
      assert (pow2 emax == 16 * pow2 1020)%Q as E3 by reflexivity.
      assert (1 <= pow2 1020)%Q as E4
        by (unfold pow2; apply Qpower_1_le; [lra | lia]).
      rewrite E3 in E. lra. }
    rewrite Hov. exists (Z.to_N m), e. split; [reflexivity|].
    unfold magnitude. rewrite Z2N.id by exact Hm0. exact Hb.
  - exfalso. unfold Qle in H0. cbn in H0. rewrite En in H0. lia.
Qed.

Lemma magnitude_18 : (magnitude 18 0 == 18)%Q.
Proof. reflexivity. Qed.

Lemma pow2_1020 : (pow2 1020 == 1048576 * pow2 1000)%Q.
Proof. reflexivity. Qed.

Lemma pow2_1010 : (pow2 1010 == 1024 * pow2 1000)%Q.
Proof. reflexivity. Qed.

Lemma pow2_1000_ge_1 : (1 <= pow2 1000)%Q.
Proof. unfold pow2. apply Qpower_1_le; [lra | lia]. Qed.

Lemma fdiv18_error s m e :
  (magnitude m e <= pow2 1020)%Q ->
  exists m' e', fdiv (Ffin s m e) f18 = Ffin s m' e' /\
    (Qabs (magnitude m' e' - magnitude m e * (1 # 18))
     <= magnitude m e * (1 # 18) * pow2 (-53) + pow2 (-1075))%Q.
Proof.
  intros Hx. pose proof (magnitude_nonneg m e) as H0.
  unfold fdiv, f18. cbn [N.eqb]. rewrite xorb_false_r.
  destruct (round_binary64_error s (magnitude m e / magnitude 18 0))
    as (m' & e' & E & Hb).
  - rewrite magnitude_18. apply Qle_shift_div_l; lra.
  - rewrite magnitude_18. apply Qle_shift_div_r; lra.
  - exists m', e'. split; [exact E|]. rewrite magnitude_18 in Hb.
    assert (magnitude m e / 18 == magnitude m e * (1 # 18))%Q as E18
      by (field).
    rewrite E18 in Hb. exact Hb.
Qed.

Lemma fmul18_error s m e :
  (magnitude m e <= pow2 1010)%Q ->
  exists m' e', fmul (Ffin s m e) f18 = Ffin s m' e' /\
    (Qabs (magnitude m' e' - magnitude m e * 18)
     <= magnitude m e * 18 * pow2 (-53) + pow2 (-1075))%Q.
Proof.
  intros Hx. pose proof (magnitude_nonneg m e) as H0.
  unfold fmul, f18. rewrite xorb_false_r.
  destruct (round_binary64_error s (magnitude m e * magnitude 18 0))
    as (m' & e' & E & Hb).
  - rewrite magnitude_18. lra.
  - rewrite magnitude_18, pow2_1020. rewrite pow2_1010 in Hx.
    pose proof pow2_1000_ge_1. lra.
  - exists m', e'. split; [exact E|]. rewrite magnitude_18 in Hb. exact Hb.
Qed.

(** [round(x, 2)] and [round(x, 0)]: the decimal [k / p] nearest to the
    magnitude, then the float nearest to it. *)
Lemma py_round_error s m e (nd : N) (p : Q) :
  (inject_Z (10 ^ Z.of_N nd) == p)%Q -> (1 <= p)%Q ->
  (magnitude m e <= pow2 1010)%Q ->
  exists m' e' k, py_round (Ffin s m e) nd = Ffin s m' e' /\
    (0 <= k)%Q /\
    (Qabs (k - magnitude m e) <= (1 # 2) / p)%Q /\
    (Qabs (magnitude m' e' - k) <= k * pow2 (-53) + pow2 (-1075))%Q.
Proof.
  intros Ep Hp Hx. pose proof (magnitude_nonneg m e) as H0.
  unfold py_round.
  set (x := magnitude m e) in *.
  set (P := inject_Z (10 ^ Z.of_N nd)) in *.
  set (j := round_half_even (x * P)).
  assert (0 <= x * P)%Q as HxP by (rewrite Ep; apply Qmult_le_0_compat; lra).
  pose proof (round_half_even_nonneg _ HxP) as Hj0. fold j in Hj0.
  pose proof (round_half_even_spec (x * P)) as Hr. fold j in Hr.
  apply Qabs_Qle_condition in Hr. destruct Hr as [Hr1 Hr2].
  assert (0 <= inject_Z j)%Q as Hj0'
    by (change 0%Q with (inject_Z 0); rewrite <- Zle_Qle; exact Hj0).
  assert (0 < P)%Q as HP by (rewrite Ep; lra).
  assert (0 <= inject_Z j / P)%Q as Hk0 by (apply Qle_shift_div_l; lra).
  assert (Qabs (inject_Z j / P - x) <= (1 # 2) / p)%Q as Hk.
  { rewrite <- Ep. apply Qabs_Qle_condition. split.
    - apply Qle_minus_iff. apply Qle_minus_iff in Hr1.
      setoid_replace (inject_Z j / P - x + - - ((1 # 2) / P))%Q
        with ((inject_Z j - x * P + - - (1 # 2)) / P)%Q
        by (field; lra).
      apply Qle_shift_div_l; lra.
    - apply Qle_minus_iff. apply Qle_minus_iff in Hr2.
      setoid_replace ((1 # 2) / P + - (inject_Z j / P - x))%Q
        with (((1 # 2) + - (inject_Z j - x * P)) / P)%Q
        by (field; lra).
      apply Qle_shift_div_l; lra. }
  destruct (round_binary64_error s (inject_Z j / P)) as (m' & e' & E & Hb).
  - exact Hk0.
  - apply Qabs_Qle_condition in Hk. destruct Hk as [_ Hk].
    assert ((1 # 2) / p <= 1 # 2)%Q.
    { apply Qle_shift_div_r; lra. }
    rewrite pow2_1020. rewrite pow2_1010 in Hx.
    pose proof pow2_1000_ge_1. lra.
  - exists m', e', (inject_Z j / P)%Q. repeat split; assumption.
Qed.

Lemma F2Q_diff s m e m' e' :
  (Qabs (F2Q (Ffin s m' e') - F2Q (Ffin s m e))
   == Qabs (magnitude m' e' - magnitude m e))%Q.
Proof.
  destruct s; cbn [F2Q]; [| reflexivity].
  setoid_replace (- magnitude m' e' - - magnitude m e)%Q
    with (- (magnitude m' e' - magnitude m e))%Q by ring.
  apply Qabs_opp.
Qed.

Lemma F2Q_abs s m e : (Qabs (F2Q (Ffin s m e)) == magnitude m e)%Q.
Proof.
  pose proof (magnitude_nonneg m e).
  destruct s; cbn [F2Q]; [rewrite Qabs_opp|]; apply Qabs_pos; assumption.
Qed.

Ltac split_abs :=
  repeat match goal with
  | H : (Qabs _ <= _)%Q |- _ =>
      apply Qabs_Qle_condition in H; destruct H
  end.

Lemma round_trip_via_mmol s m e :
  (magnitude m e <= pow2 1000)%Q ->
  exists m' e',
    round_trip (Ffin s m e) (PyUnit MG_DL) (PyUnit MMOL_L) = Ok (Ffin s m' e') /\
    (Qabs (magnitude m' e' - magnitude m e)
     <= (59 # 100) + pow2 (-50) * (1 + magnitude m e))%Q.
Proof.
  intros Hx. pose proof (magnitude_nonneg m e) as H0.
  pose proof pow2_1000_ge_1 as H1000. pose proof pow2_1020 as H1020.
  pose proof pow2_1010 as H1010.
  pose proof pow2_m1075_small as Heta. pose proof (pow2_pos (-1075)) as Heta0.
  assert (pow2 (-50) == 8 # 9007199254740992)%Q as E50 by reflexivity.
  destruct (fdiv18_error s m e) as (ma & ea & Ea & Ha); [lra|].
  rewrite pow2_m53 in Ha. pose proof (magnitude_nonneg ma ea).
  destruct (py_round_error s ma ea 2 100) as (mb & eb & K & Eb & HK0 & HK & Hb);
    [reflexivity | lra | split_abs; lra |].
  rewrite pow2_m53 in Hb. pose proof (magnitude_nonneg mb eb).
  assert ((1 # 2) / 100 == 1 # 200)%Q as E200 by reflexivity.
  rewrite E200 in HK.
  destruct (fmul18_error s mb eb) as (mc & ec & Ec & Hc); [split_abs; lra|].
  rewrite pow2_m53 in Hc. pose proof (magnitude_nonneg mc ec).
  destruct (py_round_error s mc ec 0 1) as (md & ed & J & Ed & HJ0 & HJ & Hd);
    [reflexivity | lra | split_abs; lra |].
  rewrite pow2_m53 in Hd.
  assert ((1 # 2) / 1 == 1 # 2)%Q as E2 by reflexivity.
  rewrite E2 in HJ.
  exists md, ed. split.
  - unfold round_trip, convert_glucose_unit. cbn [Unit_call obind Unit_eqb].
    rewrite Ea, Eb, Ec, Ed. reflexivity.
  - rewrite E50. split_abs. apply Qabs_Qle_condition. split; lra.
Qed.

Lemma round_trip_via_mgdl s m e :
  (magnitude m e <= pow2 1000)%Q ->
  exists m' e',
    round_trip (Ffin s m e) (PyUnit MMOL_L) (PyUnit MG_DL) = Ok (Ffin s m' e') /\
    (Qabs (magnitude m' e' - magnitude m e)
     <= (59 # 1800) + pow2 (-50) * (1 + magnitude m e))%Q.
Proof.
  intros Hx. pose proof (magnitude_nonneg m e) as H0.
  pose proof pow2_1000_ge_1 as H1000. pose proof pow2_1020 as H1020.
  pose proof pow2_1010 as H1010.
  pose proof pow2_m1075_small as Heta. pose proof (pow2_pos (-1075)) as Heta0.
  assert (pow2 (-50) == 8 # 9007199254740992)%Q as E50 by reflexivity.
  destruct (fmul18_error s m e) as (ma & ea & Ea & Ha); [lra|].
  rewrite pow2_m53 in Ha. pose proof (magnitude_nonneg ma ea).
  destruct (py_round_error s ma ea 0 1) as (mb & eb & J & Eb & HJ0 & HJ & Hb);
    [reflexivity | lra | split_abs; lra |].
  rewrite pow2_m53 in Hb. pose proof (magnitude_nonneg mb eb).
  assert ((1 # 2) / 1 == 1 # 2)%Q as E2 by reflexivity.
  rewrite E2 in HJ.
  destruct (fdiv18_error s mb eb) as (mc & ec & Ec & Hc); [split_abs; lra|].
  rewrite pow2_m53 in Hc. pose proof (magnitude_nonneg mc ec).
  destruct (py_round_error s mc ec 2 100) as (md & ed & K & Ed & HK0 & HK & Hd);
    [reflexivity | lra | split_abs; lra |].
  rewrite pow2_m53 in Hd.
  assert ((1 # 2) / 100 == 1 # 200)%Q as E200 by reflexivity.
  rewrite E200 in HK.
  exists md, ed. split.
  - unfold round_trip, convert_glucose_unit. cbn [Unit_call obind Unit_eqb].
    rewrite Ea, Eb, Ec, Ed. reflexivity.
  - rewrite E50. split_abs. apply Qabs_Qle_condition. split; lra.
Qed.

(** ** The same bounds for results that are finite *)

Lemma round_binary64_finite s x s' m e :
  (0 <= x)%Q -> round_binary64 s x = Ffin s' m e ->
  s' = s /\
  (Qabs (magnitude m e - x) <= x * pow2 (-53) + pow2 (-1075))%Q.
Proof.
  intros H0 E. unfold round_binary64 in E.
  destruct (Qnum x) as [| p | p] eqn:En.
  - injection E as <- <- <-. split; [reflexivity|].
    assert (x == 0)%Q as Ex by (unfold Qeq; rewrite En; reflexivity).
    rewrite Ex. pose proof (pow2_pos (-1075)). rewrite pow2_m53.
    apply Qabs_Qle_condition. unfold magnitude.
    change (inject_Z (Z.of_N 0)) with 0%Q.
    split; lra.
  - destruct (Qle_bool _ _); [discriminate|]. injection E as <- <- <-.
    split; [reflexivity|].
    assert (0 < x)%Q as Hx by (unfold Qlt; cbn; rewrite En; lia).
    set (e := ulp_exp x). set (y := (x / pow2 e)%Q).
    set (m := round_half_even y).
    pose proof (pow2_pos e) as HP.
    assert (x == y * pow2 e)%Q as Ey.
    { unfold y. field. intro Hc. rewrite Hc in HP. apply (Qlt_irrefl _ HP). }
    assert (0 <= y)%Q as Hy0.
    { unfold y. apply Qle_shift_div_l; [exact HP | lra]. }
    pose proof (round_half_even_nonneg y Hy0) as Hm0.
    pose proof (round_half_even_spec y) as Hr. fold m in Hr, Hm0.
    apply Qabs_Qle_condition in Hr. destruct Hr as [Hr1 Hr2].
    pose proof (ulp_bound x Hx) as Hu. fold e in Hu.
    assert (- (1 # 2) * pow2 e <= (inject_Z m - y) * pow2 e)%Q as G1
      by (apply Qmult_le_compat_r; lra).
    assert ((inject_Z m - y) * pow2 e <= (1 # 2) * pow2 e)%Q as G2
      by (apply Qmult_le_compat_r; lra).
    unfold magnitude. rewrite Z2N.id by exact Hm0.
    apply Qabs_Qle_condition. split; lra.
  - exfalso. unfold Qle in H0. cbn in H0. rewrite En in H0. lia.
Qed.

Lemma fdiv18_finite s m e s' m' e' :
  fdiv (Ffin s m e) f18 = Ffin s' m' e' ->
  s' = s /\
  (Qabs (magnitude m' e' - magnitude m e * (1 # 18))
   <= magnitude m e * (1 # 18) * pow2 (-53) + pow2 (-1075))%Q.
Proof.
  intros E. pose proof (magnitude_nonneg m e) as H0.
  unfold fdiv, f18 in E. cbn [N.eqb] in E. rewrite xorb_false_r in E.
  apply round_binary64_finite in E.
  - destruct E as [-> Hb]. split; [reflexivity|].
    rewrite magnitude_18 in Hb.
    assert (magnitude m e / 18 == magnitude m e * (1 # 18))%Q as E18
      by (field).
    rewrite E18 in Hb. exact Hb.
  - rewrite magnitude_18. apply Qle_shift_div_l; lra.
Qed.

Lemma fmul18_finite s m e s' m' e' :
  fmul (Ffin s m e) f18 = Ffin s' m' e' ->
  s' = s /\
  (Qabs (magnitude m' e' - magnitude m e * 18)
   <= magnitude m e * 18 * pow2 (-53) + pow2 (-1075))%Q.
Proof.
  intros E. pose proof (magnitude_nonneg m e) as H0.
  unfold fmul, f18 in E. rewrite xorb_false_r in E.
  apply round_binary64_finite in E.
  - destruct E as [-> Hb]. split; [reflexivity|].
    rewrite magnitude_18 in Hb. exact Hb.
  - rewrite magnitude_18. lra.
Qed.

Lemma py_round_finite s m e (nd : N) (p : Q) s' m' e' :
  (inject_Z (10 ^ Z.of_N nd) == p)%Q -> (1 <= p)%Q ->
  py_round (Ffin s m e) nd = Ffin s' m' e' ->
  s' = s /\
  exists k, (0 <= k)%Q /\
    (Qabs (k - magnitude m e) <= (1 # 2) / p)%Q /\
    (Qabs (magnitude m' e' - k) <= k * pow2 (-53) + pow2 (-1075))%Q.
Proof.
  intros Ep Hp E. pose proof (magnitude_nonneg m e) as H0.
  unfold py_round in E.
  set (x := magnitude m e) in *.
  set (P := inject_Z (10 ^ Z.of_N nd)) in *.
  set (j := round_half_even (x * P)) in *.
  assert (0 <= x * P)%Q as HxP by (rewrite Ep; apply Qmult_le_0_compat; lra).
  pose proof (round_half_even_nonneg _ HxP) as Hj0. fold j in Hj0.
  pose proof (round_half_even_spec (x * P)) as Hr. fold j in Hr.
  apply Qabs_Qle_condition in Hr. destruct Hr as [Hr1 Hr2].
  assert (0 <= inject_Z j)%Q as Hj0'
    by (change 0%Q with (inject_Z 0); rewrite <- Zle_Qle; exact Hj0).
  assert (0 < P)%Q as HP by (rewrite Ep; lra).
  assert (0 <= inject_Z j / P)%Q as Hk0 by (apply Qle_shift_div_l; lra).
  assert (Qabs (inject_Z j / P - x) <= (1 # 2) / p)%Q as Hk.
  { rewrite <- Ep. apply Qabs_Qle_condition. split.
    - apply Qle_minus_iff. apply Qle_minus_iff in Hr1.
      setoid_replace (inject_Z j / P - x + - - ((1 # 2) / P))%Q
        with ((inject_Z j - x * P + - - (1 # 2)) / P)%Q
        by (field; lra).
      apply Qle_shift_div_l; lra.
    - apply Qle_minus_iff. apply Qle_minus_iff in Hr2.
      setoid_replace ((1 # 2) / P + - (inject_Z j / P - x))%Q
        with (((1 # 2) + - (inject_Z j - x * P)) / P)%Q
        by (field; lra).
      apply Qle_shift_div_l; lra. }
  apply round_binary64_finite in E; [| exact Hk0].
  destruct E as [-> Hb]. split; [reflexivity|].
  exists (inject_Z j / P)%Q. repeat split; assumption.
Qed.

(** A float that is not finite stays so through each conversion. *)
Lemma not_finite_to_mgdl x :
  is_finite x = false -> is_finite (py_round (fmul x f18) 0) = false.
Proof. destruct x; [reflexivity | reflexivity | discriminate]. Qed.

Lemma not_finite_to_mmol x :
  is_finite x = false -> is_finite (py_round (fdiv x f18) 2) = false.
Proof. destruct x; [reflexivity | reflexivity | discriminate]. Qed.

Lemma py_round_not_finite x n :
  is_finite x = false -> is_finite (py_round x n) = false.
Proof. destruct x; [reflexivity | reflexivity | discriminate]. Qed.

Lemma finite_cases x : is_finite x = false \/ exists s m e, x = Ffin s m e.
Proof.
  destruct x as [| s | s m e]; [left; reflexivity | left; reflexivity |].
  right. exists s, m, e. reflexivity.
Qed.

Lemma round_trip_via_mmol_finite s m e r :
  round_trip (Ffin s m e) (PyUnit MG_DL) (PyUnit MMOL_L) = Ok r ->
  is_finite r = true ->
  (Qabs (F2Q r - F2Q (Ffin s m e))
   <= (59 # 100) + pow2 (-50) * (1 + magnitude m e))%Q.
Proof.
  intros E Hfin.
  assert (r = py_round (fmul (py_round (fdiv (Ffin s m e) f18) 2) f18) 0)
    as -> by (injection E as E; symmetry; exact E).
  clear E.
  pose proof (magnitude_nonneg m e) as H0.
  pose proof pow2_m1075_small as Heta. pose proof (pow2_pos (-1075)) as Heta0.
  assert (pow2 (-50) == 8 # 9007199254740992)%Q as E50 by reflexivity.
  destruct (finite_cases (py_round (fdiv (Ffin s m e) f18) 2))
    as [Hb | (sb & mb & eb & Eb)].
  { rewrite (not_finite_to_mgdl _ Hb) in Hfin. discriminate. }
  destruct (finite_cases (fdiv (Ffin s m e) f18))
    as [Ha | (sa & ma & ea & Ea)].
  { pose proof (py_round_not_finite _ 2 Ha) as Hn. rewrite Eb in Hn.
    discriminate. }
  rewrite Eb in Hfin |- *.
  destruct (finite_cases (fmul (Ffin sb mb eb) f18))
    as [Hc | (sc & mc & ec & Ec)].
  { destruct (fmul (Ffin sb mb eb) f18); discriminate. }
  rewrite Ec in Hfin |- *.
  destruct (py_round (Ffin sc mc ec) 0) as [| sd | sd md ed] eqn:Ed;
    try discriminate.
  rewrite Ea in Eb.
  apply fdiv18_finite in Ea. destruct Ea as [-> Ha].
  apply (py_round_finite _ _ _ 2 100) in Eb; [| reflexivity | lra].
  destruct Eb as [-> (K & HK0 & HK & Hb)].
  apply fmul18_finite in Ec. destruct Ec as [-> Hc].
  apply (py_round_finite _ _ _ 0 1) in Ed; [| reflexivity | lra].
  destruct Ed as [-> (J & HJ0 & HJ & Hd)].
  rewrite pow2_m53 in Ha, Hb, Hc, Hd.
  pose proof (magnitude_nonneg ma ea). pose proof (magnitude_nonneg mb eb).
  pose proof (magnitude_nonneg mc ec).
  assert ((1 # 2) / 100 == 1 # 200)%Q as E200 by reflexivity.
  rewrite E200 in HK.
  assert ((1 # 2) / 1 == 1 # 2)%Q as E2 by reflexivity.
  rewrite E2 in HJ.
  rewrite F2Q_diff, E50. split_abs. apply Qabs_Qle_condition. split; lra.
Qed.

Lemma round_trip_via_mgdl_finite s m e r :
  round_trip (Ffin s m e) (PyUnit MMOL_L) (PyUnit MG_DL) = Ok r ->
  is_finite r = true ->
  (Qabs (F2Q r - F2Q (Ffin s m e))
   <= (59 # 1800) + pow2 (-50) * (1 + magnitude m e))%Q.
Proof.
  intros E Hfin.
  assert (r = py_round (fdiv (py_round (fmul (Ffin s m e) f18) 0) f18) 2)
    as -> by (injection E as E; symmetry; exact E).
  clear E.
  pose proof (magnitude_nonneg m e) as H0.
  pose proof pow2_m1075_small as Heta. pose proof (pow2_pos (-1075)) as Heta0.
  assert (pow2 (-50) == 8 # 9007199254740992)%Q as E50 by reflexivity.
  destruct (finite_cases (py_round (fmul (Ffin s m e) f18) 0))
    as [Hb | (sb & mb & eb & Eb)].
  { rewrite (not_finite_to_mmol _ Hb) in Hfin. discriminate. }
  destruct (finite_cases (fmul (Ffin s m e) f18))
    as [Ha | (sa & ma & ea & Ea)].
  { pose proof (py_round_not_finite _ 0 Ha) as Hn. rewrite Eb in Hn.
    discriminate. }
  rewrite Eb in Hfin |- *.
  destruct (finite_cases (fdiv (Ffin sb mb eb) f18))
    as [Hc | (sc & mc & ec & Ec)].
  { destruct (fdiv (Ffin sb mb eb) f18); discriminate. }
  rewrite Ec in Hfin |- *.
  destruct (py_round (Ffin sc mc ec) 2) as [| sd | sd md ed] eqn:Ed;
    try discriminate.
  rewrite Ea in Eb.
  apply fmul18_finite in Ea. destruct Ea as [-> Ha].
  apply (py_round_finite _ _ _ 0 1) in Eb; [| reflexivity | lra].
  destruct Eb as [-> (J & HJ0 & HJ & Hb)].
  apply fdiv18_finite in Ec. destruct Ec as [-> Hc].
  apply (py_round_finite _ _ _ 2 100) in Ed; [| reflexivity | lra].
  destruct Ed as [-> (K & HK0 & HK & Hd)].
  rewrite pow2_m53 in Ha, Hb, Hc, Hd.
  pose proof (magnitude_nonneg ma ea). pose proof (magnitude_nonneg mb eb).
  pose proof (magnitude_nonneg mc ec).
  assert ((1 # 2) / 100 == 1 # 200)%Q as E200 by reflexivity.
  rewrite E200 in HK.
  assert ((1 # 2) / 1 == 1 # 2)%Q as E2 by reflexivity.
  rewrite E2 in HJ.
  rewrite F2Q_diff, E50. split_abs. apply Qabs_Qle_condition. split; lra.
Qed.

(* ================================================================== *)
(** * Facts about strings, columns and lines *)
(* ================================================================== *)

Lemma lacks_app c a b : lacks c (a ++ b) = lacks c a && lacks c b.
Proof.
  induction a as [| d a IH]; cbn [append lacks]; [reflexivity|].
  rewrite IH. apply andb_assoc.
Qed.

Lemma control_differs c d :
  control c = true -> control d = false -> Ascii.eqb d c = false.
Proof.
  intros Hc Hd. destruct (Ascii.eqb d c) eqn:E; [| reflexivity].
  apply Ascii.eqb_eq in E. subst d. congruence.
Qed.

Lemma lacks_cons c d s :
  control c = true -> control d = false -> lacks c (String d s) = lacks c s.
Proof.
  intros Hc Hd. cbn [lacks]. rewrite (control_differs c d Hc Hd). reflexivity.
Qed.

Ltac lacks_step :=
  repeat (first
    [ rewrite lacks_app
    | rewrite lacks_cons by (assumption || reflexivity)
    | rewrite andb_true_r ]);
  cbn [lacks andb].

Lemma lacks_uint c d :
  control c = true -> lacks c (NilEmpty.string_of_uint d) = true.
Proof.
  intros Hc. induction d; cbn [NilEmpty.string_of_uint];
    [reflexivity | rewrite lacks_cons by (assumption || reflexivity); exact IHd ..].
Qed.

Lemma lacks_dec c n : control c = true -> lacks c (dec n) = true.
Proof.
  intros Hc. unfold dec, NilZero.string_of_uint.
  destruct (N.to_uint n) eqn:E; try (rewrite <- E; apply lacks_uint; exact Hc).
  rewrite lacks_cons by (assumption || reflexivity). reflexivity.
Qed.

Lemma lacks_zeros c n : control c = true -> lacks c (zeros n) = true.
Proof.
  intros Hc. induction n; cbn [zeros]; [reflexivity|].
  rewrite lacks_cons by (assumption || reflexivity). exact IHn.
Qed.

Lemma lacks_substring c s : lacks c s = true ->
  forall n m, lacks c (substring n m s) = true.
Proof.
  induction s as [| d s IH]; intros H n m.
  - destruct n, m; reflexivity.
  - cbn [lacks] in H. apply andb_true_iff in H. destruct H as [Hd Hs].
    destruct n as [| n]; cbn [substring].
    + destruct m; [reflexivity|]. cbn [lacks]. rewrite Hd, IH by exact Hs.
      reflexivity.
    + apply IH. exact Hs.
Qed.

Lemma lacks_list c l :
  lacks c (string_of_list_ascii l) = forallb (fun d => negb (Ascii.eqb d c)) l.
Proof. induction l; cbn; [reflexivity | rewrite IHl; reflexivity]. Qed.

Lemma forallb_strip_rev (P : ascii -> bool) l :
  forallb P l = true -> forallb P (strip_trailing_zeros_rev l) = true.
Proof.
  induction l as [| a l IH]; [intros; reflexivity|].
  intros H. cbn [forallb] in H. apply andb_true_iff in H. destruct H as [Ha Hl].
  cbn [strip_trailing_zeros_rev].
  assert (forallb P (a :: l) = true) as Hall
    by (cbn [forallb]; rewrite Ha, Hl; reflexivity).
  destruct a as [[] [] [] [] [] [] [] []]; try exact Hall. apply IH, Hl.
Qed.

Lemma forallb_rev (P : ascii -> bool) l :
  forallb P (rev l) = forallb P l.
Proof.
  induction l as [| a l IH]; [reflexivity|].
  cbn [rev forallb]. rewrite forallb_app, IH. cbn [forallb].
  rewrite andb_true_r. apply andb_comm.
Qed.

Lemma lacks_strip_trailing_zeros c s :
  lacks c s = true -> lacks c (strip_trailing_zeros s) = true.
Proof.
  intros H. unfold strip_trailing_zeros.
  rewrite lacks_list, forallb_rev. apply forallb_strip_rev.
  rewrite forallb_rev, <- lacks_list, string_of_list_ascii_of_string. exact H.
Qed.

Lemma lacks_pad c w n : control c = true -> lacks c (pad w n) = true.
Proof.
  intros Hc. unfold pad. rewrite lacks_app, lacks_zeros, lacks_dec by exact Hc.
  reflexivity.
Qed.

Lemma lacks_format_ymd_hm c d :
  control c = true -> lacks c (format_ymd_hm d) = true.
Proof.
  intros Hc. unfold format_ymd_hm, format_year.
  rewrite !lacks_app, !lacks_pad, lacks_dec by exact Hc.
  rewrite !lacks_cons by (assumption || reflexivity). reflexivity.
Qed.

Lemma lacks_repr_magnitude c x :
  control c = true -> lacks c (repr_magnitude x) = true.
Proof.
  intros Hc. unfold repr_magnitude.
  destruct (shortest_digits _ _ _ _) as [k t].
  set (all := dec (Z.to_N k)).
  assert (lacks c all = true) as Hall by (apply lacks_dec; exact Hc).
  set (ds := strip_trailing_zeros all).
  assert (lacks c ds = true) as Hds
    by (apply lacks_strip_trailing_zeros; exact Hall).
  destruct (_ || _).
  - rewrite !lacks_app, lacks_dec by exact Hc.
    assert (lacks c match ds with
                    | "" => ""
                    | String d "" => String d ""
                    | String d (String _ _ as rest) => String d ("." ++ rest)
                    end = true) as Hm.
    { destruct ds as [| d [| d' r]]; try exact Hds.
      cbn [lacks] in Hds |- *. apply andb_true_iff in Hds.
      destruct Hds as [H1 H2]. rewrite H1. cbn [append].
      rewrite lacks_cons by (assumption || reflexivity). exact H2. }
    rewrite Hm.
    destruct (_ <? 0)%Z; destruct (_ <? 10)%Z;
      rewrite ?lacks_cons by (assumption || reflexivity); reflexivity.
  - destruct (_ <=? 0)%Z; [| destruct (_ <? _)%Z].
    + rewrite !lacks_app, lacks_zeros, Hds by exact Hc.
      rewrite !lacks_cons by (assumption || reflexivity). reflexivity.
    + rewrite !lacks_app, !lacks_substring by exact Hds.
      rewrite !lacks_cons by (assumption || reflexivity). reflexivity.
    + rewrite !lacks_app, lacks_zeros, Hds by exact Hc.
      rewrite !lacks_cons by (assumption || reflexivity). reflexivity.
Qed.

Lemma lacks_float_str c x : control c = true -> lacks c (float_str x) = true.
Proof.
  intros Hc. destruct x as [| s | s m e]; cbn [float_str].
  - rewrite !lacks_cons by (assumption || reflexivity). reflexivity.
  - destruct s; rewrite !lacks_cons by (assumption || reflexivity); reflexivity.
  - rewrite lacks_app.
    assert (lacks c (if s then "-" else "") = true) as Hs
      by (destruct s; rewrite ?lacks_cons by (assumption || reflexivity);
          reflexivity).
    rewrite Hs. destruct (m =? 0)%N.
    + rewrite !lacks_cons by (assumption || reflexivity). reflexivity.
    + apply lacks_repr_magnitude. exact Hc.
Qed.

Lemma control_tab : control tab_char = true.
Proof. reflexivity. Qed.

Lemma control_cr : control cr_char = true.
Proof. reflexivity. Qed.

Lemma columns_cons a rest :
  lacks tab_char a = true -> columns (a ++ tab ++ rest) = a :: columns rest.
Proof.
  unfold columns. induction a as [| d a IH]; intros H.
  - reflexivity.
  - cbn [lacks] in H. apply andb_true_iff in H. destruct H as [Hd Ha].
    cbn [append split_char]. apply negb_true_iff in Hd. rewrite Hd.
    rewrite (IH Ha). reflexivity.
Qed.

Lemma columns_last a : lacks tab_char a = true -> columns a = [a].
Proof.
  unfold columns. induction a as [| d a IH]; intros H.
  - reflexivity.
  - cbn [lacks] in H. apply andb_true_iff in H. destruct H as [Hd Ha].
    cbn [split_char]. apply negb_true_iff in Hd. rewrite Hd.
    rewrite (IH Ha). reflexivity.
Qed.

Lemma columns_concat l :
  l <> [] -> forallb (lacks tab_char) l = true ->
  columns (String.concat tab l) = l.
Proof.
  induction l as [| a l IH]; intros Hne H; [congruence|].
  cbn [forallb] in H. apply andb_true_iff in H. destruct H as [Ha Hl].
  destruct l as [| b l].
  - cbn [String.concat]. apply columns_last, Ha.
  - cbn [String.concat]. rewrite columns_cons by exact Ha. f_equal.
    apply IH; [discriminate | exact Hl].
Qed.

Lemma split_crlf_unfold c t :
  split_crlf (String c t) =
    match t with
    | String d u =>
        if (Ascii.eqb c (ascii_of_nat 13) && Ascii.eqb d (ascii_of_nat 10))%bool
        then "" :: match split_crlf t with
                   | h :: r => match h with
                               | String _ h' => h' :: r
                               | EmptyString => "" :: r
                               end
                   | [] => []
                   end
        else match split_crlf t with
             | h :: r => String c h :: r
             | [] => [String c ""]
             end
    | EmptyString => [String c ""]
    end.
Proof. destruct t; reflexivity. Qed.

Lemma split_crlf_nonempty s : split_crlf s <> [].
Proof.
  destruct s as [| c t]; [discriminate|].
  rewrite split_crlf_unfold. destruct t as [| d u]; [discriminate|].
  destruct (_ && _); [discriminate|].
  destruct (split_crlf _); discriminate.
Qed.

Lemma lines_head c t :
  Ascii.eqb c cr_char = false ->
  split_crlf (String c t) =
    match split_crlf t with
    | h :: r => String c h :: r
    | [] => [String c ""]
    end.
Proof.
  intros Hc. rewrite split_crlf_unfold. destruct t as [| d u]; [reflexivity|].
  change (ascii_of_nat 13) with cr_char. rewrite Hc. reflexivity.
Qed.

Lemma lines_crlf rest : lines (crlf ++ rest) = "" :: lines rest.
Proof.
  unfold lines. change (crlf ++ rest) with
    (String (ascii_of_nat 13) (String (ascii_of_nat 10) rest)).
  rewrite split_crlf_unfold. rewrite !Ascii.eqb_refl. cbn [andb].
  rewrite (lines_head (ascii_of_nat 10) rest) by reflexivity.
  pose proof (split_crlf_nonempty rest) as Hne.
  destruct (split_crlf rest) as [| h r]; [congruence | reflexivity].
Qed.

Lemma lines_cons a rest :
  lacks cr_char a = true -> lines (a ++ crlf ++ rest) = a :: lines rest.
Proof.
  induction a as [| d a IH]; intros H.
  - apply lines_crlf.
  - cbn [lacks] in H. apply andb_true_iff in H. destruct H as [Hd Ha].
    apply negb_true_iff in Hd. unfold lines in *. cbn [append].
    rewrite lines_head by exact Hd. rewrite (IH Ha). reflexivity.
Qed.

(** ** Rows of the export *)

Lemma append_assoc (a b c : string) : (a ++ b) ++ c = a ++ (b ++ c).
Proof. induction a; cbn [append]; [reflexivity | rewrite IHa; reflexivity]. Qed.

Lemma append_nil_r (a : string) : a ++ "" = a.
Proof. induction a; cbn [append]; [reflexivity | rewrite IHa; reflexivity]. Qed.

Lemma get_value_as_ok g u :
  exists v, GlucoseReading.get_value_as g (PyUnit u) = Ok v.
Proof.
  unfold GlucoseReading.get_value_as, convert_glucose_unit.
  destruct u; cbn; eexists; reflexivity.
Qed.

Lemma libre_type_values g :
  In (GlucoseReading._get_libre_type g) ["0"; "1"; "2"; "-1"].
Proof.
  unfold GlucoseReading._get_libre_type.
  repeat match goal with |- context [if ?b then _ else _] => destruct b end;
    cbn; auto.
Qed.

Lemma lacks_libre_type c g :
  control c = true -> lacks c (GlucoseReading._get_libre_type g) = true.
Proof.
  intros Hc. pose proof (libre_type_values g) as H. cbn [In] in H.
  destruct H as [H | [H | [H | [H | []]]]]; rewrite <- H;
    rewrite !lacks_cons by (assumption || reflexivity); reflexivity.
Qed.

Lemma lacks_glucose_text c g u :
  control c = true -> lacks c (glucose_text g u) = true.
Proof.
  intros Hc. unfold glucose_text.
  destruct (GlucoseReading.get_value_as g (PyUnit u));
    [apply lacks_float_str; exact Hc | reflexivity].
Qed.

Lemma lacks_glucose_columns c g u :
  control c = true -> forallb (lacks c) (glucose_columns g u) = true.
Proof.
  intros Hc. unfold glucose_columns. cbn [app repeat forallb lacks].
  rewrite lacks_format_ymd_hm, lacks_libre_type by exact Hc.
  repeat match goal with |- context [if ?b then _ else _] => destruct b end;
    rewrite ?lacks_glucose_text by exact Hc; reflexivity.
Qed.

Lemma glucose_as_tsv_text g u :
  GlucoseReading.as_tsv g (PyUnit u)
  = Ok (String.concat tab (glucose_columns g u)).
Proof.
  unfold GlucoseReading.as_tsv, GlucoseReading._get_libre_historic_glucose,
    GlucoseReading._get_libre_scan_glucose,
    GlucoseReading._get_libre_strip_glucose, glucose_columns, glucose_text.
  destruct (get_value_as_ok g u) as [v Ev]. rewrite Ev.
  cbn [obind].
  destruct (String.eqb _ "0"), (String.eqb _ "1"), (String.eqb _ "2");
    cbn [obind app repeat String.concat repeat_string];
    reflexivity.
Qed.

Lemma ketone_as_tsv_text k unit :
  KetoneReading.as_tsv k unit = Ok (String.concat tab (ketone_columns k)).
Proof.
  unfold KetoneReading.as_tsv, ketone_columns, KetoneReading.get_value_as.
  cbn [app repeat String.concat repeat_string].
  reflexivity.
Qed.

Lemma lacks_ketone_columns c k :
  control c = true -> forallb (lacks c) (ketone_columns k) = true.
Proof.
  intros Hc. unfold ketone_columns. cbn [app repeat forallb].
  rewrite lacks_format_ymd_hm, lacks_float_str by exact Hc.
  rewrite lacks_cons by (assumption || reflexivity). reflexivity.
Qed.

Lemma lacks_concat c sep l :
  lacks c sep = true -> forallb (lacks c) l = true ->
  lacks c (String.concat sep l) = true.
Proof.
  intros Hs. induction l as [| a l IH]; intros H; [reflexivity|].
  cbn [forallb] in H. apply andb_true_iff in H. destruct H as [Ha Hl].
  destruct l as [| b l]; [exact Ha|].
  cbn [String.concat] in *. rewrite !lacks_app, Ha, Hs. apply IH, Hl.
Qed.

Lemma reading_as_tsv_ok u r : Reading_as_tsv r (PyUnit u) = Ok (tsv_text u r).
Proof.
  unfold tsv_text. destruct r as [g | k]; cbn [Reading_as_tsv].
  - rewrite glucose_as_tsv_text. reflexivity.
  - rewrite ketone_as_tsv_text. reflexivity.
Qed.

Lemma lacks_cr_tsv_text u r : lacks cr_char (tsv_text u r) = true.
Proof.
  unfold tsv_text. destruct r as [g | k]; cbn [Reading_as_tsv].
  - rewrite glucose_as_tsv_text. apply lacks_concat; [reflexivity|].
    apply lacks_glucose_columns, control_cr.
  - rewrite ketone_as_tsv_text. apply lacks_concat; [reflexivity|].
    apply lacks_ketone_columns, control_cr.
Qed.

Lemma lacks_cr_rows u rs : forall rowid,
  forallb (lacks cr_char) (rows u rowid rs) = true.
Proof.
  induction rs as [| r rs IH]; intros rowid; [reflexivity|].
  cbn [rows forallb]. rewrite IH, !lacks_app, lacks_cr_tsv_text.
  rewrite lacks_dec by apply control_cr. reflexivity.
Qed.

Lemma length_rows u rs : forall rowid,
  List.length (rows u rowid rs) = List.length rs.
Proof.
  induction rs as [| r rs IH]; intros rowid; [reflexivity|].
  cbn [rows List.length]. rewrite IH. reflexivity.
Qed.

Lemma lines_rows_text l rest :
  forallb (lacks cr_char) l = true ->
  lines (rows_text l ++ rest) = (l ++ lines rest)%list.
Proof.
  induction l as [| a l IH]; intros H; [reflexivity|].
  cbn [forallb] in H. apply andb_true_iff in H. destruct H as [Ha Hl].
  cbn [rows_text app]. rewrite !append_assoc.
  rewrite lines_cons by exact Ha. rewrite (IH Hl). reflexivity.
Qed.

(** ** The clock test *)

Lemma datetime_gt_le a b : datetime_gt a b = negb (datetime_le a b).
Proof.
  unfold datetime_gt, datetime_le. destruct (datetime_compare a b); reflexivity.
Qed.

Lemma kept_shift w first k r :
  kept w first (S k, r) = kept w (S first) (k, r).
Proof.
  unfold kept. cbn [fst snd].
  replace (first + S k)%nat with (S first + k)%nat by lia. reflexivity.
Qed.

Lemma filter_kept_shift w first rs : forall k,
  map snd (filter (kept w first) (combine (seq (S k) (List.length rs)) rs))
  = map snd (filter (kept w (S first)) (combine (seq k (List.length rs)) rs)).
Proof.
  induction rs as [| r rs IH]; intros k; [reflexivity|].
  cbn [List.length seq combine filter]. rewrite kept_shift.
  destruct (kept w (S first) (k, r)); cbn [map snd]; rewrite IH; reflexivity.
Qed.

Lemma exported_cons w first r rs :
  exported w first (r :: rs)
  = if datetime_gt (Reading_timestamp r) (now w first)
    then exported w (S first) rs
    else r :: exported w (S first) rs.
Proof.
  unfold exported, indexed. cbn [List.length seq combine filter].
  rewrite datetime_gt_le.
  assert (kept w first (0%nat, r)
          = datetime_le (Reading_timestamp r) (now w first)) as E
    by (unfold kept; cbn [fst snd]; rewrite Nat.add_0_r; reflexivity).
  rewrite E.
  destruct (datetime_le _ _); cbn [negb map snd]; rewrite filter_kept_shift;
    reflexivity.
Qed.

(** ** Running the export *)

Lemma write_rows_run w u rs : forall rowid s,
  write_rows w (PyUnit u) rowid rs s
  = (mk_effects (stdout s) (errors s) (file_name s)
       (file_data s ++ rows_text (rows u rowid (exported w (now_calls s) rs)))
       (file_mode s) (now_calls s + List.length rs) (device_calls s),
     Ok tt).
Proof.
  induction rs as [| r rs IH]; intros rowid s.
  - cbn [write_rows ret exported rows rows_text List.length].
    unfold exported, indexed. cbn. rewrite append_nil_r, Nat.add_0_r.
    destruct s; reflexivity.
  - cbn [write_rows]. unfold bind at 1. unfold datetime_now at 1.
    cbn [now_calls]. rewrite exported_cons.
    destruct (datetime_gt _ _).
    + rewrite IH. cbn [stdout errors file_name file_data file_mode now_calls
                        device_calls List.length].
      rewrite Nat.add_succ_r. reflexivity.
    + unfold bind, write, lift. rewrite reading_as_tsv_ok.
      cbn [stdout errors file_name file_data file_mode now_calls device_calls].
      rewrite IH.
      cbn [stdout errors file_name file_data file_mode now_calls device_calls
             List.length rows rows_text].
      rewrite Nat.add_succ_r, !append_assoc. reflexivity.
Qed.

Lemma export_to_file_run args w u rs s :
  open_w w (output_folder args ++ "/" ++ format_compact (now w (now_calls s))
              ++ ".csv") = Ok tt ->
  export_to_file args w (PyUnit u) rs s
  = (mk_effects (stdout s) (errors s)
       (Some (output_folder args ++ "/"
                ++ format_compact (now w (now_calls s)) ++ ".csv"))
       (header ++ rows_text (rows u 1 (exported w (S (now_calls s)) rs)))
       (Some 511%N) (S (now_calls s) + List.length rs) (device_calls s),
     Ok tt).
Proof.
  intros Hopen. unfold export_to_file.
  unfold bind at 1. unfold datetime_now at 1.
  unfold bind at 1. unfold open_file at 1. cbn [now_calls]. rewrite Hopen.
  unfold bind, write, chmod.
  cbn [stdout errors file_name file_data file_mode now_calls device_calls].
  rewrite write_rows_run.
  cbn [stdout errors file_name file_data file_mode now_calls device_calls].
  unfold header. rewrite !append_assoc. reflexivity.
Qed.

Lemma export_file_data args w u rs :
  opens args w ->
  export_file args w u rs
  = header ++ rows_text (rows u 1 (exported w 1 rs)).
Proof.
  intros H. unfold export_file.
  rewrite export_to_file_run by exact H. reflexivity.
Qed.

(* ================================================================== *)
(** * The model against the hardware arithmetic *)
(* ================================================================== *)

(** The float model agrees with the kernel's binary64 operations on
    samples: an inexact quotient, a product, a subnormal result and an
    overflow. *)
Module Hardware.
Import PrimFloat.

Example fdiv_agrees_100_18 :
  same_float (of_prim (PrimFloat.div 100%float 18%float)) (fdiv f100 f18)
  = true.
Proof. vm_compute. reflexivity. Qed.

Example fmul_agrees_after_division :
  same_float
    (of_prim (PrimFloat.mul (PrimFloat.div 100%float 18%float) 18%float))
    (fmul (fdiv f100 f18) f18) = true.
Proof. vm_compute. reflexivity. Qed.

Example fdiv_agrees_subnormal :
  same_float (of_prim (PrimFloat.div 0x1p-1070%float 18%float))
    (fdiv (Ffin false 1 (-1070)) f18) = true.
Proof. vm_compute. reflexivity. Qed.

Example fmul_agrees_overflow :
  same_float (of_prim (PrimFloat.mul 0x1p+1020%float 18%float))
    (fmul (Ffin false 1 1020) f18) = true.
Proof. vm_compute. reflexivity. Qed.

End Hardware.

(** [round] and [str] on the values of the specification's example:
    [100 / 18.0] is [5.555555555555555], rounded to [5.56] and [5.6]. *)
Example str_100_div_18 : float_str (fdiv f100 f18) = "5.555555555555555".
Proof. vm_compute. reflexivity. Qed.

Example round_2_then_1 :
  float_str (py_round (fdiv f100 f18) 2) = "5.56" /\
  float_str (py_round (py_round (fdiv f100 f18) 2) 1) = "5.6".
Proof. split; vm_compute; reflexivity. Qed.

(* ================================================================== *)
(** * Unit conversion *)
(* ================================================================== *)

(** [Unit(...)] accepts a member's string value as well as the member. *)
Lemma Unit_call_value u : Unit_call (PyStr (Unit_value u)) = Ok u.
Proof. destruct u; reflexivity. Qed.

(** C2. For every value [v], converting mg/dL to mmol/L gives
    [round(v / 18.0, 2)], converting mmol/L to mg/dL gives
    [round(v * 18.0, 0)], and converting between equal units returns [v]
    unchanged. *)
Theorem convert_glucose_unit_formulas (v : pyfloat) :
  convert_glucose_unit v (PyUnit MG_DL) (PyUnit MMOL_L)
    = Ok (py_round (fdiv v f18) 2) /\
  convert_glucose_unit v (PyUnit MMOL_L) (PyUnit MG_DL)
    = Ok (py_round (fmul v f18) 0) /\
  (forall u, convert_glucose_unit v (PyUnit u) (PyUnit u) = Ok v).
Proof.
  repeat split. intros u. destruct u; reflexivity.
Qed.

(** C3. For every value [v], nan and the infinities included, and every
    unit [A], [convert(v, A, A)] is [v] itself: no arithmetic and no
    rounding is applied. *)
Theorem convert_same_unit_identity (v : pyfloat) (A : Unit) :
  convert_glucose_unit v (PyUnit A) (PyUnit A) = Ok v.
Proof.
  unfold convert_glucose_unit. cbn [Unit_call obind].
  destruct A; reflexivity.
Qed.

(** Nan and the infinities come back from the round trip as they are. *)
Lemma round_trip_not_finite v A B :
  is_finite v = false -> round_trip v (PyUnit A) (PyUnit B) = Ok v.
Proof.
  destruct v as [| s | s m e]; [| | discriminate]; intros _;
    destruct A, B; cbn; rewrite ?xorb_false_r; reflexivity.
Qed.

(** C4, as amended. For every value [v] and distinct units [A], [B],
    converting [v] from [A] to [B] and back returns a value; whenever that
    value is finite, [v] is finite and the value is within the decimal
    rounding tolerance of [v] (0.59 mg/dL, or 0.59/18 mmol/L) plus the
    binary64 rounding error [2^-50 * (1 + |v|)]; it is finite at least for
    every finite [v] of magnitude at most [2^1000]; nan and the infinities
    are returned as they are. *)
Theorem convert_round_trip_within_tolerance (v : pyfloat) (A B : Unit) :
  A <> B ->
  (exists r, round_trip v (PyUnit A) (PyUnit B) = Ok r) /\
  (forall r,
     round_trip v (PyUnit A) (PyUnit B) = Ok r -> is_finite r = true ->
     is_finite v = true /\
     (Qabs (F2Q r - F2Q v)
      <= round_trip_tolerance A + pow2 (-50) * (1 + Qabs (F2Q v)))%Q) /\
  (is_finite v = true -> (Qabs (F2Q v) <= pow2 1000)%Q ->
   forall r,
     round_trip v (PyUnit A) (PyUnit B) = Ok r -> is_finite r = true) /\
  (is_finite v = false -> round_trip v (PyUnit A) (PyUnit B) = Ok v).
Proof.
  intros HAB. split; [| split; [| split]].
  - destruct A, B; eexists; reflexivity.
  - intros r E Hfin. destruct v as [| s | s m e].
    + rewrite (round_trip_not_finite Fnan A B eq_refl) in E.
      injection E as <-. discriminate.
    + rewrite (round_trip_not_finite (Finf s) A B eq_refl) in E.
      injection E as <-. discriminate.
    + split; [reflexivity|]. rewrite F2Q_abs.
      destruct A, B; try (exfalso; apply HAB; reflexivity).
      * apply round_trip_via_mmol_finite; assumption.
      * apply round_trip_via_mgdl_finite; assumption.
  - intros Hfin Hv r E. destruct v as [| |s m e]; try discriminate.
    rewrite F2Q_abs in Hv.
    destruct A, B; try (exfalso; apply HAB; reflexivity).
    + destruct (round_trip_via_mmol s m e Hv) as (m' & e' & E' & _).
      rewrite E' in E. injection E as <-. reflexivity.
    + destruct (round_trip_via_mgdl s m e Hv) as (m' & e' & E' & _).
      rewrite E' in E. injection E as <-. reflexivity.
  - apply round_trip_not_finite.
Qed.

(** The round trip of 100 mg/dL through mmol/L. *)
Lemma convert_round_trip_100 :
  (exists r, round_trip f100 (PyUnit MG_DL) (PyUnit MMOL_L) = Ok r) /\
  (forall r,
     round_trip f100 (PyUnit MG_DL) (PyUnit MMOL_L) = Ok r ->
     is_finite r = true ->
     is_finite f100 = true /\
     (Qabs (F2Q r - F2Q f100)
      <= round_trip_tolerance MG_DL + pow2 (-50) * (1 + Qabs (F2Q f100)))%Q) /\
  (is_finite f100 = true -> (Qabs (F2Q f100) <= pow2 1000)%Q ->
   forall r,
     round_trip f100 (PyUnit MG_DL) (PyUnit MMOL_L) = Ok r ->
     is_finite r = true) /\
  (is_finite f100 = false ->
   round_trip f100 (PyUnit MG_DL) (PyUnit MMOL_L) = Ok f100).
Proof.
  apply (convert_round_trip_within_tolerance f100 MG_DL MMOL_L).
  discriminate.
Defined.

(** 100 mg/dL comes back as 100.0. *)
Example round_trip_of_100 :
  exists r, round_trip f100 (PyUnit MG_DL) (PyUnit MMOL_L) = Ok r /\
    float_str r = "100.0".
Proof. eexists. split; [reflexivity|]. vm_compute. reflexivity. Qed.

(** C4 as stated fails: [2^1020] is a finite float, yet [2^1020 * 18.0]
    overflows, so the round trip from mmol/L returns [inf] and recovers
    the value within no tolerance. *)
Lemma convert_round_trip_overflow :
  is_finite (Ffin false 1 1020) = true /\
  round_trip (Ffin false 1 1020) (PyUnit MMOL_L) (PyUnit MG_DL)
    = Ok (Finf false) /\
  ~ (exists b tol,
       round_trip (Ffin false 1 1020) (PyUnit MMOL_L) (PyUnit MG_DL) = Ok b /\
       is_finite b = true /\
       (Qabs (F2Q b - F2Q (Ffin false 1 1020)) <= tol)%Q).
Proof.
  assert (round_trip (Ffin false 1 1020) (PyUnit MMOL_L) (PyUnit MG_DL)
          = Ok (Finf false)) as E by (vm_compute; reflexivity).
  split; [reflexivity|]. split; [exact E|].
  intros (b & tol & Hb & Hfin & _). rewrite E in Hb.
  injection Hb as <-. discriminate Hfin.
Qed.

(* ================================================================== *)
(** * Rows of readings *)
(* ================================================================== *)

(** The columns of a glucose row, for every reading and unit. *)
Lemma glucose_row_columns g u :
  exists row, GlucoseReading.as_tsv g (PyUnit u) = Ok row /\
    columns row = glucose_columns g u.
Proof.
  exists (String.concat tab (glucose_columns g u)).
  split; [apply glucose_as_tsv_text|].
  apply columns_concat; [discriminate|].
  apply lacks_glucose_columns, control_tab.
Qed.

(** A measure method that is a member of [MeasurementMethod] is equal to
    neither ['CGM'] nor ['blood sample']: the type code is ["-1"] whatever
    the comment. *)
Lemma libre_type_of_member g m :
  GlucoseReading.measure_method g = PyMethod m ->
  GlucoseReading._get_libre_type g = "-1".
Proof.
  intros H. unfold GlucoseReading._get_libre_type. rewrite H. reflexivity.
Qed.

(** With the strings ['CGM'] and ['blood sample'] as measure methods the
    type code follows the comment prefix. *)
Lemma libre_type_of_string g :
  (GlucoseReading.measure_method g = PyStr "CGM" ->
   startswith (GlucoseReading.comment g) "(Sensor)" = true ->
   GlucoseReading._get_libre_type g = "0") /\
  (GlucoseReading.measure_method g = PyStr "CGM" ->
   startswith (GlucoseReading.comment g) "(Sensor)" = false ->
   startswith (GlucoseReading.comment g) "(Scan)" = true ->
   GlucoseReading._get_libre_type g = "1") /\
  (GlucoseReading.measure_method g = PyStr "blood sample" ->
   startswith (GlucoseReading.comment g) "(Blood)" = true ->
   GlucoseReading._get_libre_type g = "2").
Proof.
  unfold GlucoseReading._get_libre_type.
  repeat split; intros H; rewrite H; cbn [eq_str String.eqb Ascii.eqb Bool.eqb];
    intros; repeat match goal with E : startswith _ _ = _ |- _ =>
                     rewrite E; clear E end; reflexivity.
Qed.

(** The row of the specification's example when the measure method is the
    string ['CGM']: type ["0"], historic glucose ["5.6"]. *)
Example sensor_reading_str_row :
  exists row, GlucoseReading.as_tsv sensor_reading_str (PyUnit MMOL_L) = Ok row /\
    columns row = (["2024/01/01 12:05"; "0"; "5.6"] ++ repeat "" 16)%list.
Proof. eexists. split; [reflexivity|]. vm_compute. reflexivity. Qed.

(** C1, on the code. The reading
    [GlucoseReading(noon, 100, comment='(Sensor) foo',
    measure_method=MeasurementMethod.CGM)] exported in mmol/L has the type
    code ["-1"] and blank glucose columns: [self.measure_method == 'CGM']
    compares an enum member with a string. *)
Theorem cgm_member_sensor_row :
  GlucoseReading._get_libre_type sensor_reading = "-1" /\
  exists row,
    GlucoseReading.as_tsv sensor_reading (PyUnit MMOL_L) = Ok row /\
    columns row = (["2024/01/01 12:00"; "-1"] ++ repeat "" 17)%list.
Proof.
  split; [apply (libre_type_of_member _ CGM); reflexivity|].
  eexists. split; [reflexivity|]. vm_compute. reflexivity.
Qed.

(** C9. For every ketone reading and every unit argument, [as_tsv] gives
    a row whose type code is ["3"], whose ketone column (the one headed
    [Ketone (mmol/L)] once the row number is put in front) holds
    [str(value)], and whose other columns after the time are blank. *)
Theorem ketone_row (k : KetoneReading.t) (unit : pyval) :
  exists row, KetoneReading.as_tsv k unit = Ok row /\
    columns row = ketone_columns k /\
    nth 1 (columns row) "" = "3" /\
    nth 12 (columns row) "" = float_str (KetoneReading.value k) /\
    (forall i, (2 <= i)%nat -> i <> 12%nat -> nth i (columns row) "" = "") /\
    (forall rowid,
       nth 13 (columns (dec rowid ++ tab ++ row)) ""
       = float_str (KetoneReading.value k)) /\
    nth 13 header_columns "" = "Ketone (mmol/L)".
Proof.
  exists (String.concat tab (ketone_columns k)).
  assert (columns (String.concat tab (ketone_columns k)) = ketone_columns k)
    as E.
  { apply columns_concat; [discriminate|].
    apply lacks_ketone_columns, control_tab. }
  split; [apply ketone_as_tsv_text|]. split; [exact E|].
  rewrite E. repeat split.
  - intros i Hi Hne. unfold ketone_columns. cbn [app repeat].
    do 20 (destruct i as [| i]; [try lia; try reflexivity|]).
    destruct i; reflexivity.
  - intros rowid. rewrite columns_cons by (apply lacks_dec, control_tab).
    rewrite E. reflexivity.
Qed.

(** C10. A ketone reading returns its stored value whatever arguments
    [get_value_as] is given, so [as_csv] and [as_tsv] print that value for
    every unit, [MG_DL] included. *)
Theorem ketone_unit_ignored (k : KetoneReading.t) :
  (forall args, KetoneReading.get_value_as k args = KetoneReading.value k) /\
  (forall unit,
     KetoneReading.as_csv k unit
     = Ok (dquote ++ datetime_str (KetoneReading.timestamp k) ++ dquote ++ ","
           ++ dquote ++ format_2f (KetoneReading.value k) ++ dquote ++ ","
           ++ dquote ++ "blood sample" ++ dquote ++ ","
           ++ dquote ++ KetoneReading.comment k ++ dquote)) /\
  (forall unit,
     KetoneReading.as_tsv k unit = Ok (String.concat tab (ketone_columns k))) /\
  KetoneReading.as_csv k (PyUnit MG_DL) = KetoneReading.as_csv k (PyUnit MMOL_L) /\
  KetoneReading.as_tsv k (PyUnit MG_DL) = KetoneReading.as_tsv k (PyUnit MMOL_L).
Proof.
  repeat split.
Qed.

(* ================================================================== *)
(** * The command line *)
(* ================================================================== *)

(** [common.py] binds neither of the two constants [glucometer.py] reads
    from it. *)
Lemma module_attr_unbound :
  module_attr "VALID_UNITS" = Raise AttributeError /\
  module_attr "UNIT_MMOLL" = Raise AttributeError.
Proof. split; reflexivity. Qed.

(** The lines 78-177 carry out [--driver sample info] on the sample
    device: the text is printed, the device disconnected, and the end of
    [main] is reached. *)
Example run_info_sample :
  run info_args sample_world no_effects
  = (mk_effects [MeterInfo.str sample_info ++ "Time: N/A"] [] None "" None 0
       ["connect"; "get_meter_info"; "get_datetime"; "disconnect"],
     Ok None).
Proof. reflexivity. Qed.

(** The lines 78-177 on [--driver sample dump]: the device is connected
    and asked for its information, then the [dump] action raises, and the
    device is left connected. *)
Example run_dump_sample :
  run dump_args sample_world no_effects
  = (mk_effects [] [] None "" None 0 ["connect"; "get_meter_info"],
     Raise AttributeError).
Proof. reflexivity. Qed.

(** C5, on the code. No dump serialises a reading, in mmol/L or in any
    other unit: the unit is read from [common.UNIT_MMOLL] (line 108), a
    name [common.py] does not bind, so the [dump] action raises
    [AttributeError] before it asks the device for its readings, whatever
    [--unit] and the native unit of the meter are; and [main] raises the
    same error earlier, at line 53, without any effect. *)
Theorem dump_serialises_nothing (args : Args) (w : World) :
  (forall device_info, dump_unit device_info = Raise AttributeError) /\
  (forall dev device_info s,
     dump args w dev device_info s = (s, Raise AttributeError)) /\
  (forall dev device_info s,
     action args = Some ActDump ->
     actions args w dev device_info s = (s, Raise AttributeError)) /\
  main args w no_effects = (no_effects, Raise AttributeError) /\
  stdout (fst (main args w no_effects)) = [] /\
  file_name (fst (main args w no_effects)) = None.
Proof.
  split; [reflexivity|]. split; [reflexivity|].
  split; [| repeat split].
  intros dev device_info s Hact. unfold actions. rewrite Hact. reflexivity.
Qed.

(** C6, on the code. Every run exits with status 1: [main] raises
    [AttributeError] while it builds the parser (line 53), before the
    command line is parsed, so also the runs that the lines 78-177 would
    carry out without an error, such as [--driver sample info]. *)
Theorem every_run_exits_with_status_1 (args : Args) (w : World) :
  main args w no_effects = (no_effects, Raise AttributeError) /\
  exit_status args w = 1%Z /\
  snd (run info_args sample_world no_effects) = Ok None /\
  exit_status info_args sample_world = 1%Z.
Proof. repeat split. Qed.

Lemma header_lines rest :
  lines (header ++ rest)
  = "Some guy" :: "# 000000001" :: String.concat tab header_columns
      :: lines rest.
Proof.
  change (header ++ rest) with
    ("Some guy" ++ crlf ++ "# 000000001" ++ crlf
       ++ String.concat tab header_columns ++ crlf ++ rest).
  rewrite !lines_cons by reflexivity. reflexivity.
Qed.

(** C7, as amended. The file that the lines 127-142 of [dump --to-file]
    write begins with three lines, the uploader's name, the uploader's ID
    and one line of 19 tab-separated column headers, followed by exactly
    one row per exported reading (its number, a tab and its [as_tsv]
    text), each ended by CRLF. *)
Theorem export_file_layout (args : Args) (w : World) (u : Unit)
  (rs : list Reading) :
  opens args w ->
  lines (export_file args w u rs)
  = (["Some guy"; "# 000000001"; String.concat tab header_columns]
       ++ rows u 1 (exported w 1 rs) ++ [""])%list /\
  columns (String.concat tab header_columns) = header_columns /\
  List.length header_columns = 19%nat /\
  List.length (rows u 1 (exported w 1 rs))
  = List.length (exported w 1 rs).
Proof.
  intros H. rewrite (export_file_data args w u rs H).
  split; [| split; [| split]].
  - rewrite header_lines.
    rewrite <- (append_nil_r (rows_text _)).
    rewrite lines_rows_text by apply lacks_cr_rows. reflexivity.
  - apply columns_concat; [discriminate | reflexivity].
  - reflexivity.
  - apply length_rows.
Qed.

(** The layout of the file for the readings of the sample device, sorted. *)
Lemma export_file_layout_sample :
  lines (export_file dump_to_file_args sample_world MMOL_L
           [Ketone ketone_reading; Glucose sensor_reading;
            Glucose sensor_reading_str; Glucose future_reading])
  = (["Some guy"; "# 000000001"; String.concat tab header_columns]
       ++ rows MMOL_L 1
            (exported sample_world 1
               [Ketone ketone_reading; Glucose sensor_reading;
                Glucose sensor_reading_str; Glucose future_reading])
       ++ [""])%list /\
  columns (String.concat tab header_columns) = header_columns /\
  List.length header_columns = 19%nat /\
  List.length
    (rows MMOL_L 1
       (exported sample_world 1
          [Ketone ketone_reading; Glucose sensor_reading;
           Glucose sensor_reading_str; Glucose future_reading]))
  = List.length
      (exported sample_world 1
         [Ketone ketone_reading; Glucose sensor_reading;
          Glucose sensor_reading_str; Glucose future_reading]).
Proof.
  apply (export_file_layout dump_to_file_args sample_world MMOL_L).
  reflexivity.
Defined.

(** C7 as stated fails: in the file written for the sample readings the
    second line is the uploader's ID, the column headers are the third
    line, and they are 19. *)
Lemma export_header_not_two_lines_of_18 :
  nth 1 (lines (export_file dump_to_file_args sample_world MMOL_L
                  [Ketone ketone_reading; Glucose sensor_reading;
                   Glucose sensor_reading_str; Glucose future_reading])) ""
  = "# 000000001" /\
  List.length
    (columns
       (nth 2 (lines (export_file dump_to_file_args sample_world MMOL_L
                        [Ketone ketone_reading; Glucose sensor_reading;
                         Glucose sensor_reading_str; Glucose future_reading]))
          ""))
  = 19%nat /\
  ~ two_line_header_of_18
      (export_file dump_to_file_args sample_world MMOL_L
         [Ketone ketone_reading; Glucose sensor_reading;
          Glucose sensor_reading_str; Glucose future_reading]).
Proof.
  split; [vm_compute; reflexivity|]. split; [vm_compute; reflexivity|].
  intros (uploader & column_headers & rest & Hl & Hc).
  vm_compute in Hl. injection Hl as _ <- _. vm_compute in Hc. discriminate Hc.
Qed.

(** With a clock that shows the same time at every call, the readings
    the loop keeps are those not after that time. *)
Lemma exported_constant_clock w rs :
  (forall n, now w n = now w 0) ->
  forall first, exported w first rs = not_after (now w 0) rs.
Proof.
  intros Hclock. induction rs as [| r rs IH]; intros first; [reflexivity|].
  rewrite exported_cons, (Hclock first), datetime_gt_le, IH.
  unfold not_after. cbn [filter].
  destruct (datetime_le _ _); reflexivity.
Qed.

Lemma indexed_nth (rs : list Reading) : forall (i : nat) (r : Reading) (k : nat),
  nth_error rs i = Some r ->
  In (k + i, r)%nat (combine (seq k (List.length rs)) rs).
Proof.
  induction rs as [| a rs IH]; intros i r k Hnth.
  - destruct i; discriminate.
  - destruct i as [| i]; cbn in Hnth |- *.
    + injection Hnth as ->. left. rewrite Nat.add_0_r. reflexivity.
    + right. replace (k + S i)%nat with (S k + i)%nat by lia.
      apply IH. exact Hnth.
Qed.

(** C8, as amended. In the file that the lines 122-142 write, the rows
    are those of the readings that pass the clock test when the loop
    reaches them: the reading at position [i] is tested against the time
    [now()] returns at its call number [1 + i] (the call number 0 names the
    file); it is skipped when its timestamp is strictly after that time and
    written when it is less or equal.  With a clock that shows one and the
    same time throughout, these are the readings not after that time. *)
Theorem export_skips_future_readings (args : Args) (w : World) (u : Unit)
  (rs : list Reading) :
  opens args w ->
  export_file args w u rs
  = header ++ rows_text (rows u 1 (exported w 1 rs)) /\
  (forall i r, nth_error rs i = Some r ->
     (datetime_gt (Reading_timestamp r) (now w (1 + i)) = true ->
      ~ In (i, r) (filter (kept w 1) (indexed rs))) /\
     (datetime_le (Reading_timestamp r) (now w (1 + i)) = true ->
      In (i, r) (filter (kept w 1) (indexed rs)))) /\
  ((forall n, now w n = now w 0) ->
   exported w 1 rs = not_after (now w 0) rs).
Proof.
  intros H. split; [apply export_file_data; exact H|]. split.
  - intros i r Hnth. split.
    + intros Hgt Hin. apply filter_In in Hin. destruct Hin as [_ Hk].
      unfold kept in Hk. cbn [fst snd] in Hk.
      rewrite datetime_gt_le, Hk in Hgt. discriminate.
    + intros Hle. apply filter_In. split; [| exact Hle].
      exact (indexed_nth rs i r 0 Hnth).
  - intros Hclock. apply exported_constant_clock. exact Hclock.
Qed.

(** The clock test on the readings of the sample device. *)
Lemma export_skips_future_readings_sample :
  export_file dump_to_file_args sample_world MMOL_L
    [Ketone ketone_reading; Glucose sensor_reading;
     Glucose sensor_reading_str; Glucose future_reading]
  = header ++ rows_text
      (rows MMOL_L 1
         (exported sample_world 1
            [Ketone ketone_reading; Glucose sensor_reading;
             Glucose sensor_reading_str; Glucose future_reading])) /\
  (forall i r,
     nth_error [Ketone ketone_reading; Glucose sensor_reading;
                Glucose sensor_reading_str; Glucose future_reading] i
     = Some r ->
     (datetime_gt (Reading_timestamp r) (now sample_world (1 + i)) = true ->
      ~ In (i, r)
          (filter (kept sample_world 1)
             (indexed [Ketone ketone_reading; Glucose sensor_reading;
                       Glucose sensor_reading_str; Glucose future_reading]))) /\
     (datetime_le (Reading_timestamp r) (now sample_world (1 + i)) = true ->
      In (i, r)
         (filter (kept sample_world 1)
            (indexed [Ketone ketone_reading; Glucose sensor_reading;
                      Glucose sensor_reading_str; Glucose future_reading])))) /\
  ((forall n, now sample_world n = now sample_world 0) ->
   exported sample_world 1
     [Ketone ketone_reading; Glucose sensor_reading;
      Glucose sensor_reading_str; Glucose future_reading]
   = not_after (now sample_world 0)
       [Ketone ketone_reading; Glucose sensor_reading;
        Glucose sensor_reading_str; Glucose future_reading]).
Proof.
  apply (export_skips_future_readings dump_to_file_args sample_world MMOL_L).
  reflexivity.
Defined.

(** C8 as stated fails: the clock of [sample_world] shows 00:00:00 when the
    export is called and 00:00:01 when the loop reaches the first reading;
    a reading stamped 00:00:01 is after the time of the call, and it is
    written. *)
Lemma export_keeps_reading_after_call_time :
  datetime_gt (Reading_timestamp (Glucose recent_reading))
    (now sample_world 0) = true /\
  not_after (now sample_world 0) [Glucose recent_reading] = [] /\
  lines (export_file dump_to_file_args sample_world MMOL_L
           [Glucose recent_reading])
  = ["Some guy"; "# 000000001"; String.concat tab header_columns;
     String.concat tab
       (["1"; "2025/06/01 00:00"; "-1"] ++ repeat "" 17)%list;
     ""] /\
  export_file dump_to_file_args sample_world MMOL_L [Glucose recent_reading]
  <> header
       ++ rows_text
            (rows MMOL_L 1
               (not_after (now sample_world 0) [Glucose recent_reading])).
Proof.
  split; [reflexivity|]. split; [reflexivity|].
  split; [vm_compute; reflexivity|].
  intros H. apply (f_equal String.length) in H. vm_compute in H.
  discriminate H.
Qed.

Import Behaviour.

(* ================================================================== *)
(** * More on unit conversion *)
(* ================================================================== *)

Lemma Unit_call_error x e : Unit_call x = Raise e -> e = ValueError.
Proof.
  destruct x as [| s | u | m]; cbn [Unit_call]; try congruence.
  destruct (String.eqb s _); [discriminate|].
  destruct (String.eqb s _); [discriminate | congruence].
Qed.

Lemma convert_glucose_unit_valid v from_unit to_unit :
  names_unit from_unit = true -> names_unit to_unit = true ->
  exists r, convert_glucose_unit v from_unit to_unit = Ok r.
Proof.
  unfold names_unit, convert_glucose_unit.
  destruct (Unit_call from_unit) as [a |]; [| discriminate].
  destruct (Unit_call to_unit) as [b |]; [| discriminate].
  intros _ _. cbn [obind].
  destruct (Unit_eqb a b); [| destruct (Unit_eqb a MG_DL)]; eexists;
    reflexivity.
Qed.

Lemma convert_glucose_unit_invalid v from_unit to_unit :
  names_unit from_unit = false \/ names_unit to_unit = false ->
  convert_glucose_unit v from_unit to_unit = Raise ValueError.
Proof.
  unfold names_unit, convert_glucose_unit. intros [H | H].
  - destruct (Unit_call from_unit) as [a | e] eqn:E; [discriminate|].
    rewrite (Unit_call_error _ _ E). reflexivity.
  - destruct (Unit_call to_unit) as [b | e] eqn:E; [discriminate|].
    rewrite (Unit_call_error _ _ E).
    destruct (Unit_call from_unit) as [a | e'] eqn:E'; [reflexivity|].
    rewrite (Unit_call_error _ _ E'). reflexivity.
Qed.

(** [Unit(x)] succeeds exactly for the members of [Unit] and for the two
    strings that are their values. *)
Lemma names_unit_spec x : names_unit x = unit_or_its_value x.
Proof.
  destruct x as [| s | u | m]; try reflexivity.
  unfold names_unit, unit_or_its_value, Unit_call. cbn [Unit_value].
  destruct (String.eqb s "mg/dL"); [reflexivity|].
  destruct (String.eqb s "mmol/L"); reflexivity.
Qed.

(** [None], the members of another enumeration and every string other
    than ['mg/dL'] and ['mmol/L'] are no units. *)
Lemma not_a_unit x :
  x = PyNone \/ (exists m, x = PyMethod m) \/
  (exists s, x = PyStr s /\ s <> "mg/dL" /\ s <> "mmol/L") ->
  unit_or_its_value x = false.
Proof.
  intros [-> | [[m ->] | (s & -> & H1 & H2)]]; try reflexivity.
  cbn [unit_or_its_value]. apply String.eqb_neq in H1, H2.
  rewrite H1, H2. reflexivity.
Qed.

(** X1. [convert_glucose_unit] returns a value when both unit arguments
    are members of [Unit] or the strings ['mg/dL'] and ['mmol/L'], which
    stand for the members; it raises [ValueError] as soon as one of them
    is anything else: [None], a member of [MeasurementMethod], or another
    string. *)
Theorem convert_glucose_unit_errors (v : pyfloat) (from_unit to_unit : pyval) :
  (unit_or_its_value from_unit = true -> unit_or_its_value to_unit = true ->
   exists r, convert_glucose_unit v from_unit to_unit = Ok r) /\
  (unit_or_its_value from_unit = false \/ unit_or_its_value to_unit = false ->
   convert_glucose_unit v from_unit to_unit = Raise ValueError) /\
  (forall a b,
     convert_glucose_unit v (PyStr (Unit_value a)) (PyStr (Unit_value b))
     = convert_glucose_unit v (PyUnit a) (PyUnit b)) /\
  (forall x,
     x = PyNone \/ (exists m, x = PyMethod m) \/
     (exists s, x = PyStr s /\ s <> "mg/dL" /\ s <> "mmol/L") ->
     convert_glucose_unit v x to_unit = Raise ValueError /\
     convert_glucose_unit v from_unit x = Raise ValueError).
Proof.
  rewrite <- !names_unit_spec.
  split; [apply convert_glucose_unit_valid|].
  split; [apply convert_glucose_unit_invalid|].
  split.
  - intros a b. unfold convert_glucose_unit. rewrite !Unit_call_value.
    reflexivity.
  - intros x Hx. apply not_a_unit in Hx. rewrite <- names_unit_spec in Hx.
    split; apply convert_glucose_unit_invalid; [left | right]; exact Hx.
Qed.

Lemma round_binary64_sign s x :
  match round_binary64 s x with
  | Ffin s' _ _ | Finf s' => s' = s
  | Fnan => False
  end.
Proof.
  unfold round_binary64. destruct (Qnum x); try reflexivity.
  destruct (Qle_bool _ _); reflexivity.
Qed.

(** X2. Conversion keeps nan, the infinities and the zeros as they are, and
    never changes the sign of a value. *)
Theorem convert_glucose_unit_special (A B : Unit) :
  convert_glucose_unit Fnan (PyUnit A) (PyUnit B) = Ok Fnan /\
  (forall s, convert_glucose_unit (Finf s) (PyUnit A) (PyUnit B)
             = Ok (Finf s)) /\
  (forall s e, exists e',
     convert_glucose_unit (Ffin s 0 e) (PyUnit A) (PyUnit B)
     = Ok (Ffin s 0 e')) /\
  (forall s m e, exists b,
     convert_glucose_unit (Ffin s m e) (PyUnit A) (PyUnit B) = Ok b /\
     match b with
     | Ffin s' _ _ | Finf s' => s' = s
     | Fnan => False
     end).
Proof.
  repeat split.
  - destruct A, B; reflexivity.
  - intros s. destruct A, B; cbn; rewrite ?xorb_false_r; reflexivity.
  - intros s e. destruct A, B; cbn; rewrite ?xorb_false_r; eexists;
      reflexivity.
  - intros s m e. unfold convert_glucose_unit. cbn [Unit_call obind].
    destruct A, B; cbn [Unit_eqb]; eexists; (split; [reflexivity|]);
      try reflexivity.
    + unfold fdiv, f18. cbn [N.eqb]. rewrite xorb_false_r.
      pose proof (round_binary64_sign s (magnitude m e / magnitude 18 0)) as H.
      destruct (round_binary64 s _) as [| s1 | s1 m1 e1]; cbn [py_round];
        [destruct H | exact H |]. subst s1. apply round_binary64_sign.
    + unfold fmul, f18. rewrite xorb_false_r.
      pose proof (round_binary64_sign s (magnitude m e * magnitude 18 0)) as H.
      destruct (round_binary64 s _) as [| s1 | s1 m1 e1]; cbn [py_round];
        [destruct H | exact H |]. subst s1. apply round_binary64_sign.
Qed.

Lemma round_half_even_exact y n :
  (y == inject_Z n)%Q -> round_half_even y = n.
Proof.
  intros H. unfold round_half_even.
  assert (Qfloor y = n) as Hf by (rewrite H; apply Qfloor_Z).
  rewrite Hf.
  destruct (Qcompare_spec (y - inject_Z n) (1 # 2)) as [E | E | E];
    rewrite H in E; try reflexivity; exfalso; lra.
Qed.

Lemma pow2_opp e : (pow2 e * pow2 (- e) == 1)%Q.
Proof. rewrite <- pow2_add. rewrite Z.add_opp_diag_r. reflexivity. Qed.

Lemma pow2_inv e : (/ pow2 e == pow2 (- e))%Q.
Proof. unfold pow2. rewrite Qpower_opp. reflexivity. Qed.

(** Rounding an integer to binary64 gives an integer. *)
Lemma round_binary64_integer s x j :
  (x == inject_Z j)%Q ->
  match round_binary64 s x with
  | Ffin _ m e => exists k, (magnitude m e == inject_Z k)%Q
  | _ => True
  end.
Proof.
  intros Hx. unfold round_binary64.
  destruct (Qnum x) as [| p | p] eqn:En;
    try (exists 0%Z; reflexivity).
  assert (0 < x)%Q as Hpos by (unfold Qlt; cbn; rewrite En; lia).
  set (e := ulp_exp x). set (m := round_half_even (x / pow2 e)).
  destruct (Qle_bool _ _); [exact I|].
  pose proof (pow2_pos e) as HP.
  assert (0 <= x / pow2 e)%Q as Hy by (apply Qle_shift_div_l; lra).
  pose proof (round_half_even_nonneg _ Hy) as Hm. fold m in Hm.
  unfold magnitude. rewrite Z2N.id by exact Hm.
  destruct (Z_le_gt_dec 0 e) as [He | He].
  - exists (m * 2 ^ e)%Z. rewrite inject_Z_mult, pow2_Z by exact He.
    reflexivity.
  - exists j.
    assert (x / pow2 e == inject_Z (j * 2 ^ (- e)))%Q as Hq.
    { rewrite inject_Z_mult, <- pow2_Z by lia. rewrite Hx.
      unfold Qdiv. rewrite pow2_inv. reflexivity. }
    unfold m. rewrite (round_half_even_exact _ _ Hq).
    rewrite inject_Z_mult, <- pow2_Z by lia.
    pose proof (pow2_opp e) as Ho.
    setoid_replace (inject_Z j * pow2 (- e) * pow2 e)%Q
      with (inject_Z j * (pow2 e * pow2 (- e)))%Q by ring.
    rewrite Ho. ring.
Qed.

(** X3. A value converted from mmol/L to mg/dL is, when finite, a whole
    number. *)
Theorem mgdl_from_mmol_is_whole (v b : pyfloat) :
  convert_glucose_unit v (PyUnit MMOL_L) (PyUnit MG_DL) = Ok b ->
  is_finite b = true ->
  exists k : Z, (F2Q b == inject_Z k)%Q.
Proof.
  unfold convert_glucose_unit. cbn [Unit_call obind Unit_eqb].
  intros H Hfin. injection H as <-.
  destruct (fmul v f18) as [| s | s m e]; try discriminate.
  unfold py_round in *.
  set (j := round_half_even (magnitude m e * inject_Z (10 ^ Z.of_N 0))) in *.
  assert (inject_Z j / inject_Z (10 ^ Z.of_N 0) == inject_Z j)%Q as Hx.
  { change (inject_Z (10 ^ Z.of_N 0)) with 1%Q. field. }
  pose proof (round_binary64_integer s _ j Hx) as Hint.
  pose proof (round_binary64_sign s (inject_Z j / inject_Z (10 ^ Z.of_N 0)))
    as Hs.
  destruct (round_binary64 s _) as [| s1 | s1 m1 e1]; try discriminate.
  subst s1. destruct Hint as [k Hk].
  destruct s; cbn [F2Q].
  - exists (- k)%Z. rewrite Hk, inject_Z_opp. reflexivity.
  - exists k. exact Hk.
Qed.

(** 5.5 mmol/L is 99 mg/dL. *)
Lemma mgdl_from_mmol_is_whole_5_5 :
  exists k : Z,
    (F2Q (py_round (fmul f5_5 f18) 0) == inject_Z k)%Q.
Proof.
  apply (mgdl_from_mmol_is_whole f5_5 (py_round (fmul f5_5 f18) 0));
    reflexivity.
Defined.

Example mgdl_of_5_5 : float_str (py_round (fmul f5_5 f18) 0) = "99.0".
Proof. vm_compute. reflexivity. Qed.

(* ================================================================== *)
(** * More on the rows of glucose readings *)
(* ================================================================== *)

(** X4. The row of a glucose reading, for a valid unit: 19 columns, the time
    and the type code first; of the historic, scan and strip columns only
    the one of the type code is filled, none for ["-1"]; the rest is
    blank. *)
Theorem glucose_row_structure (g : GlucoseReading.t) (u : Unit) :
  exists row, GlucoseReading.as_tsv g (PyUnit u) = Ok row /\
    List.length (columns row) = 19%nat /\
    nth 0 (columns row) "" = format_ymd_hm (GlucoseReading.timestamp g) /\
    nth 1 (columns row) "" = GlucoseReading._get_libre_type g /\
    In (GlucoseReading._get_libre_type g) ["0"; "1"; "2"; "-1"] /\
    (nth 2 (columns row) "" <> "" -> GlucoseReading._get_libre_type g = "0") /\
    (nth 3 (columns row) "" <> "" -> GlucoseReading._get_libre_type g = "1") /\
    (nth 11 (columns row) "" <> "" -> GlucoseReading._get_libre_type g = "2") /\
    (forall i, (4 <= i)%nat -> i <> 11%nat -> nth i (columns row) "" = "").
Proof.
  destruct (glucose_row_columns g u) as (row & Erow & Ecols).
  exists row. split; [exact Erow|]. rewrite Ecols.
  unfold glucose_columns. cbn [app repeat List.length nth].
  repeat split.
  - apply libre_type_values.
  - destruct (String.eqb _ "0") eqn:E; [intros _; apply String.eqb_eq, E|].
    intros H; exfalso; apply H; reflexivity.
  - destruct (String.eqb _ "1") eqn:E; [intros _; apply String.eqb_eq, E|].
    intros H; exfalso; apply H; reflexivity.
  - destruct (String.eqb _ "2") eqn:E; [intros _; apply String.eqb_eq, E|].
    intros H; exfalso; apply H; reflexivity.
  - intros i Hi Hne.
    do 19 (destruct i as [| i]; [try lia; try reflexivity|]).
    destruct i; reflexivity.
Qed.

(** X5. With a unit argument that names no unit, [as_tsv] raises [ValueError]
    for the readings of a recognised type and still gives a row, the one
    of type ["-1"], for the others: the unit is looked at only when a
    value is printed. *)
Theorem glucose_as_tsv_invalid_unit (g : GlucoseReading.t) (unit : pyval) :
  names_unit unit = false ->
  (GlucoseReading._get_libre_type g = "-1" ->
   GlucoseReading.as_tsv g unit
   = Ok (String.concat tab
           ([format_ymd_hm (GlucoseReading.timestamp g); "-1"]
              ++ repeat "" 17)%list)) /\
  (GlucoseReading._get_libre_type g <> "-1" ->
   GlucoseReading.as_tsv g unit = Raise ValueError).
Proof.
  intros Hu.
  assert (GlucoseReading.get_value_as g unit = Raise ValueError) as Hv.
  { unfold GlucoseReading.get_value_as.
    apply convert_glucose_unit_invalid. right. exact Hu. }
  unfold GlucoseReading.as_tsv, GlucoseReading._get_libre_historic_glucose,
    GlucoseReading._get_libre_scan_glucose,
    GlucoseReading._get_libre_strip_glucose. rewrite Hv.
  pose proof (libre_type_values g) as Ht. cbn [In] in Ht.
  split.
  - intros E. rewrite E. reflexivity.
  - intros Hne.
    destruct Ht as [E | [E | [E | [E | []]]]]; rewrite <- E in *;
      try reflexivity. exfalso. apply Hne. reflexivity.
Qed.

(** The unit [None] with the two sample readings. *)
Lemma glucose_as_tsv_invalid_unit_sample :
  (GlucoseReading._get_libre_type sensor_reading = "-1" ->
   GlucoseReading.as_tsv sensor_reading PyNone
   = Ok (String.concat tab
           ([format_ymd_hm (GlucoseReading.timestamp sensor_reading); "-1"]
              ++ repeat "" 17)%list)) /\
  (GlucoseReading._get_libre_type sensor_reading <> "-1" ->
   GlucoseReading.as_tsv sensor_reading PyNone = Raise ValueError).
Proof.
  apply (glucose_as_tsv_invalid_unit sensor_reading PyNone). reflexivity.
Defined.

(** X6. [as_csv] of a glucose reading succeeds exactly when the unit names a
    unit and the measure method is an enum member (it has [.value]); it
    raises [ValueError] for the unit first, [AttributeError] otherwise. *)
Theorem glucose_as_csv_errors (g : GlucoseReading.t) (unit : pyval) :
  (names_unit unit = false ->
   GlucoseReading.as_csv g unit = Raise ValueError) /\
  (names_unit unit = true ->
   is_str (GlucoseReading.measure_method g) = true \/
   GlucoseReading.measure_method g = PyNone ->
   GlucoseReading.as_csv g unit = Raise AttributeError) /\
  (names_unit unit = true ->
   forall m, GlucoseReading.measure_method g = PyMethod m ->
   exists line, GlucoseReading.as_csv g unit = Ok line).
Proof.
  unfold GlucoseReading.as_csv, GlucoseReading.get_value_as.
  repeat split.
  - intros Hu.
    rewrite (convert_glucose_unit_invalid (GlucoseReading.value g)
               (PyUnit MG_DL) unit (or_intror Hu)).
    reflexivity.
  - intros Hu Hm.
    destruct (convert_glucose_unit_valid (GlucoseReading.value g)
                (PyUnit MG_DL) unit eq_refl Hu) as [r Er].
    rewrite Er. cbn [obind].
    destruct Hm as [Hm | Hm];
      destruct (GlucoseReading.measure_method g); try discriminate;
      reflexivity.
  - intros Hu m Hm.
    destruct (convert_glucose_unit_valid (GlucoseReading.value g)
                (PyUnit MG_DL) unit eq_refl Hu) as [r Er].
    rewrite Er, Hm. cbn [obind value_attr]. eexists. reflexivity.
Qed.

(** X7. No glucose reading both has a recognised type in the TSV export and a
    CSV line: the type codes ["0"], ["1"], ["2"] need a string as measure
    method, [as_csv] needs an enum member. *)
Theorem csv_line_means_unrecognised_type (g : GlucoseReading.t)
  (unit : pyval) (line : string) :
  GlucoseReading.as_csv g unit = Ok line ->
  GlucoseReading._get_libre_type g = "-1".
Proof.
  unfold GlucoseReading.as_csv, GlucoseReading._get_libre_type.
  destruct (GlucoseReading.get_value_as g unit); [| discriminate].
  cbn [obind].
  destruct (GlucoseReading.measure_method g); cbn; try discriminate;
    reflexivity.
Qed.

(** The sample reading with the enum member has a CSV line. *)
Lemma csv_line_means_unrecognised_type_sample :
  GlucoseReading._get_libre_type sensor_reading = "-1".
Proof.
  apply (csv_line_means_unrecognised_type sensor_reading (PyUnit MMOL_L)
           (dquote ++ "2024-01-01 12:00:00" ++ dquote ++ ","
              ++ dquote ++ "5.56" ++ dquote ++ ","
              ++ dquote ++ "" ++ dquote ++ ","
              ++ dquote ++ "CGM" ++ dquote ++ ","
              ++ dquote ++ "(Sensor) foo" ++ dquote)).
  vm_compute. reflexivity.
Defined.

(* ================================================================== *)
(** * Selecting and sorting the readings *)
(* ================================================================== *)

Lemma lex_compare_antisym a : forall b,
  lex_compare b a = CompOpp (lex_compare a b).
Proof.
  induction a as [| x a IH]; intros [| y b]; try reflexivity.
  cbn [lex_compare]. rewrite (N.compare_antisym x y).
  destruct (x ?= y)%N; cbn [CompOpp]; [apply IH | reflexivity ..].
Qed.

Lemma lex_compare_trans a : forall b c,
  lex_compare a b <> Gt -> lex_compare b c <> Gt -> lex_compare a c <> Gt.
Proof.
  induction a as [| x a IH]; intros [| y b] [| z c]; cbn [lex_compare];
    try congruence.
  destruct (N.compare_spec x y) as [Hxy | Hxy | Hxy];
    destruct (N.compare_spec y z) as [Hyz | Hyz | Hyz];
    destruct (N.compare_spec x z) as [Hxz | Hxz | Hxz];
    intros H1 H2; try congruence; try (exfalso; lia).
  apply (IH b c); assumption.
Qed.

Lemma datetime_le_total a b :
  datetime_lt a b = false -> datetime_le b a = true.
Proof.
  unfold datetime_lt, datetime_le, datetime_compare.
  rewrite (lex_compare_antisym (datetime_fields a) (datetime_fields b)).
  destruct (lex_compare _ _); cbn; congruence.
Qed.

Lemma datetime_lt_le a b : datetime_lt a b = true -> datetime_le a b = true.
Proof.
  unfold datetime_lt, datetime_le. destruct (datetime_compare a b); congruence.
Qed.

Lemma datetime_le_trans a b c :
  datetime_le a b = true -> datetime_le b c = true -> datetime_le a c = true.
Proof.
  unfold datetime_le, datetime_compare. intros H1 H2.
  pose proof (lex_compare_trans (datetime_fields a) (datetime_fields b)
                (datetime_fields c)) as T.
  destruct (lex_compare (datetime_fields a) (datetime_fields b));
    destruct (lex_compare (datetime_fields b) (datetime_fields c));
    destruct (lex_compare (datetime_fields a) (datetime_fields c));
    try reflexivity; try discriminate; exfalso; apply T; congruence.
Qed.

Lemma timestamp_le_trans a b c :
  timestamp_le a b -> timestamp_le b c -> timestamp_le a c.
Proof. unfold timestamp_le. apply datetime_le_trans. Qed.

(** ** The sort neither loses nor duplicates a reading *)

Lemma run_ascending_app f l : forall prev run rest,
  run_ascending f prev l = Ok (run, rest) -> l = (run ++ rest)%list.
Proof.
  induction l as [| y t IH]; intros prev run rest H; cbn [run_ascending] in H.
  - injection H as <- <-. reflexivity.
  - destruct (key_lt _ _) as [[] |]; cbn [obind] in H; try discriminate.
    + injection H as <- <-. reflexivity.
    + destruct (run_ascending f y t) as [[run' rest'] |] eqn:E;
        cbn [obind] in H; [| discriminate].
      injection H as <- <-. cbn [app]. f_equal. apply (IH y). exact E.
Qed.

Lemma run_descending_app f l : forall prev run rest,
  run_descending f prev l = Ok (run, rest) -> l = (run ++ rest)%list.
Proof.
  induction l as [| y t IH]; intros prev run rest H; cbn [run_descending] in H.
  - injection H as <- <-. reflexivity.
  - destruct (key_lt _ _) as [[] |]; cbn [obind] in H; try discriminate.
    + destruct (run_descending f y t) as [[run' rest'] |] eqn:E;
        cbn [obind] in H; [| discriminate].
      injection H as <- <-. cbn [app]. f_equal. apply (IH y). exact E.
    + injection H as <- <-. reflexivity.
Qed.

Lemma count_run_permutation f l run rest :
  count_run f l = Ok (run, rest) -> Permutation l (run ++ rest).
Proof.
  destruct l as [| x [| y t]]; cbn [count_run].
  - intros [= <- <-]. apply Permutation_refl.
  - intros [= <- <-]. apply Permutation_refl.
  - destruct (key_lt _ _) as [[] |]; cbn [obind]; try discriminate.
    + destruct (run_descending f y t) as [[run' rest'] |] eqn:E;
        cbn [obind]; [| discriminate].
      intros [= <- <-]. rewrite (run_descending_app _ _ _ _ _ E).
      change (x :: y :: run' ++ rest')%list
        with ((x :: y :: run') ++ rest')%list.
      apply Permutation_app_tail, Permutation_rev.
    + destruct (run_ascending f y t) as [[run' rest'] |] eqn:E;
        cbn [obind]; [| discriminate].
      intros [= <- <-]. rewrite (run_ascending_app _ _ _ _ _ E).
      apply Permutation_refl.
Qed.

Lemma binary_insert_permutation f x acc acc' :
  binary_insert f x acc = Ok acc' -> Permutation (x :: acc) acc'.
Proof.
  unfold binary_insert.
  destruct (bisect _ _ _ _ _ _) as [i |]; cbn [obind]; [| discriminate].
  intros [= <-]. rewrite <- (firstn_skipn i acc) at 1.
  apply Permutation_middle.
Qed.

Lemma fold_insert_raise f l e :
  fold_left (fun acc x => obind acc (binary_insert f x)) l (Raise e)
  = Raise e.
Proof. induction l as [| x l IH]; [reflexivity | exact IH]. Qed.

Lemma fold_insert_permutation f l : forall acc l',
  fold_left (fun acc x => obind acc (binary_insert f x)) l (Ok acc) = Ok l' ->
  Permutation (acc ++ l) l'.
Proof.
  induction l as [| x l IH]; intros acc l' H; cbn [fold_left] in H.
  - injection H as <-. rewrite app_nil_r. apply Permutation_refl.
  - cbn [obind] in H.
    destruct (binary_insert f x acc) as [acc' |] eqn:E.
    + apply IH in H. eapply perm_trans; [| exact H].
      apply Permutation_trans with ((x :: acc) ++ l)%list.
      * apply Permutation_sym, Permutation_middle.
      * apply Permutation_app_tail.
        apply (binary_insert_permutation f x acc acc' E).
    + rewrite fold_insert_raise in H. discriminate.
Qed.

Lemma sorted_permutation f l l' : sorted f l = Ok l' -> Permutation l l'.
Proof.
  unfold sorted.
  destruct (count_run f l) as [[run rest] |] eqn:E; cbn [obind];
    [| discriminate].
  intros H. eapply perm_trans; [apply (count_run_permutation _ _ _ _ E)|].
  apply (fold_insert_permutation f rest run l' H).
Qed.

Lemma Forall_permutation (P : Reading -> Prop) l l' :
  Permutation l l' -> Forall P l -> Forall P l'.
Proof. intros Hp Hf. rewrite <- Hp. exact Hf. Qed.

(** ** Sorting by timestamp *)

Lemma in_firstn (l : list Reading) i a : In a (firstn i l) -> In a l.
Proof.
  intros H. rewrite <- (firstn_skipn i l). apply in_or_app. left. exact H.
Qed.

Lemma in_skipn (l : list Reading) i a : In a (skipn i l) -> In a l.
Proof.
  intros H. rewrite <- (firstn_skipn i l). apply in_or_app. right. exact H.
Qed.

Section Ordered.

Variable R : Reading -> Reading -> Prop.

Lemma strongly_sorted_app l1 : forall l2,
  StronglySorted R l1 -> StronglySorted R l2 ->
  (forall a b, In a l1 -> In b l2 -> R a b) ->
  StronglySorted R (l1 ++ l2).
Proof.
  induction l1 as [| x l1 IH]; intros l2 H1 H2 Hc; [exact H2|].
  apply StronglySorted_inv in H1. destruct H1 as [H1 Hx].
  cbn [app]. constructor.
  - apply IH; [exact H1 | exact H2 |].
    intros a b Ha Hb. apply Hc; [right; exact Ha | exact Hb].
  - apply Forall_app. split; [exact Hx|].
    apply Forall_forall. intros b Hb. apply Hc; [left; reflexivity | exact Hb].
Qed.

Lemma strongly_sorted_split l : forall i,
  StronglySorted R l ->
  StronglySorted R (firstn i l) /\ StronglySorted R (skipn i l) /\
  (forall a b, In a (firstn i l) -> In b (skipn i l) -> R a b).
Proof.
  induction l as [| x l IH]; intros i H.
  - rewrite firstn_nil, skipn_nil. repeat split; try constructor.
    intros a b [].
  - destruct i as [| i]; cbn [firstn skipn].
    + repeat split; [constructor | exact H | intros a b []].
    + apply StronglySorted_inv in H. destruct H as [H Hx].
      destruct (IH i H) as (Hf & Hs & Hc). repeat split.
      * constructor; [exact Hf|].
        apply Forall_forall. intros a Ha.
        rewrite Forall_forall in Hx. apply Hx.
        apply (in_firstn _ _ _ Ha).
      * exact Hs.
      * intros a b [<- | Ha] Hb.
        -- rewrite Forall_forall in Hx. apply Hx.
           apply (in_skipn _ _ _ Hb).
        -- apply Hc; assumption.
Qed.

End Ordered.

Lemma skipn_nth (l : list Reading) : forall p y,
  nth_error l p = Some y -> skipn p l = y :: skipn (S p) l.
Proof.
  induction l as [| x l IH]; intros p y H.
  - destruct p; discriminate.
  - destruct p as [| p]; cbn in H |- *.
    + injection H as ->. reflexivity.
    + apply IH. exact H.
Qed.

Lemma firstn_nth (l : list Reading) : forall p y,
  nth_error l p = Some y -> firstn (S p) l = (firstn p l ++ [y])%list.
Proof.
  induction l as [| x l IH]; intros p y H.
  - destruct p; discriminate.
  - destruct p as [| p]; cbn in H.
    + injection H as ->. reflexivity.
    + cbn [firstn app]. f_equal. apply IH. exact H.
Qed.

(** On timestamps every comparison answers. *)
Lemma key_lt_timestamp a b :
  key_lt (getattr a field_timestamp) (getattr b field_timestamp)
  = Ok (datetime_lt (Reading_timestamp a) (Reading_timestamp b)).
Proof. reflexivity. Qed.

(** The reading [b] is stamped before [a]. *)
Definition stamped_after (a b : Reading) : Prop :=
  datetime_lt (Reading_timestamp b) (Reading_timestamp a) = true.

Lemma run_ascending_timestamp l : forall prev,
  exists run rest,
    run_ascending field_timestamp prev l = Ok (run, rest) /\
    Sorted timestamp_le (prev :: run).
Proof.
  induction l as [| y t IH]; intros prev; cbn [run_ascending].
  - exists [], []. split; [reflexivity|]. repeat constructor.
  - rewrite key_lt_timestamp. cbn [obind].
    destruct (datetime_lt _ _) eqn:E.
    + eexists [], _. split; [reflexivity|]. repeat constructor.
    + destruct (IH y) as (run & rest & Er & Hs). rewrite Er. cbn [obind].
      exists (y :: run), rest. split; [reflexivity|].
      constructor; [exact Hs|]. constructor.
      apply datetime_le_total, E.
Qed.

Lemma run_descending_timestamp l : forall prev,
  exists run rest,
    run_descending field_timestamp prev l = Ok (run, rest) /\
    Sorted stamped_after (prev :: run).
Proof.
  induction l as [| y t IH]; intros prev; cbn [run_descending].
  - exists [], []. split; [reflexivity|]. repeat constructor.
  - rewrite key_lt_timestamp. cbn [obind].
    destruct (datetime_lt _ _) eqn:E.
    + destruct (IH y) as (run & rest & Er & Hs). rewrite Er. cbn [obind].
      exists (y :: run), rest. split; [reflexivity|].
      constructor; [exact Hs|]. constructor. exact E.
    + eexists [], _. split; [reflexivity|]. repeat constructor.
Qed.

Lemma datetime_lt_trans a b c :
  datetime_lt a b = true -> datetime_lt b c = true -> datetime_lt a c = true.
Proof.
  intros H1 H2.
  destruct (datetime_lt a c) eqn:E; [reflexivity|].
  apply datetime_le_total in E. apply datetime_lt_le in H2.
  pose proof (datetime_le_trans _ _ _ H2 E) as H.
  unfold datetime_lt in H1. unfold datetime_le, datetime_compare in H.
  unfold datetime_compare in H1.
  rewrite (lex_compare_antisym (datetime_fields a) (datetime_fields b)) in H.
  destruct (lex_compare (datetime_fields a) (datetime_fields b));
    discriminate.
Qed.

(** A run that descends strictly, reversed, ascends. *)
Lemma descending_reversed l :
  StronglySorted stamped_after l -> StronglySorted timestamp_le (rev l).
Proof.
  induction l as [| x l IH]; intros H; [constructor|].
  apply StronglySorted_inv in H. destruct H as [H Hx].
  cbn [rev]. apply strongly_sorted_app.
  - apply IH, H.
  - repeat constructor.
  - intros a b Ha [<- | []]. apply in_rev in Ha.
    rewrite Forall_forall in Hx. apply datetime_lt_le, (Hx a Ha).
Qed.

Lemma count_run_timestamp l :
  exists run rest,
    count_run field_timestamp l = Ok (run, rest) /\
    StronglySorted timestamp_le run.
Proof.
  destruct l as [| x [| y t]]; cbn [count_run].
  - exists [], []. split; [reflexivity | constructor].
  - exists [x], []. split; [reflexivity | repeat constructor].
  - rewrite key_lt_timestamp. cbn [obind].
    destruct (datetime_lt _ _) eqn:E.
    + destruct (run_descending_timestamp t y) as (run & rest & Er & Hs).
      rewrite Er. cbn [obind]. eexists _, rest. split; [reflexivity|].
      apply descending_reversed.
      apply Sorted_StronglySorted.
      * intros a b c Hab Hbc. unfold stamped_after in *.
        apply (datetime_lt_trans _ _ _ Hbc Hab).
      * constructor; [exact Hs|]. constructor. exact E.
    + destruct (run_ascending_timestamp t y) as (run & rest & Er & Hs).
      rewrite Er. cbn [obind]. eexists _, rest. split; [reflexivity|].
      apply Sorted_StronglySorted.
      * intros a b c. apply timestamp_le_trans.
      * constructor; [exact Hs|]. constructor.
        apply datetime_le_total, E.
Qed.

(** The binary search ends on a place with the readings not after the
    pivot before it and those not before the pivot behind it. *)
Lemma bisect_timestamp pivot acc :
  StronglySorted timestamp_le acc ->
  forall fuel l r,
    (l < r)%nat -> (r <= List.length acc)%nat -> (r - l <= fuel)%nat ->
    Forall (fun y => timestamp_le y pivot) (firstn l acc) ->
    Forall (fun y => timestamp_le pivot y) (skipn r acc) ->
    exists i,
      bisect fuel field_timestamp pivot acc l r = Ok i /\
      Forall (fun y => timestamp_le y pivot) (firstn i acc) /\
      Forall (fun y => timestamp_le pivot y) (skipn i acc).
Proof.
  intros Hs. induction fuel as [| fuel IH]; intros l r Hlr Hr Hfuel Hl Hh;
    [lia|].
  cbn [bisect].
  remember (l + (r - l) / 2)%nat as p eqn:Ep.
  assert ((r - l) / 2 < r - l)%nat as Hhalf
    by (apply Nat.div_lt; lia).
  assert (l <= p /\ p < r)%nat as [Hlp Hpr] by lia.
  clear Ep Hhalf.
  destruct (nth_error acc p) as [y |] eqn:Ey.
  2:{ apply nth_error_None in Ey. lia. }
  rewrite key_lt_timestamp. cbn [obind].
  destruct (strongly_sorted_split timestamp_le acc p Hs) as (_ & Hsp & Hcp).
  rewrite (skipn_nth _ _ _ Ey) in Hsp, Hcp.
  apply StronglySorted_inv in Hsp. destruct Hsp as [_ Hafter].
  destruct (datetime_lt _ _) eqn:E.
  - assert (Forall (fun y => timestamp_le pivot y) (skipn p acc)) as Hp.
    { rewrite (skipn_nth _ _ _ Ey). constructor.
      - apply datetime_lt_le, E.
      - eapply Forall_impl; [| exact Hafter]. intros z Hz.
        apply (timestamp_le_trans _ y); [apply datetime_lt_le, E | exact Hz]. }
    destruct (l <? p)%nat eqn:C.
    + apply Nat.ltb_lt in C. apply IH; try assumption; lia.
    + apply Nat.ltb_ge in C. assert (l = p) as El by lia.
      exists l. split; [reflexivity|]. split; [exact Hl|].
      rewrite El. exact Hp.
  - assert (Forall (fun y => timestamp_le y pivot) (firstn (S p) acc)) as Hp.
    { rewrite (firstn_nth _ _ _ Ey). apply Forall_app. split.
      - apply Forall_forall. intros a Ha.
        apply (timestamp_le_trans _ y).
        + apply Hcp; [exact Ha | left; reflexivity].
        + apply datetime_le_total, E.
      - constructor; [| constructor]. apply datetime_le_total, E. }
    destruct (S p <? r)%nat eqn:C.
    + apply Nat.ltb_lt in C. apply IH; try assumption; lia.
    + apply Nat.ltb_ge in C. assert (r = S p) as Er by lia.
      exists (S p). split; [reflexivity|]. split; [exact Hp|].
      rewrite <- Er. exact Hh.
Qed.

Lemma binary_insert_timestamp x acc :
  StronglySorted timestamp_le acc ->
  exists acc', binary_insert field_timestamp x acc = Ok acc' /\
    StronglySorted timestamp_le acc'.
Proof.
  intros Hs. unfold binary_insert.
  assert (exists i,
            bisect (List.length acc) field_timestamp x acc 0
              (List.length acc) = Ok i /\
            Forall (fun y => timestamp_le y x) (firstn i acc) /\
            Forall (fun y => timestamp_le x y) (skipn i acc))
    as (i & Ei & Hbefore & Hafter).
  { destruct acc as [| a acc].
    - exists 0%nat. repeat split; constructor.
    - apply (bisect_timestamp x _ Hs).
      + cbn [List.length]. lia.
      + lia.
      + lia.
      + constructor.
      + rewrite skipn_all. constructor. }
  rewrite Ei. cbn [obind]. eexists. split; [reflexivity|].
  destruct (strongly_sorted_split timestamp_le acc i Hs) as (Hf & Hk & Hc).
  apply strongly_sorted_app.
  - exact Hf.
  - constructor; assumption.
  - intros a b Ha [<- | Hb].
    + rewrite Forall_forall in Hbefore. apply Hbefore, Ha.
    + apply Hc; assumption.
Qed.

Lemma fold_insert_timestamp l : forall acc,
  StronglySorted timestamp_le acc ->
  exists l',
    fold_left (fun acc x => obind acc (binary_insert field_timestamp x)) l
      (Ok acc) = Ok l' /\
    StronglySorted timestamp_le l'.
Proof.
  induction l as [| x l IH]; intros acc Hs.
  - exists acc. split; [reflexivity | exact Hs].
  - cbn [fold_left obind].
    destruct (binary_insert_timestamp x acc Hs) as (acc' & E & Hs').
    rewrite E. apply IH, Hs'.
Qed.

Lemma sorted_timestamp l :
  exists l', sorted field_timestamp l = Ok l' /\
    StronglySorted timestamp_le l'.
Proof.
  unfold sorted.
  destruct (count_run_timestamp l) as (run & rest & E & Hs).
  rewrite E. cbn [obind]. apply fold_insert_timestamp, Hs.
Qed.

(** X8. Sorted by timestamp, which is the default, the readings the dump
    works on are a rearrangement of the readings of the device (without
    the ketone readings unless [--with-ketone] is given) in non-decreasing
    order of timestamp, and the selection does not fail. *)
Theorem select_readings_by_timestamp (args : Args) (rs : list Reading) :
  sort_by args = Some field_timestamp ->
  exists rs', select_readings args rs = Ok rs' /\
    Permutation
      (if with_ketone args then rs
       else filter (fun r => negb (is_ketone r)) rs) rs' /\
    StronglySorted timestamp_le rs' /\
    (with_ketone args = false -> Forall (fun r => is_ketone r = false) rs').
Proof.
  intros Hsort. unfold select_readings. rewrite Hsort.
  set (kept := if negb (with_ketone args)
               then filter (fun r => negb (is_ketone r)) rs else rs).
  destruct (sorted_timestamp kept) as (rs' & E & Hs).
  exists rs'. split; [exact E|].
  pose proof (sorted_permutation _ _ _ E) as Hp.
  assert (kept = if with_ketone args then rs
                 else filter (fun r => negb (is_ketone r)) rs) as Ek
    by (unfold kept; destruct (with_ketone args); reflexivity).
  rewrite <- Ek. split; [exact Hp|]. split; [exact Hs|].
  intros Hk. apply (Forall_permutation _ _ _ Hp).
  unfold kept. rewrite Hk. cbn [negb].
  apply Forall_forall. intros r Hr. apply filter_In in Hr.
  destruct Hr as [_ Hr]. apply negb_true_iff in Hr. exact Hr.
Qed.

(** The selection for [--driver sample dump --with-ketone --to-file]. *)
Lemma select_readings_by_timestamp_sample :
  exists rs',
    select_readings dump_to_file_args
      [Glucose future_reading; Ketone ketone_reading] = Ok rs' /\
    Permutation
      (if with_ketone dump_to_file_args
       then [Glucose future_reading; Ketone ketone_reading]
       else filter (fun r => negb (is_ketone r))
              [Glucose future_reading; Ketone ketone_reading]) rs' /\
    StronglySorted timestamp_le rs' /\
    (with_ketone dump_to_file_args = false ->
     Forall (fun r => is_ketone r = false) rs').
Proof.
  apply (select_readings_by_timestamp dump_to_file_args). reflexivity.
Defined.

(** X9. Whatever the field sorted by, a selection that succeeds neither loses
    nor duplicates a reading. *)
Theorem select_readings_permutation (args : Args) (rs rs' : list Reading) :
  select_readings args rs = Ok rs' ->
  Permutation
    (if with_ketone args then rs
     else filter (fun r => negb (is_ketone r)) rs) rs'.
Proof.
  unfold select_readings. intros H.
  assert ((if negb (with_ketone args)
           then filter (fun r => negb (is_ketone r)) rs else rs)
          = if with_ketone args then rs
            else filter (fun r => negb (is_ketone r)) rs) as Ek
    by (destruct (with_ketone args); reflexivity).
  rewrite Ek in H.
  destruct (sort_by args) as [f |].
  - apply (sorted_permutation f), H.
  - injection H as <-. apply Permutation_refl.
Qed.

(** Sorting the comments of two sample readings. *)
Lemma select_readings_permutation_sample :
  Permutation
    (if with_ketone (mk_args "sample" None None (Some ActDump) PyNone
                       (Some field_comment) false false "." None)
     then [Glucose sensor_reading; Ketone ketone_reading;
           Glucose future_reading]
     else filter (fun r => negb (is_ketone r))
            [Glucose sensor_reading; Ketone ketone_reading;
             Glucose future_reading])
    [Glucose future_reading; Glucose sensor_reading].
Proof.
  apply (select_readings_permutation
           (mk_args "sample" None None (Some ActDump) PyNone
              (Some field_comment) false false "." None)).
  reflexivity.
Defined.

(** X10. Sorting by [measure_method] raises [TypeError] as soon as one of the
    first two readings has a measure method that is not a string (enum
    members are not ordered); with fewer than two readings nothing is
    compared and no sort fails. *)
Theorem sorted_by_measure_method_fails (r1 r2 : Reading)
  (rest : list Reading) :
  is_str (Reading_measure_method r1) = false \/
  is_str (Reading_measure_method r2) = false ->
  sorted field_measure_method (r1 :: r2 :: rest) = Raise TypeError /\
  (forall f, sorted f [] = Ok []) /\
  (forall f r, sorted f [r] = Ok [r]).
Proof.
  intros H. split; [| split; reflexivity].
  unfold sorted, count_run. cbn [getattr].
  assert (key_lt (KeyVal (Reading_measure_method r2))
            (KeyVal (Reading_measure_method r1)) = Raise TypeError) as E.
  { destruct H as [H | H];
      destruct (Reading_measure_method r1), (Reading_measure_method r2);
      try discriminate; reflexivity. }
  rewrite E. reflexivity.
Qed.

(** A ketone reading and a glucose reading of the sample device. *)
Lemma sorted_by_measure_method_fails_sample :
  sorted field_measure_method
    [Ketone ketone_reading; Glucose sensor_reading_str] = Raise TypeError /\
  (forall f, sorted f [] = Ok []) /\
  (forall f r, sorted f [r] = Ok [r]).
Proof.
  apply (sorted_by_measure_method_fails (Ketone ketone_reading)
           (Glucose sensor_reading_str) []).
  left. reflexivity.
Defined.

(* ================================================================== *)
(** * The statements of [main] after the parser *)
(* ================================================================== *)

(** ** The loop that prints the CSV lines *)

Lemma csv_text_ok unit r line :
  Reading_as_csv r unit = Ok line -> csv_text unit r = line.
Proof. unfold csv_text. intros ->. reflexivity. Qed.

(** X11. The loop of lines 144-145 prints the CSV line of every reading it
    is given, in order, when each of them has one; it does not read the
    clock, opens no file and calls no device method, so that readings
    stamped in the future are printed like the others. *)
Theorem csv_dump_prints_every_reading (unit : pyval) (rs : list Reading) :
  Forall (fun r => exists line, Reading_as_csv r unit = Ok line) rs ->
  forall s,
    print_rows unit rs s
    = (mk_effects (stdout s ++ map (csv_text unit) rs) (errors s)
         (file_name s) (file_data s) (file_mode s) (now_calls s)
         (device_calls s),
       Ok tt).
Proof.
  induction rs as [| r rs IH]; intros H s.
  - cbn [print_rows ret map]. rewrite app_nil_r. destruct s; reflexivity.
  - apply Forall_cons_iff in H. destruct H as [[line Hr] Hrs].
    cbn [print_rows]. unfold bind at 1. unfold lift at 1. rewrite Hr.
    unfold bind at 1. unfold print at 1. rewrite (IH Hrs).
    cbn [stdout errors file_name file_data file_mode now_calls device_calls
           map].
    rewrite (csv_text_ok _ _ _ Hr), <- app_assoc. reflexivity.
Qed.

(** Three readings of the samples, one of them stamped in the year 2999. *)
Lemma csv_dump_prints_every_reading_sample :
  print_rows (PyUnit MMOL_L)
    [Glucose sensor_reading; Glucose future_reading; Ketone ketone_reading]
    no_effects
  = (mk_effects
       (map (csv_text (PyUnit MMOL_L))
          [Glucose sensor_reading; Glucose future_reading;
           Ketone ketone_reading])
       [] None "" None 0 [],
     Ok tt).
Proof.
  apply (csv_dump_prints_every_reading (PyUnit MMOL_L)
           [Glucose sensor_reading; Glucose future_reading;
            Ketone ketone_reading]).
  repeat constructor; eexists; reflexivity.
Defined.

Lemma print_rows_stops unit pre r post e : forall s,
  Forall (fun r => exists line, Reading_as_csv r unit = Ok line) pre ->
  Reading_as_csv r unit = Raise e ->
  print_rows unit (pre ++ r :: post) s
  = (mk_effects (stdout s ++ map (csv_text unit) pre) (errors s)
       (file_name s) (file_data s) (file_mode s) (now_calls s)
       (device_calls s),
     Raise e).
Proof.
  induction pre as [| p pre IH]; intros s H Hr.
  - cbn [app print_rows]. unfold bind, lift. rewrite Hr. cbn [map].
    rewrite app_nil_r. destruct s; reflexivity.
  - apply Forall_cons_iff in H. destruct H as [[line Hp] Hpre].
    cbn [app print_rows]. unfold bind at 1. unfold lift at 1. rewrite Hp.
    unfold bind at 1. unfold print at 1. rewrite (IH _ Hpre Hr).
    cbn [stdout errors file_name file_data file_mode now_calls device_calls
           map].
    rewrite (csv_text_ok _ _ _ Hp), <- app_assoc. reflexivity.
Qed.

(** X12. A glucose reading whose measure method is a string stops the loop
    of lines 144-145: the lines of the readings before it are printed, the
    loop raises [AttributeError], and the readings after it are not
    printed. *)
Theorem csv_dump_stops_at_string_method (unit : pyval)
  (pre post : list Reading) (g : GlucoseReading.t) :
  names_unit unit = true ->
  is_str (GlucoseReading.measure_method g) = true ->
  Forall (fun r => exists line, Reading_as_csv r unit = Ok line) pre ->
  forall s,
    print_rows unit (pre ++ Glucose g :: post) s
    = (mk_effects (stdout s ++ map (csv_text unit) pre) (errors s)
         (file_name s) (file_data s) (file_mode s) (now_calls s)
         (device_calls s),
       Raise AttributeError).
Proof.
  intros Hu Hm Hpre s. apply print_rows_stops; [exact Hpre|].
  cbn [Reading_as_csv].
  unfold GlucoseReading.as_csv, GlucoseReading.get_value_as.
  destruct (convert_glucose_unit_valid (GlucoseReading.value g)
              (PyUnit MG_DL) unit eq_refl Hu) as [v Ev].
  rewrite Ev. cbn [obind].
  destruct (GlucoseReading.measure_method g); try discriminate. reflexivity.
Qed.

(** The reading with the string ['CGM'] between two readings with enum
    members. *)
Lemma csv_dump_stops_at_string_method_sample :
  print_rows (PyUnit MMOL_L)
    ([Glucose sensor_reading]
       ++ Glucose sensor_reading_str :: [Glucose future_reading]) no_effects
  = (mk_effects (map (csv_text (PyUnit MMOL_L)) [Glucose sensor_reading])
       [] None "" None 0 [],
     Raise AttributeError).
Proof.
  apply (csv_dump_stops_at_string_method (PyUnit MMOL_L)
           [Glucose sensor_reading] [Glucose future_reading]
           sensor_reading_str).
  - reflexivity.
  - reflexivity.
  - repeat constructor. eexists. reflexivity.
Defined.

(** ** The device methods the lines 78-177 call *)

Ltac split_first_char t :=
  destruct t as [| [[] [] [] [] [] [] [] []] t]; try reflexivity.

(** The three cases of [--set], by comparison of strings. *)
Lemma datetime_action_cases args w dev :
  datetime_action args w dev
  = match set args with
    | None =>
        shown <- call "get_datetime" (get_datetime dev) ;;
        print shown ;;; ret Fallthrough
    | Some text =>
        if String.eqb text "now" then
          shown <- call "set_datetime" (set_datetime dev None) ;;
          print shown ;;; ret Fallthrough
        else if String.eqb text "" then
          shown <- call "get_datetime" (get_datetime dev) ;;
          print shown ;;; ret Fallthrough
        else
          match obind (dateutil w) (fun parse => parse text) with
          | Raise (ImportError _) =>
              logging_error
                ("Unable to import module " ++ dquote ++ "dateutil" ++ dquote
                   ++ ", please install it.") ;;;
              ret (Return (Some 1%Z))
          | Raise ValueError =>
              logging_error (text ++ ": not a valid date") ;;;
              ret (Return (Some 1%Z))
          | Raise e => lift (Raise e)
          | Ok new_date =>
              shown <- call "set_datetime"
                         (set_datetime dev (Some new_date)) ;;
              print shown ;;; ret Fallthrough
          end
    end.
Proof.
  unfold datetime_action. destruct (set args) as [t |]; [| reflexivity].
  split_first_char t. split_first_char t. split_first_char t.
  destruct t; reflexivity.
Qed.

Lemma action_calls_datetime args w :
  action args = Some ActDatetime ->
  action_calls args w
  = match set args with
    | None => ["get_datetime"]
    | Some text =>
        if String.eqb text "now" then ["set_datetime"]
        else if String.eqb text "" then ["get_datetime"]
        else match obind (dateutil w) (fun parse => parse text) with
             | Ok _ => ["set_datetime"]
             | Raise _ => []
             end
    end.
Proof.
  intros H. unfold action_calls. rewrite H.
  destruct (set args) as [t |]; [| reflexivity].
  split_first_char t. split_first_char t. split_first_char t.
  destruct t; reflexivity.
Qed.

Lemma actions_calls args w dev device_info s :
  device_calls (fst (actions args w dev device_info s))
  = (device_calls s ++ action_calls args w)%list.
Proof.
  unfold actions.
  destruct (action args) as [[] |] eqn:Hact.
  - unfold action_calls. rewrite Hact. cbn. rewrite app_nil_r. reflexivity.
  - unfold action_calls. rewrite Hact.
    unfold info, call, bind, lift, print, ret.
    destruct (get_datetime dev) as [t | []]; reflexivity.
  - unfold action_calls. rewrite Hact. unfold confirmed.
    unfold zero, bind, print, call, ret.
    destruct (existsb _ _); cbn; [| rewrite app_nil_r; reflexivity].
    destruct (zero_log dev) as [[] | []]; reflexivity.
  - unfold action_calls. rewrite Hact.
    change (dump args w dev device_info s)
      with (s, @Raise flow AttributeError).
    cbn [fst]. rewrite app_nil_r. reflexivity.
  - rewrite (action_calls_datetime _ _ Hact), datetime_action_cases.
    destruct (set args) as [text |].
    + destruct (String.eqb text "now");
        [| destruct (String.eqb text "")].
      * unfold call, bind, print, ret.
        destruct (set_datetime dev None) as [t | []]; reflexivity.
      * unfold call, bind, print, ret.
        destruct (get_datetime dev) as [t | []]; reflexivity.
      * destruct (obind (dateutil w) _) as [d | []];
          unfold call, bind, print, ret, logging_error, lift; cbn;
          rewrite ?app_nil_r; try reflexivity.
        destruct (set_datetime dev (Some d)) as [t | []]; reflexivity.
    + unfold call, bind, print, ret.
      destruct (get_datetime dev) as [t | []]; reflexivity.
  - unfold action_calls. rewrite Hact. cbn. rewrite app_nil_r. reflexivity.
Qed.

Lemma action_calls_names args w name :
  In name (action_calls args w) ->
  In name ["get_datetime"; "set_datetime"; "zero_log"].
Proof.
  destruct (action args) as [[] |] eqn:Hact;
    try (unfold action_calls; rewrite Hact; cbn; tauto).
  - unfold action_calls. rewrite Hact. destruct (confirmed w); cbn; tauto.
  - rewrite (action_calls_datetime _ _ Hact).
    destruct (set args) as [text |]; [| cbn; tauto].
    destruct (String.eqb text "now"); [cbn; tauto|].
    destruct (String.eqb text ""); [cbn; tauto|].
    destruct (obind _ _); cbn; tauto.
Qed.

(** The only value the [try] block returns is 1. *)
Lemma actions_returns args w dev device_info s v :
  snd (actions args w dev device_info s) = Ok (Return v) -> v = Some 1%Z.
Proof.
  unfold actions.
  assert (forall (body : M flow),
            (forall v', snd (body s) = Ok (Return v') -> v' = Some 1%Z) ->
            snd (match body s with
                 | (s', Raise (GlucometerError err)) =>
                     (print ("Error while executing '"
                               ++ Action_str (action args) ++ "': " ++ err) ;;;
                      ret (Return (Some 1%Z))) s'
                 | other => other
                 end) = Ok (Return v) -> v = Some 1%Z) as Hh.
  { intros body Hb. specialize (Hb v).
    destruct (body s) as [s' [r | []]]; cbn [snd] in *;
      try discriminate; try exact Hb.
    unfold bind, print, ret. cbn. congruence. }
  apply Hh. clear Hh v. intros v.
  destruct (action args) as [[] |]; try (cbn; congruence).
  - unfold info, call, bind, lift, print, ret.
    destruct (get_datetime dev) as [t | []]; cbn; congruence.
  - unfold zero, bind, print, call, ret.
    destruct (existsb _ _); cbn; [| congruence].
    destruct (zero_log dev) as [[] |]; cbn; congruence.
  - rewrite datetime_action_cases.
    destruct (set args) as [text |].
    + destruct (String.eqb text "now");
        [| destruct (String.eqb text "")].
      * unfold call, bind, print, ret.
        destruct (set_datetime dev None) as [t |]; cbn; congruence.
      * unfold call, bind, print, ret.
        destruct (get_datetime dev) as [t |]; cbn; congruence.
      * destruct (obind (dateutil w) _) as [d | []];
          unfold call, bind, print, ret, logging_error, lift; cbn;
          try congruence.
        destruct (set_datetime dev (Some d)) as [t |]; cbn; congruence.
    + unfold call, bind, print, ret.
      destruct (get_datetime dev) as [t |]; cbn; congruence.
Qed.

(** The lines 78-177 step by step. *)
Lemma run_steps args w :
  run args w no_effects
  = match import_module w ("glucometerutils.drivers." ++ driver args) with
    | Raise (ImportError e) =>
        (mk_effects []
           ["Error importing driver " ++ dquote ++ driver args ++ dquote
              ++ ", please check your --driver parameter:" ++ lf ++ e]
           None "" None 0 [], Ok (Some 1%Z))
    | Raise e => (no_effects, Raise e)
    | Ok drv =>
        match action args with
        | Some ActHelp =>
            (mk_effects [doc drv] [] None "" None 0 [], Ok (Some 0%Z))
        | _ =>
            match Device_new drv (device args) with
            | Raise e => (no_effects, Raise e)
            | Ok dev =>
                match connect dev with
                | Raise e =>
                    (mk_effects [] [] None "" None 0 ["connect"], Raise e)
                | Ok _ =>
                    match get_meter_info dev with
                    | Raise e =>
                        (mk_effects [] [] None "" None 0
                           ["connect"; "get_meter_info"], Raise e)
                    | Ok device_info =>
                        let (s, r) :=
                          actions args w dev device_info
                            (mk_effects [] [] None "" None 0
                               ["connect"; "get_meter_info"]) in
                        match r with
                        | Ok Fallthrough =>
                            (mk_effects (stdout s) (errors s) (file_name s)
                               (file_data s) (file_mode s) (now_calls s)
                               (device_calls s ++ ["disconnect"]),
                             match disconnect dev with
                             | Ok _ => Ok None
                             | Raise e => Raise e
                             end)
                        | Ok (Return v) => (s, Ok v)
                        | Raise e => (s, Raise e)
                        end
                    end
                end
            end
        end
    end.
Proof.
  unfold run.
  destruct (import_module w _) as [drv | []]; try reflexivity.
  assert (forall d : Device,
            (dev <- lift (Ok d) ;;
             call "connect" (connect dev) ;;;
             device_info <- call "get_meter_info" (get_meter_info dev) ;;
             r <- actions args w dev device_info ;;
             match r with
             | Fallthrough => call "disconnect" (disconnect dev) ;;; ret None
             | Return v => ret v
             end) no_effects
            = match connect d with
              | Raise e =>
                  (mk_effects [] [] None "" None 0 ["connect"], Raise e)
              | Ok _ =>
                  match get_meter_info d with
                  | Raise e =>
                      (mk_effects [] [] None "" None 0
                         ["connect"; "get_meter_info"], Raise e)
                  | Ok device_info =>
                      let (s, r) :=
                        actions args w d device_info
                          (mk_effects [] [] None "" None 0
                             ["connect"; "get_meter_info"]) in
                      match r with
                      | Ok Fallthrough =>
                          (mk_effects (stdout s) (errors s) (file_name s)
                             (file_data s) (file_mode s) (now_calls s)
                             (device_calls s ++ ["disconnect"]),
                           match disconnect d with
                           | Ok _ => Ok None
                           | Raise e => Raise e
                           end)
                      | Ok (Return v) => (s, Ok v)
                      | Raise e => (s, Raise e)
                      end
                  end
              end) as Hdev.
  { intros d. unfold bind, lift, call, ret. cbn.
    destruct (connect d) as [[] |]; [| reflexivity].
    destruct (get_meter_info d) as [device_info |]; [| reflexivity].
    destruct (actions args w d device_info _) as [s [[| v] | e]];
      try reflexivity.
    destruct (disconnect d) as [[] |]; reflexivity. }
  destruct (action args) as [[] |]; try reflexivity;
    (unfold bind at 1; unfold lift at 1;
     destruct (Device_new drv (device args)) as [dev |]; [| reflexivity];
     exact (Hdev dev)).
Qed.

(** The device calls of the lines 78-177 and how they end. *)
Lemma run_calls args w :
  (device_calls (fst (run args w no_effects)) = [] /\
   snd (run args w no_effects) <> Ok None) \/
  (device_calls (fst (run args w no_effects)) = ["connect"] /\
   exists e, snd (run args w no_effects) = Raise e) \/
  (device_calls (fst (run args w no_effects)) = ["connect"; "get_meter_info"]
   /\ exists e, snd (run args w no_effects) = Raise e) \/
  (device_calls (fst (run args w no_effects))
   = (["connect"; "get_meter_info"] ++ action_calls args w)%list /\
   snd (run args w no_effects) <> Ok None) \/
  (device_calls (fst (run args w no_effects)) = expected_calls args w /\
   forall v, snd (run args w no_effects) <> Ok (Some v)).
Proof.
  rewrite run_steps.
  destruct (import_module w _) as [drv | e].
  2:{ left. destruct e; split; try reflexivity; discriminate. }
  assert (action args = Some ActHelp \/ action args <> Some ActHelp)
    as [Hh | Hh]
    by (destruct (action args) as [[] |];
        (left; reflexivity) || (right; discriminate)).
  { rewrite Hh. left. split; [reflexivity | discriminate]. }
  assert (forall (X : Type) (a b : X),
            match action args with
            | Some ActHelp => a
            | _ => b
            end = b) as Hskip.
  { intros X a b. destruct (action args) as [[] |]; try reflexivity.
    exfalso. apply Hh. reflexivity. }
  rewrite Hskip.
  destruct (Device_new drv (device args)) as [dev | e].
  2:{ left. split; [reflexivity | discriminate]. }
  destruct (connect dev) as [[] | e].
  2:{ right. left. split; [reflexivity | exists e; reflexivity]. }
  destruct (get_meter_info dev) as [device_info | e].
  2:{ right. right. left. split; [reflexivity | exists e; reflexivity]. }
  pose proof (actions_calls args w dev device_info
                (mk_effects [] [] None "" None 0
                   ["connect"; "get_meter_info"])) as Hc.
  cbn [device_calls] in Hc.
  pose proof (actions_returns args w dev device_info
                (mk_effects [] [] None "" None 0
                   ["connect"; "get_meter_info"])) as Hr.
  destruct (actions args w dev device_info _) as [s' [[| v] | e]];
    cbn [fst snd] in Hc, Hr.
  - right. right. right. right. cbn [fst snd device_calls].
    rewrite Hc. unfold expected_calls.
    split; [rewrite <- app_assoc; reflexivity|].
    intros v; destruct (disconnect dev); discriminate.
  - right. right. right. left. cbn [fst snd].
    split; [exact Hc|]. rewrite (Hr v eq_refl). discriminate.
  - right. right. right. left. cbn [fst snd].
    split; [exact Hc | discriminate].
Qed.

(** X13. The lines 78-177 call the device methods in a fixed order:
    [connect], [get_meter_info], the methods of the action, [disconnect];
    when they stop early they have called an initial segment of them. *)
Theorem device_calls_in_order (args : Args) (w : World) :
  prefix_of (device_calls (fst (run args w no_effects)))
    (expected_calls args w).
Proof.
  unfold prefix_of, expected_calls.
  destruct (run_calls args w) as [[E _] | [[E _] | [[E _] | [[E _] | [E _]]]]];
    rewrite E.
  - eexists. reflexivity.
  - eexists. reflexivity.
  - eexists. reflexivity.
  - exists ["disconnect"]. rewrite <- app_assoc. reflexivity.
  - exists []. rewrite app_nil_r. reflexivity.
Qed.

Ltac absent H :=
  cbn in H;
  repeat match type of H with
         | _ \/ _ => destruct H as [H | H]
         end;
  solve [discriminate H | contradiction].

Lemma run_calls_action args w name :
  In name (device_calls (fst (run args w no_effects))) ->
  name <> "connect" -> name <> "get_meter_info" -> name <> "disconnect" ->
  In name (action_calls args w).
Proof.
  intros Hin H1 H2 H3.
  destruct (run_calls args w) as [[E _] | [[E _] | [[E _] | [[E _] | [E _]]]]];
    rewrite E in Hin; unfold expected_calls in *; cbn [In app] in Hin.
  - destruct Hin.
  - destruct Hin as [<- | []]. congruence.
  - destruct Hin as [<- | [<- | []]]; congruence.
  - destruct Hin as [<- | [<- | Hin]]; congruence.
  - destruct Hin as [<- | [<- | Hin]]; [congruence | congruence |].
    apply in_app_or in Hin. destruct Hin as [Hin | [<- | []]];
      [exact Hin | congruence].
Qed.

(** X14. The lines 78-177 change the device only on request: [zero_log]
    is called only by the [zero] action after the user answered [y], [ye]
    or [yes], and [set_datetime] only by the [datetime] action with a
    non-empty [--set]. *)
Theorem device_changed_only_on_request (args : Args) (w : World) :
  (In "zero_log" (device_calls (fst (run args w no_effects))) ->
   action args = Some ActZero /\ confirmed w = true) /\
  (In "set_datetime" (device_calls (fst (run args w no_effects))) ->
   action args = Some ActDatetime /\
   exists text, set args = Some text /\ text <> "").
Proof.
  split; intros Hin;
    apply run_calls_action in Hin; try discriminate.
  - destruct (action args) as [[] |] eqn:Hact;
      try (unfold action_calls in Hin; rewrite Hact in Hin; absent Hin).
    + unfold action_calls in Hin. rewrite Hact in Hin.
      split; [reflexivity|]. destruct (confirmed w); [reflexivity|].
      absent Hin.
    + rewrite (action_calls_datetime _ _ Hact) in Hin.
      destruct (set args) as [text |]; [| absent Hin].
      destruct (String.eqb text "now"); [absent Hin|].
      destruct (String.eqb text ""); [absent Hin|].
      destruct (obind _ _); absent Hin.
  - destruct (action args) as [[] |] eqn:Hact;
      try (unfold action_calls in Hin; rewrite Hact in Hin; absent Hin).
    + unfold action_calls in Hin. rewrite Hact in Hin.
      destruct (confirmed w); absent Hin.
    + split; [reflexivity|].
      rewrite (action_calls_datetime _ _ Hact) in Hin.
      destruct (set args) as [text |]; [| absent Hin].
      exists text. split; [reflexivity|]. intros ->. absent Hin.
Qed.

(** X15. The lines 78-177 return [None], 0 or 1 and nothing else; when
    they return 0 or 1 the device has not been disconnected, and when they
    return [None] every call was made, [disconnect] last. *)
Theorem run_returns_and_disconnects (args : Args) (w : World) :
  (forall v, snd (run args w no_effects) = Ok v ->
     v = None \/ v = Some 0%Z \/ v = Some 1%Z) /\
  (forall v, snd (run args w no_effects) = Ok (Some v) ->
     ~ In "disconnect" (device_calls (fst (run args w no_effects)))) /\
  (snd (run args w no_effects) = Ok None ->
   device_calls (fst (run args w no_effects)) = expected_calls args w).
Proof.
  split; [| split].
  - intros v. rewrite run_steps.
    destruct (import_module w _) as [drv | []]; cbn [snd];
      try discriminate; try (intros [= <-]; auto).
    assert (forall (d : Device) (r : Effects * outcome (option Z)),
              (forall x, snd r = Ok x -> x = None \/ x = Some 0%Z \/ x = Some 1%Z) ->
              snd r = Ok v -> v = None \/ v = Some 0%Z \/ v = Some 1%Z)
      as Hgen by (intros d r Hr; apply Hr).
    assert (forall dev,
              snd (match connect dev with
                   | Raise e =>
                       (mk_effects [] [] None "" None 0 ["connect"], Raise e)
                   | Ok _ =>
                       match get_meter_info dev with
                       | Raise e =>
                           (mk_effects [] [] None "" None 0
                              ["connect"; "get_meter_info"], Raise e)
                       | Ok device_info =>
                           let (s, r) :=
                             actions args w dev device_info
                               (mk_effects [] [] None "" None 0
                                  ["connect"; "get_meter_info"]) in
                           match r with
                           | Ok Fallthrough =>
                               (mk_effects (stdout s) (errors s) (file_name s)
                                  (file_data s) (file_mode s) (now_calls s)
                                  (device_calls s ++ ["disconnect"]),
                                match disconnect dev with
                                | Ok _ => Ok None
                                | Raise e => Raise e
                                end)
                           | Ok (Return v) => (s, Ok v)
                           | Raise e => (s, Raise e)
                           end
                       end
                   end) = Ok v ->
              v = None \/ v = Some 0%Z \/ v = Some 1%Z) as Hdev.
    { intros dev.
      destruct (connect dev) as [[] |]; [| discriminate].
      destruct (get_meter_info dev) as [device_info |]; [| discriminate].
      pose proof (actions_returns args w dev device_info
                    (mk_effects [] [] None "" None 0
                       ["connect"; "get_meter_info"])) as Hr.
      destruct (actions args w dev device_info _) as [s [[| x] | e]];
        cbn [snd] in *; try discriminate.
      - destruct (disconnect dev); [intros [= <-]; auto | discriminate].
      - intros [= <-]. rewrite (Hr x eq_refl). auto. }
    destruct (action args) as [[] |]; cbn [snd];
      try (intros [= <-]; auto);
      destruct (Device_new drv (device args)) as [dev |];
      try discriminate; apply Hdev.
  - intros v Hv Hin.
    destruct (run_calls args w)
      as [[E _] | [[E [e He]] | [[E [e He]] | [[E _] | [E Hn]]]]];
      try (rewrite He in Hv; discriminate);
      try (exact (Hn v Hv)); rewrite E in Hin; cbn [In app] in Hin.
    + destruct Hin.
    + destruct Hin as [Hin | [Hin | Hin]]; try discriminate.
      apply action_calls_names in Hin. cbn [In] in Hin.
      destruct Hin as [H | [H | [H | []]]]; discriminate.
  - intros Hv.
    destruct (run_calls args w)
      as [[_ Hn] | [[_ [e He]] | [[_ [e He]] | [[_ Hn] | [E _]]]]];
      try (rewrite He in Hv; discriminate);
      try (exfalso; exact (Hn Hv)). exact E.
Qed.

(** ** What each action does *)

Lemma reaches_steps args w dev device_info :
  reaches args w dev device_info ->
  run args w no_effects
  = let (s, r) :=
      actions args w dev device_info
        (mk_effects [] [] None "" None 0 ["connect"; "get_meter_info"]) in
    match r with
    | Ok Fallthrough =>
        (mk_effects (stdout s) (errors s) (file_name s) (file_data s)
           (file_mode s) (now_calls s) (device_calls s ++ ["disconnect"]),
         match disconnect dev with
         | Ok _ => Ok None
         | Raise e => Raise e
         end)
    | Ok (Return v) => (s, Ok v)
    | Raise e => (s, Raise e)
    end.
Proof.
  intros (Hact & drv & Himp & Hdev & Hcon & Hinfo).
  rewrite run_steps, Himp, Hdev, Hcon, Hinfo.
  destruct (action args) as [[] |]; try reflexivity.
  exfalso. apply Hact. reflexivity.
Qed.

(** X16. An exception raised while the device is built, connected or
    asked for its information (lines 94-97) is outside the [try] block:
    the lines 78-177 raise it unchanged, and nothing is printed or
    logged. *)
Theorem connect_error_not_handled (args : Args) (w : World) (drv : Driver)
  (dev : Device) (e : exn) :
  action args <> Some ActHelp ->
  import_module w ("glucometerutils.drivers." ++ driver args) = Ok drv ->
  Device_new drv (device args) = Raise e \/
  (Device_new drv (device args) = Ok dev /\ connect dev = Raise e) \/
  (Device_new drv (device args) = Ok dev /\ connect dev = Ok tt /\
   get_meter_info dev = Raise e) ->
  snd (run args w no_effects) = Raise e /\
  stdout (fst (run args w no_effects)) = [] /\
  errors (fst (run args w no_effects)) = [] /\
  ~ In "disconnect" (device_calls (fst (run args w no_effects))).
Proof.
  intros Hact Himp H.
  rewrite run_steps, Himp.
  assert (forall (X : Type) (a b : X),
            match action args with
            | Some ActHelp => a
            | _ => b
            end = b) as Hskip.
  { intros X a b. destruct (action args) as [[] |]; try reflexivity.
    exfalso. apply Hact. reflexivity. }
  rewrite Hskip.
  destruct H as [H | [[Hd H] | (Hd & Hc & H)]].
  - rewrite H. repeat split. intros [].
  - rewrite Hd, H. repeat split. intros [Hx | []]. discriminate.
  - rewrite Hd, Hc, H. repeat split. intros [Hx | [Hx | []]]; discriminate.
Qed.

(** [--driver unplugged info]: [connect] fails with a driver error. *)
Lemma connect_error_not_handled_sample :
  snd (run (args_of "unplugged" ActInfo None) second_world no_effects)
  = Raise (GlucometerError "no device") /\
  stdout (fst (run (args_of "unplugged" ActInfo None) second_world
                 no_effects)) = [] /\
  errors (fst (run (args_of "unplugged" ActInfo None) second_world
                 no_effects)) = [] /\
  ~ In "disconnect"
      (device_calls (fst (run (args_of "unplugged" ActInfo None)
                            second_world no_effects))).
Proof.
  apply (connect_error_not_handled (args_of "unplugged" ActInfo None)
           second_world (mk_driver "" (fun _ => Ok unplugged_device))
           unplugged_device).
  - discriminate.
  - reflexivity.
  - right. left. split; reflexivity.
Defined.

(** X17. A driver error raised by the device inside the [try] block is
    caught: for [get_datetime] in the [info] action and for [zero_log] in
    a confirmed [zero] action the message is printed with the name of the
    action, 1 is returned, and the device is not disconnected. *)
Theorem driver_error_handled (args : Args) (w : World) (dev : Device)
  (device_info : MeterInfo.t) (msg : string) :
  reaches args w dev device_info ->
  (action args = Some ActInfo ->
   get_datetime dev = Raise (GlucometerError msg) ->
   run args w no_effects
   = (mk_effects ["Error while executing 'info': " ++ msg] [] None "" None 0
        ["connect"; "get_meter_info"; "get_datetime"],
      Ok (Some 1%Z))) /\
  (action args = Some ActZero -> confirmed w = true ->
   zero_log dev = Raise (GlucometerError msg) ->
   run args w no_effects
   = (mk_effects ["Delete the device data log? (y/N) ";
                  "Error while executing 'zero': " ++ msg] [] None "" None 0
        ["connect"; "get_meter_info"; "zero_log"],
      Ok (Some 1%Z))).
Proof.
  intros Hreach. split.
  - intros Hact Hget. rewrite (reaches_steps _ _ _ _ Hreach).
    unfold actions. rewrite Hact.
    unfold info, call, bind, lift, print, ret. rewrite Hget. reflexivity.
  - intros Hact Hyes Hzero. rewrite (reaches_steps _ _ _ _ Hreach).
    unfold actions. rewrite Hact.
    unfold zero, call, bind, lift, print, ret. fold (confirmed w).
    rewrite Hyes, Hzero. reflexivity.
Qed.

(** [--driver unreadable info]. *)
Lemma driver_error_handled_sample :
  (action (args_of "unreadable" ActInfo None) = Some ActInfo ->
   get_datetime unreadable_device = Raise (GlucometerError "bad checksum") ->
   run (args_of "unreadable" ActInfo None) second_world no_effects
   = (mk_effects ["Error while executing 'info': " ++ "bad checksum"] [] None
        "" None 0 ["connect"; "get_meter_info"; "get_datetime"],
      Ok (Some 1%Z))) /\
  (action (args_of "unreadable" ActInfo None) = Some ActZero ->
   confirmed second_world = true ->
   zero_log unreadable_device = Raise (GlucometerError "bad checksum") ->
   run (args_of "unreadable" ActInfo None) second_world no_effects
   = (mk_effects ["Delete the device data log? (y/N) ";
                  "Error while executing 'zero': " ++ "bad checksum"] [] None
        "" None 0 ["connect"; "get_meter_info"; "zero_log"],
      Ok (Some 1%Z))).
Proof.
  apply (driver_error_handled (args_of "unreadable" ActInfo None) second_world
           unreadable_device sample_info "bad checksum").
  split; [discriminate|].
  exists (mk_driver "" (fun _ => Ok unreadable_device)). repeat split.
Defined.

Example driver_error_handled_run :
  run (args_of "unreadable" ActInfo None) second_world no_effects
  = (mk_effects ["Error while executing 'info': bad checksum"] [] None
       "" None 0 ["connect"; "get_meter_info"; "get_datetime"],
     Ok (Some 1%Z)).
Proof. reflexivity. Qed.

(** X18. In the lines 78-177 the [info] action prints one text, the meter information followed by
    the time of the device, and [N/A] for the time when the driver does
    not implement [get_datetime]. *)
Theorem info_prints_time_or_na (args : Args) (w : World) (dev : Device)
  (device_info : MeterInfo.t) :
  reaches args w dev device_info ->
  action args = Some ActInfo ->
  (get_datetime dev = Raise NotImplementedError ->
   stdout (fst (run args w no_effects))
   = [MeterInfo.str device_info ++ "Time: N/A"]) /\
  (forall t, get_datetime dev = Ok t ->
   stdout (fst (run args w no_effects))
   = [MeterInfo.str device_info ++ "Time: " ++ t]) /\
  (get_datetime dev = Raise NotImplementedError \/
   (exists t, get_datetime dev = Ok t) ->
   device_calls (fst (run args w no_effects))
   = ["connect"; "get_meter_info"; "get_datetime"; "disconnect"] /\
   forall v, snd (run args w no_effects) <> Ok (Some v)).
Proof.
  intros Hreach Hact.
  rewrite (reaches_steps _ _ _ _ Hreach).
  unfold actions. rewrite Hact.
  unfold info, call, bind, lift, print, ret.
  repeat split.
  - intros H. rewrite H. reflexivity.
  - intros t H. rewrite H. reflexivity.
  - destruct H as [H | [t H]]; rewrite H; reflexivity.
  - intros v. destruct H as [H | [t H]]; rewrite H; cbn;
      destruct (disconnect dev); discriminate.
Qed.

(** [--driver tidy info]: the driver does not implement [get_datetime]. *)
Lemma info_prints_time_or_na_sample :
  (get_datetime tidy_device = Raise NotImplementedError ->
   stdout (fst (run (args_of "tidy" ActInfo None) second_world no_effects))
   = [MeterInfo.str sample_info ++ "Time: N/A"]) /\
  (forall t, get_datetime tidy_device = Ok t ->
   stdout (fst (run (args_of "tidy" ActInfo None) second_world no_effects))
   = [MeterInfo.str sample_info ++ "Time: " ++ t]) /\
  (get_datetime tidy_device = Raise NotImplementedError \/
   (exists t, get_datetime tidy_device = Ok t) ->
   device_calls (fst (run (args_of "tidy" ActInfo None) second_world
                        no_effects))
   = ["connect"; "get_meter_info"; "get_datetime"; "disconnect"] /\
   forall v,
     snd (run (args_of "tidy" ActInfo None) second_world no_effects)
     <> Ok (Some v)).
Proof.
  apply (info_prints_time_or_na (args_of "tidy" ActInfo None) second_world
           tidy_device sample_info).
  - split; [discriminate|].
    exists (mk_driver "" (fun _ => Ok tidy_device)). repeat split.
  - reflexivity.
Defined.

(** X19. In the lines 78-177, [datetime --set TEXT] with a text that
    [dateutil] rejects, or without [dateutil], logs one error and returns 1
    without touching the clock of the device. *)
Theorem datetime_set_rejected (args : Args) (w : World) (dev : Device)
  (device_info : MeterInfo.t) (text : string) (e : exn) :
  reaches args w dev device_info ->
  action args = Some ActDatetime ->
  set args = Some text -> text <> "now" -> text <> "" ->
  obind (dateutil w) (fun parse => parse text) = Raise e ->
  e = ValueError \/ (exists m, e = ImportError m) ->
  snd (run args w no_effects) = Ok (Some 1%Z) /\
  stdout (fst (run args w no_effects)) = [] /\
  List.length (errors (fst (run args w no_effects))) = 1%nat /\
  device_calls (fst (run args w no_effects)) = ["connect"; "get_meter_info"].
Proof.
  intros Hreach Hact Hset Hnow Hempty Hparse He.
  rewrite (reaches_steps _ _ _ _ Hreach).
  unfold actions. rewrite Hact, datetime_action_cases, Hset.
  apply String.eqb_neq in Hnow, Hempty. rewrite Hnow, Hempty, Hparse.
  destruct He as [-> | [m ->]]; repeat split.
Qed.

(** [--driver tidy datetime --set tomorrowish]. *)
Lemma datetime_set_rejected_sample :
  snd (run (args_of "tidy" ActDatetime (Some "tomorrowish")) second_world
         no_effects) = Ok (Some 1%Z) /\
  stdout (fst (run (args_of "tidy" ActDatetime (Some "tomorrowish"))
                 second_world no_effects)) = [] /\
  List.length
    (errors (fst (run (args_of "tidy" ActDatetime (Some "tomorrowish"))
                    second_world no_effects))) = 1%nat /\
  device_calls (fst (run (args_of "tidy" ActDatetime (Some "tomorrowish"))
                       second_world no_effects))
  = ["connect"; "get_meter_info"].
Proof.
  apply (datetime_set_rejected
           (args_of "tidy" ActDatetime (Some "tomorrowish")) second_world
           tidy_device sample_info "tomorrowish" ValueError).
  - split; [discriminate|].
    exists (mk_driver "" (fun _ => Ok tidy_device)). repeat split.
  - reflexivity.
  - reflexivity.
  - discriminate.
  - discriminate.
  - reflexivity.
  - left. reflexivity.
Defined.

(** X20. In the lines 78-177 the [zero] action asks first; it erases the log when the answer is
    [y], [ye] or [yes] in any case, and otherwise leaves the device alone
    and returns 1. *)
Theorem zero_asks_first (args : Args) (w : World) (dev : Device)
  (device_info : MeterInfo.t) :
  reaches args w dev device_info ->
  action args = Some ActZero ->
  (confirmed w = false ->
   run args w no_effects
   = (mk_effects ["Delete the device data log? (y/N) ";
                  lf ++ "Device data log not zeroed."] [] None "" None 0
        ["connect"; "get_meter_info"],
      Ok (Some 1%Z))) /\
  (confirmed w = true -> zero_log dev = Ok tt ->
   stdout (fst (run args w no_effects))
   = ["Delete the device data log? (y/N) ";
      lf ++ "Device data log zeroed."] /\
   device_calls (fst (run args w no_effects))
   = ["connect"; "get_meter_info"; "zero_log"; "disconnect"]).
Proof.
  intros Hreach Hact.
  rewrite (reaches_steps _ _ _ _ Hreach).
  unfold actions. rewrite Hact.
  unfold zero, bind, print, call, ret. fold (confirmed w).
  split.
  - intros H. rewrite H. reflexivity.
  - intros H Hz. rewrite H, Hz. split; reflexivity.
Qed.

(** [--driver tidy zero] answered [n]. *)
Lemma zero_asks_first_sample :
  (confirmed second_world = false ->
   run (args_of "tidy" ActZero None) second_world no_effects
   = (mk_effects ["Delete the device data log? (y/N) ";
                  lf ++ "Device data log not zeroed."] [] None "" None 0
        ["connect"; "get_meter_info"],
      Ok (Some 1%Z))) /\
  (confirmed second_world = true -> zero_log tidy_device = Ok tt ->
   stdout (fst (run (args_of "tidy" ActZero None) second_world no_effects))
   = ["Delete the device data log? (y/N) ";
      lf ++ "Device data log zeroed."] /\
   device_calls (fst (run (args_of "tidy" ActZero None) second_world
                        no_effects))
   = ["connect"; "get_meter_info"; "zero_log"; "disconnect"]).
Proof.
  apply (zero_asks_first (args_of "tidy" ActZero None) second_world
           tidy_device sample_info).
  - split; [discriminate|].
    exists (mk_driver "" (fun _ => Ok tidy_device)). repeat split.
  - reflexivity.
Defined.

(** ** More on the export file *)

(** X21. The lines 122-142 name the file after the output folder and the
    first reading of the clock, give it the mode 0o777 after writing, read
    the clock once more for each reading they are given, print nothing and
    call no device method. *)
Theorem export_file_name_and_mode (args : Args) (w : World) (u : Unit)
  (rs : list Reading) :
  opens args w ->
  snd (export_to_file args w (PyUnit u) rs no_effects) = Ok tt /\
  file_name (fst (export_to_file args w (PyUnit u) rs no_effects))
  = Some (output_folder args ++ "/" ++ format_compact (now w 0) ++ ".csv") /\
  file_mode (fst (export_to_file args w (PyUnit u) rs no_effects))
  = Some 511%N /\
  now_calls (fst (export_to_file args w (PyUnit u) rs no_effects))
  = S (List.length rs) /\
  stdout (fst (export_to_file args w (PyUnit u) rs no_effects)) = [] /\
  device_calls (fst (export_to_file args w (PyUnit u) rs no_effects)) = [].
Proof.
  intros H. rewrite export_to_file_run by exact H. repeat split.
Qed.

(** The file for the readings of the sample device. *)
Lemma export_file_name_and_mode_sample :
  snd (export_to_file dump_to_file_args sample_world (PyUnit MMOL_L)
         [Ketone ketone_reading; Glucose sensor_reading] no_effects)
  = Ok tt /\
  file_name (fst (export_to_file dump_to_file_args sample_world
                    (PyUnit MMOL_L)
                    [Ketone ketone_reading; Glucose sensor_reading]
                    no_effects))
  = Some (output_folder dump_to_file_args ++ "/"
            ++ format_compact (now sample_world 0) ++ ".csv") /\
  file_mode (fst (export_to_file dump_to_file_args sample_world
                    (PyUnit MMOL_L)
                    [Ketone ketone_reading; Glucose sensor_reading]
                    no_effects))
  = Some 511%N /\
  now_calls (fst (export_to_file dump_to_file_args sample_world
                    (PyUnit MMOL_L)
                    [Ketone ketone_reading; Glucose sensor_reading]
                    no_effects))
  = S (List.length [Ketone ketone_reading; Glucose sensor_reading]) /\
  stdout (fst (export_to_file dump_to_file_args sample_world (PyUnit MMOL_L)
                 [Ketone ketone_reading; Glucose sensor_reading] no_effects))
  = [] /\
  device_calls (fst (export_to_file dump_to_file_args sample_world
                       (PyUnit MMOL_L)
                       [Ketone ketone_reading; Glucose sensor_reading]
                       no_effects))
  = [].
Proof.
  apply (export_file_name_and_mode dump_to_file_args sample_world MMOL_L).
  reflexivity.
Defined.

Example sample_export_file_name :
  file_name (fst (export_to_file dump_to_file_args sample_world
                    (PyUnit MMOL_L) [] no_effects))
  = Some "./20250601000000.csv".
Proof. vm_compute. reflexivity. Qed.

Lemma tsv_text_columns u r :
  List.length (columns (tsv_text u r)) = 19%nat.
Proof.
  unfold tsv_text. destruct r as [g | k]; cbn [Reading_as_tsv].
  - rewrite glucose_as_tsv_text.
    rewrite columns_concat;
      [reflexivity | discriminate |
       apply lacks_glucose_columns, control_tab].
  - rewrite ketone_as_tsv_text.
    rewrite columns_concat;
      [reflexivity | discriminate |
       apply lacks_ketone_columns, control_tab].
Qed.

Lemma nth_rows u rs : forall rowid i,
  (i < List.length rs)%nat ->
  exists r, nth_error rs i = Some r /\
    nth i (rows u rowid rs) ""
    = dec (rowid + N.of_nat i) ++ tab ++ tsv_text u r.
Proof.
  induction rs as [| a rs IH]; intros rowid i Hi; [inversion Hi|].
  destruct i as [| i].
  - exists a. split; [reflexivity|]. cbn [rows nth N.of_nat].
    rewrite N.add_0_r. reflexivity.
  - cbn [List.length] in Hi.
    destruct (IH (rowid + 1)%N i ltac:(lia)) as (r & Er & En).
    exists r. split; [exact Er|]. cbn [rows nth]. rewrite En.
    replace (rowid + 1 + N.of_nat i)%N with (rowid + N.of_nat (S i))%N by lia.
    reflexivity.
Qed.

(** X22. In the file the lines 122-142 write, every row has 20
    tab-separated fields, one more than the header line has column headers
    (the row ends with a tab), and the rows are numbered 1, 2, 3, ... in
    their first field, the skipped readings taking no number. *)
Theorem export_rows_have_20_fields (args : Args) (w : World) (u : Unit)
  (rs : list Reading) (i : nat) :
  opens args w ->
  (i < List.length (exported w 1 rs))%nat ->
  List.length
    (columns (nth (3 + i) (lines (export_file args w u rs)) "")) = 20%nat /\
  nth 0 (columns (nth (3 + i) (lines (export_file args w u rs)) "")) ""
  = dec (N.of_nat (S i)) /\
  List.length (columns (nth 2 (lines (export_file args w u rs)) ""))
  = 19%nat.
Proof.
  intros H Hi. rewrite (export_file_data args w u rs H).
  rewrite header_lines.
  rewrite <- (append_nil_r (rows_text _)).
  rewrite lines_rows_text by apply lacks_cr_rows.
  cbn [plus nth].
  rewrite app_nth1 by (rewrite length_rows; exact Hi).
  destruct (nth_rows u (exported w 1 rs) 1%N i Hi) as (r & _ & En).
  rewrite En.
  rewrite columns_cons by (apply lacks_dec, control_tab).
  cbn [List.length nth]. rewrite tsv_text_columns.
  repeat split. f_equal. lia.
Qed.

(** The second row of the file for the readings of the sample device. *)
Lemma export_rows_have_20_fields_sample :
  List.length
    (columns
       (nth (3 + 1)
          (lines (export_file dump_to_file_args sample_world MMOL_L
                    [Ketone ketone_reading; Glucose sensor_reading;
                     Glucose sensor_reading_str; Glucose future_reading]))
          ""))
  = 20%nat /\
  nth 0
    (columns
       (nth (3 + 1)
          (lines (export_file dump_to_file_args sample_world MMOL_L
                    [Ketone ketone_reading; Glucose sensor_reading;
                     Glucose sensor_reading_str; Glucose future_reading]))
          "")) ""
  = dec (N.of_nat 2) /\
  List.length
    (columns
       (nth 2
          (lines (export_file dump_to_file_args sample_world MMOL_L
                    [Ketone ketone_reading; Glucose sensor_reading;
                     Glucose sensor_reading_str; Glucose future_reading]))
          ""))
  = 19%nat.
Proof.
  apply (export_rows_have_20_fields dump_to_file_args sample_world MMOL_L
           [Ketone ketone_reading; Glucose sensor_reading;
            Glucose sensor_reading_str; Glucose future_reading] 1).
  - reflexivity.
  - vm_compute. lia.
Defined.

(* ================================================================== *)
(** * The text of the meter information *)
(* ================================================================== *)

Lemma split_char_cons c a rest :
  lacks c a = true ->
  split_char c (a ++ String c rest) = a :: split_char c rest.
Proof.
  induction a as [| d a IH]; intros H.
  - cbn [append split_char]. rewrite Ascii.eqb_refl. reflexivity.
  - cbn [lacks] in H. apply andb_true_iff in H. destruct H as [Hd Ha].
    cbn [append split_char]. apply negb_true_iff in Hd. rewrite Hd.
    rewrite (IH Ha). reflexivity.
Qed.

Lemma text_lines_versions (vs : list string) (rest : string) :
  vs <> [] -> Forall (fun v => lacks lf_char v = true) vs ->
  text_lines ("    " ++ String.concat (lf ++ "    ") vs ++ lf ++ rest)
  = (map (append "    ") vs ++ text_lines rest)%list.
Proof.
  unfold text_lines.
  induction vs as [| v vs IH]; intros Hne Hall; [congruence|].
  apply Forall_cons_iff in Hall. destruct Hall as [Hv Hvs].
  destruct vs as [| v' vs].
  - cbn [String.concat map app].
    change ("    " ++ v ++ lf ++ rest)
      with (("    " ++ v) ++ String lf_char rest).
    rewrite split_char_cons; [reflexivity|].
    rewrite lacks_app, Hv. reflexivity.
  - assert ("    " ++ String.concat (lf ++ "    ") (v :: v' :: vs)
              ++ lf ++ rest
            = ("    " ++ v)
                ++ String lf_char
                     ("    " ++ String.concat (lf ++ "    ") (v' :: vs)
                        ++ lf ++ rest)) as E.
    { change (String.concat (lf ++ "    ") (v :: v' :: vs))
        with (v ++ (lf ++ "    ")
                ++ String.concat (lf ++ "    ") (v' :: vs)).
      rewrite !append_assoc. reflexivity. }
    rewrite E.
    rewrite split_char_cons by (rewrite lacks_app, Hv; reflexivity).
    rewrite (IH ltac:(discriminate) Hvs). reflexivity.
Qed.

(** X23. [str(info)] is laid out in lines: the model, the serial number, the
    heading of the version information, one line indented by four spaces
    per entry of the version information ([N/A] when there is none), the
    native unit, and a final newline. *)
Theorem meter_info_lines (i : MeterInfo.t) :
  lacks lf_char (MeterInfo.model i) = true ->
  lacks lf_char (MeterInfo.serial_number i) = true ->
  Forall (fun v => lacks lf_char v = true) (MeterInfo.version_info i) ->
  strip (joined_versions i) = joined_versions i ->
  text_lines (MeterInfo.str i)
  = ([MeterInfo.model i;
      ("Serial Number: " ++ MeterInfo.serial_number i)%string;
      "Version Information:"]
       ++ match MeterInfo.version_info i with
          | [] => ["    N/A"]
          | vs => map (append "    ") vs
          end
       ++ [("Native Unit: " ++ Unit_value (MeterInfo.native_unit i))%string;
           ""])%list.
Proof.
  intros Hm Hs Hv Hstrip. unfold text_lines.
  set (vis := match MeterInfo.version_info i with
              | [] => "N/A"
              | l => strip (String.concat (lf ++ "    ") l)
              end).
  assert (MeterInfo.str i
          = MeterInfo.model i
              ++ String lf_char
                   (("Serial Number: " ++ MeterInfo.serial_number i)
                      ++ String lf_char
                           ("Version Information:"
                              ++ String lf_char
                                   ("    " ++ vis ++ lf
                                      ++ "Native Unit: "
                                      ++ Unit_value (MeterInfo.native_unit i)
                                      ++ lf)))) as E
    by reflexivity.
  rewrite E.
  rewrite split_char_cons by exact Hm.
  rewrite split_char_cons by (rewrite lacks_app, Hs; reflexivity).
  rewrite split_char_cons by reflexivity.
  assert (split_char lf_char
            ("Native Unit: " ++ Unit_value (MeterInfo.native_unit i) ++ lf)
          = [("Native Unit: " ++ Unit_value (MeterInfo.native_unit i))%string;
             ""])
    as Hu by (destruct (MeterInfo.native_unit i); reflexivity).
  cbn [app]. f_equal. f_equal. f_equal. rewrite <- Hu.
  unfold vis, joined_versions in *.
  destruct (MeterInfo.version_info i) as [| v vs] eqn:Ev.
  - reflexivity.
  - rewrite Hstrip.
    apply (text_lines_versions (v :: vs)); [discriminate | exact Hv].
Qed.

(** A meter with two entries of version information. *)
Lemma meter_info_lines_sample :
  text_lines (MeterInfo.str (MeterInfo.make "Sample" "1234" ["hw 1"; "sw 2"]
                               MMOL_L))
  = ["Sample"; "Serial Number: 1234"; "Version Information:";
     "    hw 1"; "    sw 2"; "Native Unit: mmol/L"; ""].
Proof.
  apply (meter_info_lines (MeterInfo.make "Sample" "1234" ["hw 1"; "sw 2"]
                             MMOL_L)).
  - reflexivity.
  - reflexivity.
  - repeat constructor.
  - reflexivity.
Defined.
